(** * Budget Planner: the ledger, its aggregates and its store

    A shallow embedding of [frontend/src/App.js].  The component keeps a
    ledger of entries (a JS array of objects whose fields are all strings),
    derives totals, monthly totals, a per-category breakdown and a six-month
    trend from it, and edits it through a form.

    JS numbers are binary64 floats: they are modelled by Rocq's primitive
    floats, whose [+] and [-] are the IEEE 754 operations JS uses.  The
    built-ins the component calls ([parseFloat], [Date.prototype.setMonth],
    date-fns' [parseISO], [isSameMonth] and [format]) are modelled next to
    the code that calls them. *)

From Stdlib Require Import List String Ascii ZArith Lia Bool Permutation.
From Stdlib Require Import Floats.
From Stdlib Require Import DecimalString DecimalN DecimalZ.
Import ListNotations.

Local Open Scope Z_scope.

(* ================================================================== *)
(** * JS numbers *)
(* ================================================================== *)

Module JsNumber.

(** ** Reading a decimal literal

    [parseFloat] skips leading white space, takes the longest prefix of
    what is left that is a [StrDecimalLiteral] (ECMA-262, 19.2.4), and
    returns its value rounded to the nearest binary64, or NaN when there
    is no such prefix. *)

Definition code (c : ascii) : Z := Z.of_nat (nat_of_ascii c).

Definition is_digit (c : ascii) : bool := (48 <=? code c) && (code c <=? 57).

Definition digit_val (c : ascii) : Z := code c - 48.

(** White space and line terminators, on the UTF-8 bytes of the string:
    TAB, LF, VT, FF, CR, SP; NBSP (C2 A0); U+1680 (E1 9A 80);
    U+2000..U+200A, U+2028, U+2029, U+202F (E2 80 xx); U+205F (E2 81 9F);
    U+3000 (E3 80 80); U+FEFF (EF BB BF). *)
Fixpoint skip_white (fuel : nat) (s : list ascii) : list ascii :=
  match fuel with
  | O => s
  | S fuel' =>
    match s with
    | c :: r =>
      if ((9 <=? code c) && (code c <=? 13)) || (code c =? 32)
      then skip_white fuel' r
      else
        match s with
        | c1 :: c2 :: r2 =>
          if (code c1 =? 194) && (code c2 =? 160) then skip_white fuel' r2
          else
            match r2 with
            | c3 :: r3 =>
              let k1 := code c1 in let k2 := code c2 in let k3 := code c3 in
              if ((k1 =? 225) && (k2 =? 154) && (k3 =? 128))
                 || ((k1 =? 226) && (k2 =? 128)
                     && (((128 <=? k3) && (k3 <=? 138)) || (k3 =? 168)
                         || (k3 =? 169) || (k3 =? 175)))
                 || ((k1 =? 226) && (k2 =? 129) && (k3 =? 159))
                 || ((k1 =? 227) && (k2 =? 128) && (k3 =? 128))
                 || ((k1 =? 239) && (k2 =? 187) && (k3 =? 191))
              then skip_white fuel' r3
              else s
            | [] => s
            end
        | _ => s
        end
    | [] => s
    end
  end.

(** [DecimalDigits]: the digits read so far are accumulated in [acc],
    their number in [n]. *)
Fixpoint take_digits (s : list ascii) (acc : Z) (n : Z) : Z * Z * list ascii :=
  match s with
  | c :: r => if is_digit c then take_digits r (10 * acc + digit_val c) (n + 1)
              else (acc, n, s)
  | [] => (acc, n, s)
  end.

(** [ExponentPart], when one follows; otherwise the exponent is 0. *)
Definition take_exponent (s : list ascii) : Z :=
  match s with
  | c :: r =>
    if (code c =? 101) || (code c =? 69) then
      let '(neg, r') :=
        match r with
        | d :: r1 => if code d =? 45 then (true, r1)
                     else if code d =? 43 then (false, r1) else (false, r)
        | [] => (false, r)
        end in
      let '(e, n, _) := take_digits r' 0 0 in
      if n =? 0 then 0 else if neg then - e else e
    else 0
  | [] => 0
  end.

(** What a [StrDecimalLiteral] denotes: an infinity, or [m * 10^e]. *)
Inductive literal : Type :=
| LitInfinity (neg : bool)
| LitDecimal (neg : bool) (m : Z) (e : Z).

Definition Infinity_chars : list ascii :=
  list_ascii_of_string "Infinity".

Fixpoint starts_with (p s : list ascii) : bool :=
  match p, s with
  | [], _ => true
  | a :: p', b :: s' => Ascii.eqb a b && starts_with p' s'
  | _ :: _, [] => false
  end.

Definition scan_unsigned (neg : bool) (s : list ascii) : option literal :=
  if starts_with Infinity_chars s then Some (LitInfinity neg)
  else
    let '(i, ni, r) := take_digits s 0 0 in
    let '(m, nf, r') :=
      match r with
      | c :: r1 =>
        if code c =? 46 then take_digits r1 i 0 else (i, 0, r)
      | [] => (i, 0, r)
      end in
    if (ni =? 0) && (nf =? 0) then None
    else Some (LitDecimal neg m (take_exponent r' - nf)).

Definition scan_StrDecimalLiteral (s : list ascii) : option literal :=
  match s with
  | c :: r =>
    if code c =? 45 then scan_unsigned true r
    else if code c =? 43 then scan_unsigned false r
    else scan_unsigned false s
  | [] => None
  end.

(** ** Rounding a decimal to binary64

    [m * 10^e] with [0 < m] is rounded to nearest, ties to even.  For a
    negative exponent the quotient [m / 10^(-e)] is taken with at least 64
    significant bits and its last bit is set when the division is inexact
    (round to odd), so that the final rounding to 53 bits is that of the
    exact value. *)
Definition round_decimal (m e : Z) : spec_float :=
  if 0 <=? e then binary_normalize prec emax (m * 10 ^ e) 0 false
  else
    let d := 10 ^ (- e) in
    let s := Z.max 0 (Z.log2 d - Z.log2 m + 64) in
    let n := m * 2 ^ s in
    let q := n / d in
    let q' := if n mod d =? 0 then q else Z.lor q 1 in
    binary_normalize prec emax q' (- s) false.

Definition Number_of_literal (l : literal) : float :=
  match l with
  | LitInfinity neg => if neg then neg_infinity else infinity
  | LitDecimal neg m e =>
    let x := if m =? 0 then PrimFloat.zero else SF2Prim (round_decimal m e) in
    if neg then PrimFloat.opp x else x
  end.

Definition parseFloat (s : string) : float :=
  let cs := list_ascii_of_string s in
  match scan_StrDecimalLiteral (skip_white (List.length cs) cs) with
  | Some l => Number_of_literal l
  | None => nan
  end.

(** [ToBoolean] of a number is false on [+0], [-0] and NaN. *)
Definition falsy (x : float) : bool := is_zero x || is_nan x.

(** ** Writing a number

    [digits n] is the decimal representation of the natural number [n]. *)
Definition digits (n : Z) : string :=
  NilZero.string_of_uint (N.to_uint (Z.to_N n)).

(** [Number::toString] on a finite [x = m * 2^e] that is at least
    [10^21] (an integer, printed in exponential notation): the shortest
    digit string [s], of [k] digits, such that [s * 10^(n - k)] rounds to
    [x], the closest to [x] when two fit. *)
Definition shortest_digits (m e : Z) : option (Z * Z) :=
  let v := m * 2 ^ e in
  let n := Z.of_nat (String.length (digits v)) in
  let fits (s p : Z) : bool :=
    match round_decimal s p with
    | S754_finite _ m' e' => (Zpos m' * 2 ^ e' =? v)
    | _ => false
    end in
  let try_k (k : Z) : option (Z * Z) :=
    let p := n - k in
    let lo := v / 10 ^ p in
    let hi := lo + 1 in
    let pick (s : Z) := if s =? 10 ^ k then Some (10 ^ (k - 1), n + 1) else Some (s, n) in
    match fits lo p, fits hi p with
    | true, true =>
      let dlo := v - lo * 10 ^ p in
      let dhi := hi * 10 ^ p - v in
      if dlo <? dhi then pick lo
      else if dhi <? dlo then pick hi
      else if Z.even lo then pick lo else pick hi
    | true, false => pick lo
    | false, true => pick hi
    | false, false => None
    end in
  fold_left (fun found k => match found with Some _ => found | None => try_k k end)
            [1; 2; 3; 4; 5; 6; 7; 8; 9; 10; 11; 12; 13; 14; 15; 16; 17] None.

Definition exponential (m e : Z) : string :=
  match shortest_digits m e with
  | Some (s, n) =>
    match digits s with
    | String d EmptyString => String d ("e+" ++ digits (n - 1))%string
    | String d ds => String d ("." ++ ds ++ "e+" ++ digits (n - 1))%string
    | EmptyString => EmptyString
    end
  | None => EmptyString
  end.

(** [x.toFixed(2)] (ECMA-262, 21.1.3.3): the integer [n] closest to
    [100 * |x|], the larger one on a tie, written with a point before its
    last two digits; [Number::toString] when [x] is not finite or
    [|x| >= 10^21]. *)
Definition toFixed2 (x : float) : string :=
  match Prim2SF x with
  | S754_nan => "NaN"%string
  | S754_infinity s => if s then "-Infinity"%string else "Infinity"%string
  | S754_zero _ => "0.00"%string
  | S754_finite s m e =>
    let m := Zpos m in
    let sign := if s then "-"%string else ""%string in
    if (0 <=? e) && (10 ^ 21 <=? m * 2 ^ e) then (sign ++ exponential m e)%string
    else
      let n := if 0 <=? e then 100 * m * 2 ^ e
               else (200 * m + 2 ^ (- e)) / 2 ^ (1 - e) in
      let ds := if n <? 10 then ("00" ++ digits n)%string
                else if n <? 100 then ("0" ++ digits n)%string
                else digits n in
      let k := (String.length ds - 2)%nat in
      (sign ++ substring 0 k ds ++ "." ++ substring k 2 ds)%string
  end.

(** [n.toString()] for an integer [n] below [10^21] in absolute value,
    as [Date.now()] returns. *)
Definition integer_toString (n : Z) : string :=
  NilZero.string_of_int (Z.to_int n).

End JsNumber.

(* ================================================================== *)
(** * Calendar dates: JS [Date] and date-fns *)
(* ================================================================== *)

Module DateFns.

(** A valid JS [Date] seen through its local-time getters [getFullYear],
    [getMonth] (0 for January) and [getDate].  The time of day plays no
    part in what the component computes. *)
Record JsDate : Type := mkDate { fullYear : Z; month : Z; dayOfMonth : Z }.

Definition is_leap (y : Z) : bool :=
  ((y mod 4 =? 0) && negb (y mod 100 =? 0)) || (y mod 400 =? 0).

(** Days of month [m] (0 for January) of year [y]. *)
Definition days_in_month (y m : Z) : Z :=
  if m =? 1 then (if is_leap y then 29 else 28)
  else if (m =? 3) || (m =? 5) || (m =? 8) || (m =? 10) then 30
  else 31.

(** Days past the end of a month are carried into the months after it,
    as ECMA-262's [MakeDay] does. *)
Fixpoint carry_days (fuel : nat) (y m d : Z) : JsDate :=
  match fuel with
  | O => mkDate y m d
  | S fuel' =>
    if d <=? days_in_month y m then mkDate y m d
    else
      let d' := d - days_in_month y m in
      if m =? 11 then carry_days fuel' (y + 1) 0 d'
      else carry_days fuel' y (m + 1) d'
  end.

(** [date.setMonth(m)]: the month becomes [m], a month outside 0..11
    moves the year, and the day of the month is kept, carried over when
    the new month is too short for it. *)
Definition setMonth (date : JsDate) (m : Z) : JsDate :=
  carry_days (Z.to_nat (dayOfMonth date))
             (fullYear date + m / 12) (m mod 12) (dayOfMonth date).

(** date-fns' [parseISO] on complete calendar dates [yyyy-MM-dd], the
    form that the date input, [format(new Date(), 'yyyy-MM-dd')] and
    [selectedMonth + '-01'] produce.  [None] is date-fns' Invalid Date;
    the other ISO 8601 forms date-fns reads (basic format, week and
    ordinal dates, a time part) are not written by the component and are
    read as invalid here. *)
Definition parseISO (s : string) : option JsDate :=
  match list_ascii_of_string s with
  | [y1; y2; y3; y4; h1; m1; m2; h2; d1; d2] =>
    let dg := JsNumber.is_digit in
    let v := JsNumber.digit_val in
    if dg y1 && dg y2 && dg y3 && dg y4 && dg m1 && dg m2 && dg d1 && dg d2
       && (JsNumber.code h1 =? 45) && (JsNumber.code h2 =? 45)
    then
      let y := 1000 * v y1 + 100 * v y2 + 10 * v y3 + v y4 in
      let m := 10 * v m1 + v m2 - 1 in
      let d := 10 * v d1 + v d2 in
      if (0 <=? m) && (m <=? 11) && (1 <=? d) && (d <=? days_in_month y m)
      then Some (mkDate y m d) else None
    else None
  | _ => None
  end.

(** [isSameMonth]: same full year and same month; false as soon as one
    side is an Invalid Date (its getters return NaN). *)
Definition isSameMonth (a b : option JsDate) : bool :=
  match a, b with
  | Some x, Some y => (fullYear x =? fullYear y) && (month x =? month y)
  | _, _ => false
  end.

Definition month_abbrev (m : Z) : string :=
  nth (Z.to_nat m)
      ["Jan"; "Feb"; "Mar"; "Apr"; "May"; "Jun";
       "Jul"; "Aug"; "Sep"; "Oct"; "Nov"; "Dec"]%string ""%string.

Definition digit_char (d : Z) : ascii := ascii_of_nat (Z.to_nat (48 + d mod 10)).

(** [yyyy]: the year on four digits at least (years 0 to 9999). *)
Definition pad4 (y : Z) : string :=
  String (digit_char (y / 1000)) (String (digit_char (y / 100))
    (String (digit_char (y / 10)) (String (digit_char y) EmptyString))).

Definition pad2 (n : Z) : string :=
  String (digit_char (n / 10)) (String (digit_char n) EmptyString).

(** [format(date, 'MMM yyyy')]. *)
Definition format_MMM_yyyy (date : JsDate) : string :=
  (month_abbrev (month date) ++ " " ++ pad4 (fullYear date))%string.

(** [format(date, 'yyyy-MM-dd')]. *)
Definition format_yyyy_MM_dd (date : JsDate) : string :=
  (pad4 (fullYear date) ++ "-" ++ pad2 (month date + 1) ++ "-"
     ++ pad2 (dayOfMonth date))%string.

End DateFns.

(* ================================================================== *)
(** * The arithmetic under the aggregates *)
(* ================================================================== *)

(** What the aggregation code asks of its numbers: [0], [+], [-], the
    truthiness test behind [x || 0], and [parseFloat]. *)
Class Arith (num : Type) : Type := {
  zero : num;
  add : num -> num -> num;
  sub : num -> num -> num;
  falsy : num -> bool;
  parseFloat : string -> num
}.

(** The arithmetic of the code: JS numbers. *)
#[export] Instance js_number : Arith float := {
  zero := PrimFloat.zero;
  add := PrimFloat.add;
  sub := PrimFloat.sub;
  falsy := JsNumber.falsy;
  parseFloat := JsNumber.parseFloat
}.

(** An amount read as a decimal, in hundredths: the integer [n] stands
    for [n / 100].  The decimal literal is the one [parseFloat] scans, cut
    after its second decimal; what is no number counts for 0. *)
Definition parseCents (s : string) : Z :=
  let cs := list_ascii_of_string s in
  match JsNumber.scan_StrDecimalLiteral (JsNumber.skip_white (List.length cs) cs) with
  | Some (JsNumber.LitDecimal neg m e) =>
    let c := if 0 <=? e + 2 then m * 10 ^ (e + 2) else m / 10 ^ (- (e + 2)) in
    if neg then - c else c
  | _ => 0
  end.

(* ================================================================== *)
(** * Entries and the aggregates ([calculations], [lineChartData]) *)
(* ================================================================== *)

Local Open Scope string_scope.

(** An entry object.  Every field is a string; [id] is absent ([None])
    from the form's object until an entry is being edited. *)
Record Entry : Type := mkEntry {
  id : option string;
  type : string;
  amount : string;
  category : string;
  description : string;
  date : string
}.

(** ** Plain JS objects used as maps

    An object created by [{}] and filled by assignments is the list of its
    own properties, in the order in which they were created.  For a key
    that is no property name of [Object.prototype], [get o k] is [o[k]]
    ([None] for [undefined]) and [set o k v] is [o[k] = v].  The names
    found on the prototype are listed under [inherited_names] below: the
    code reads a function or an object for them, and what is proved of
    [categoryBreakdown] is proved for categories outside them.  An object
    that [JSON.parse] builds gets every member as an own property, whatever
    its name. *)
Definition object (V : Type) : Type := list (string * V).

Fixpoint get {V : Type} (o : object V) (k : string) : option V :=
  match o with
  | [] => None
  | (k', v) :: o' => if k' =? k then Some v else get o' k
  end.

Fixpoint set {V : Type} (o : object V) (k : string) (v : V) : object V :=
  match o with
  | [] => [(k, v)]
  | (k', v') :: o' => if k' =? k then (k', v) :: o' else (k', v') :: set o' k v
  end.

(** A key is an array index when it is the decimal writing, with no sign
    and no leading zero, of an integer from 0 to 2^32 - 2. *)
Definition array_index (k : string) : option Z :=
  let cs := list_ascii_of_string k in
  let n := fold_left (fun n c => 10 * n + JsNumber.digit_val c)%Z cs 0%Z in
  match cs with
  | [] => None
  | c :: cs' =>
    if forallb JsNumber.is_digit cs
       && match cs' with
          | [] => true
          | _ :: _ => negb (JsNumber.code c =? 48)%Z
          end
       && (n <=? 4294967294)%Z
    then Some n
    else None
  end.

Fixpoint insert_by_index {V : Type} (n : Z) (p : string * V)
         (l : list (Z * (string * V))) : list (Z * (string * V)) :=
  match l with
  | [] => [(n, p)]
  | (n', p') :: l' =>
    if (n <? n')%Z then (n, p) :: l else (n', p') :: insert_by_index n p l'
  end.

(** The own properties in the order of [OrdinaryOwnPropertyKeys]: those
    whose key is an array index first, by ascending index, then the others
    in the order of their creation. *)
Definition ownProperties {V : Type} (o : object V) : list (string * V) :=
  (map snd
       (fold_right (fun p l => match array_index (fst p) with
                               | Some n => insert_by_index n p l
                               | None => l
                               end) [] o)
   ++ filter (fun p => match array_index (fst p) with
                       | Some _ => false
                       | None => true
                       end) o)%list.

(** [Object.keys(o)] and [Object.values(o)]. *)
Definition keys {V : Type} (o : object V) : list string := map fst (ownProperties o).

Definition values {V : Type} (o : object V) : list V := map snd (ownProperties o).

Record Calculations (num : Type) : Type := mkCalculations {
  totalIncome : num;
  totalExpenses : num;
  balance : num;
  monthlyIncome : num;
  monthlyExpenses : num;
  monthlyEntries : list Entry;
  categoryBreakdown : object num
}.

Arguments totalIncome {num} _.
Arguments totalExpenses {num} _.
Arguments balance {num} _.
Arguments monthlyIncome {num} _.
Arguments monthlyExpenses {num} _.
Arguments monthlyEntries {num} _.
Arguments categoryBreakdown {num} _.

Record LineChartData (num : Type) : Type := mkLineChartData {
  labels : list string;
  incomeData : list num;
  expenseData : list num
}.

Arguments labels {num} _.
Arguments incomeData {num} _.
Arguments expenseData {num} _.

Section Aggregates.

Context {num : Type} {A : Arith num}.

(** [x || 0] on a property that may be missing. *)
Definition or_zero (x : option num) : num :=
  match x with
  | Some v => if falsy v then zero else v
  | None => zero
  end.

(** The [calculations] memo of [App]. *)
Definition calculations (entries : list Entry) (selectedMonth : string)
  : Calculations num :=
  let totalIncome :=
    fold_left (fun sum entry => add sum (parseFloat (amount entry)))
              (filter (fun entry => type entry =? "income") entries) zero in
  let totalExpenses :=
    fold_left (fun sum entry => add sum (parseFloat (amount entry)))
              (filter (fun entry => type entry =? "expense") entries) zero in
  let balance := sub totalIncome totalExpenses in
  let monthlyEntries :=
    filter (fun entry =>
              DateFns.isSameMonth (DateFns.parseISO (date entry))
                                  (DateFns.parseISO (selectedMonth ++ "-01")))
           entries in
  let monthlyIncome :=
    fold_left (fun sum entry => add sum (parseFloat (amount entry)))
              (filter (fun entry => type entry =? "income") monthlyEntries) zero in
  let monthlyExpenses :=
    fold_left (fun sum entry => add sum (parseFloat (amount entry)))
              (filter (fun entry => type entry =? "expense") monthlyEntries) zero in
  let categoryBreakdown :=
    fold_left (fun acc entry =>
                 set acc (category entry)
                     (add (or_zero (get acc (category entry)))
                          (parseFloat (amount entry))))
              (filter (fun entry => type entry =? "expense") monthlyEntries) [] in
  {| totalIncome := totalIncome;
     totalExpenses := totalExpenses;
     balance := balance;
     monthlyIncome := monthlyIncome;
     monthlyExpenses := monthlyExpenses;
     monthlyEntries := monthlyEntries;
     categoryBreakdown := categoryBreakdown |}.

(** The [lineChartData] memo: one pass of its loop, for the month [i]
    months before [now] ([now] is what [new Date()] returns; [date_i] is
    the loop's [date]). *)
Definition lineChartData_step (now : DateFns.JsDate) (entries : list Entry)
           (acc : LineChartData num) (i : Z) : LineChartData num :=
  let date_i := DateFns.setMonth now (DateFns.month now - i) in
  let monthEntries :=
    filter (fun entry =>
              DateFns.isSameMonth (DateFns.parseISO (date entry)) (Some date_i))
           entries in
  let income :=
    fold_left (fun sum entry => add sum (parseFloat (amount entry)))
              (filter (fun entry => type entry =? "income") monthEntries) zero in
  let expenses :=
    fold_left (fun sum entry => add sum (parseFloat (amount entry)))
              (filter (fun entry => type entry =? "expense") monthEntries) zero in
  {| labels := labels acc ++ [DateFns.format_MMM_yyyy date_i];
     incomeData := incomeData acc ++ [income];
     expenseData := expenseData acc ++ [expenses] |}.

(** [for (let i = 5; i >= 0; i--)] over the three arrays, empty at first. *)
Definition lineChartData (now : DateFns.JsDate) (entries : list Entry)
  : LineChartData num :=
  fold_left (lineChartData_step now entries) [5; 4; 3; 2; 1; 0]%Z
            {| labels := []; incomeData := []; expenseData := [] |}.

End Aggregates.

(* ================================================================== *)
(** * The store: component state and its handlers *)
(* ================================================================== *)

(** The state hooks of [App]. [editingId] is [None] for JS [null]. *)
Record State : Type := mkState {
  entries : list Entry;
  currentEntry : Entry;
  selectedMonth : string;
  editingId : option string
}.

(** [ToBoolean] of a string, and of a value that is a string or missing. *)
Definition truthy (s : string) : bool := negb (s =? "").

Definition truthy_opt (o : option string) : bool :=
  match o with
  | Some s => truthy s
  | None => false
  end.

(** [a === b] between two values that are each a string or [undefined]. *)
Definition same_id (a b : option string) : bool :=
  match a, b with
  | Some x, Some y => x =? y
  | None, None => true
  | _, _ => false
  end.

(** The form as [setCurrentEntry] resets it; [today] is [new Date()]. *)
Definition blank_form (today : DateFns.JsDate) : Entry :=
  {| id := None;
     type := "expense";
     amount := "";
     category := "Food";
     description := "";
     date := DateFns.format_yyyy_MM_dd today |}.

(** The object [entry] that [handleSubmit] builds; [now] is what
    [Date.now()] returns.  In the object literal the spread of
    [currentEntry] comes after [id], so an [id] of the form's own wins. *)
Definition new_entry (now : Z) (st : State) : Entry :=
  let cur := currentEntry st in
  {| id := match id cur with
           | Some i => Some i
           | None =>
             if truthy_opt (editingId st) then editingId st
             else Some (JsNumber.integer_toString now)
           end;
     type := type cur;
     amount := JsNumber.toFixed2 (JsNumber.parseFloat (amount cur));
     category := category cur;
     description := description cur;
     date := date cur |}.

(** [handleSubmit]; [today] is what [new Date()] returns. *)
Definition handleSubmit (now : Z) (today : DateFns.JsDate) (st : State) : State :=
  let cur := currentEntry st in
  if negb (truthy (amount cur)) || negb (truthy (category cur)) then st
  else
    let entry := new_entry now st in
    if truthy_opt (editingId st) then
      {| entries := map (fun e => if same_id (id e) (editingId st) then entry else e)
                        (entries st);
         currentEntry := blank_form today;
         selectedMonth := selectedMonth st;
         editingId := None |}
    else
      {| entries := entries st ++ [entry];
         currentEntry := blank_form today;
         selectedMonth := selectedMonth st;
         editingId := editingId st |}.

Definition handleEdit (entry : Entry) (st : State) : State :=
  {| entries := entries st;
     currentEntry := entry;
     selectedMonth := selectedMonth st;
     editingId := id entry |}.

(** [handleDelete(id)]: keeps the entries with [e.id !== id]. *)
Definition handleDelete (i : option string) (st : State) : State :=
  {| entries := filter (fun e => negb (same_id (id e) i)) (entries st);
     currentEntry := currentEntry st;
     selectedMonth := selectedMonth st;
     editingId := editingId st |}.

Definition cancelEdit (today : DateFns.JsDate) (st : State) : State :=
  {| entries := entries st;
     currentEntry := blank_form today;
     selectedMonth := selectedMonth st;
     editingId := None |}.

(** [CATEGORIES], by type. *)
Definition CATEGORIES_income : list string :=
  ["Salary"; "Freelance"; "Investment"; "Gift"; "Other"].

Definition CATEGORIES_expense : list string :=
  ["Food"; "Transport"; "Entertainment"; "Bills"; "Shopping"; "Health";
   "Education"; "Other"].

(** The effect that runs when [currentEntry.type] has changed: the
    category becomes the first one of the type. *)
Definition categoryEffect (st : State) : State :=
  let cur := currentEntry st in
  {| entries := entries st;
     currentEntry :=
       {| id := id cur; type := type cur; amount := amount cur;
          category := if type cur =? "income"
                      then hd "" CATEGORIES_income
                      else hd "" CATEGORIES_expense;
          description := description cur; date := date cur |};
     selectedMonth := selectedMonth st;
     editingId := editingId st |}.

(** The form's [onChange] handlers, each of them
    [setCurrentEntry(prev => ({...prev, field: value}))] on one of the five
    fields below, never on [id].  A session lists the effect above as one
    more change of the form. *)
Definition changeForm (t a c d dt : string) (st : State) : State :=
  {| entries := entries st;
     currentEntry := {| id := id (currentEntry st);
                        type := t; amount := a; category := c;
                        description := d; date := dt |};
     selectedMonth := selectedMonth st;
     editingId := editingId st |}.

Definition setSelectedMonth (m : string) (st : State) : State :=
  {| entries := entries st;
     currentEntry := currentEntry st;
     selectedMonth := m;
     editingId := editingId st |}.

(** What a user can do, and a session as the list of what was done. *)
Inductive action : Type :=
| Change (t a c d dt : string)
| Submit (now : Z) (today : DateFns.JsDate)
| Edit (k : nat)
| Delete (i : option string)
| Cancel (today : DateFns.JsDate)
| SelectMonth (m : string).

Definition step (a : action) (st : State) : State :=
  match a with
  | Change t a c d dt => changeForm t a c d dt st
  | Submit now today => handleSubmit now today st
  | Edit k =>
    match nth_error (entries st) k with
    | Some entry => handleEdit entry st
    | None => st
    end
  | Delete i => handleDelete i st
  | Cancel today => cancelEdit today st
  | SelectMonth m => setSelectedMonth m st
  end.

Fixpoint run (session : list action) (st : State) : State :=
  match session with
  | [] => st
  | a :: session' => run session' (step a st)
  end.

(** The state at mount, before anything is loaded. *)
Definition initial (today : DateFns.JsDate) : State :=
  {| entries := [];
     currentEntry := blank_form today;
     selectedMonth := DateFns.pad4 (DateFns.fullYear today) ++ "-"
                        ++ DateFns.pad2 (DateFns.month today + 1);
     editingId := None |}.

(* ================================================================== *)
(** * The persisted blob: [JSON.parse] and the load effect *)
(* ================================================================== *)

Module Json.

Import JsNumber.

#[local] Unset Elimination Schemes.

Inductive value : Type :=
| JNull
| JBool (b : bool)
| JNumber (x : float)
| JString (s : string)
| JArray (vs : list value)
| JObject (o : object value).

#[local] Set Elimination Schemes.

(** JSON white space: space, TAB, LF, CR. *)
Fixpoint skip_ws (s : list ascii) : list ascii :=
  match s with
  | c :: r =>
    if (code c =? 32) || (code c =? 9) || (code c =? 10) || (code c =? 13)
    then skip_ws r else s
  | [] => s
  end%Z.

Definition hex_val (c : ascii) : option Z :=
  let k := code c in
  (if (48 <=? k) && (k <=? 57) then Some (k - 48)
   else if (97 <=? k) && (k <=? 102) then Some (k - 87)
   else if (65 <=? k) && (k <=? 70) then Some (k - 55)
   else None)%Z.

Definition hex4 (s : list ascii) : option (Z * list ascii) :=
  match s with
  | a :: b :: c :: d :: r =>
    match hex_val a, hex_val b, hex_val c, hex_val d with
    | Some x, Some y, Some z, Some w => Some (4096 * x + 256 * y + 16 * z + w, r)%Z
    | _, _, _, _ => None
    end
  | _ => None
  end.

Definition byte (k : Z) : ascii := ascii_of_nat (Z.to_nat k).

(** The UTF-8 bytes of a code point (a lone surrogate is written on three
    bytes like any other code point below [2^16]). *)
Definition utf8 (k : Z) : list ascii :=
  (if k <? 128 then [byte k]
   else if k <? 2048 then [byte (192 + k / 64); byte (128 + k mod 64)]
   else if k <? 65536 then
     [byte (224 + k / 4096); byte (128 + (k / 64) mod 64); byte (128 + k mod 64)]
   else
     [byte (240 + k / 262144); byte (128 + (k / 4096) mod 64);
      byte (128 + (k / 64) mod 64); byte (128 + k mod 64)])%Z.

(** The characters of a JSON string, after its opening quote, up to its
    closing quote. *)
Fixpoint parse_chars (fuel : nat) (s : list ascii) (acc : list ascii)
  : option (string * list ascii) :=
  match fuel with
  | O => None
  | S fuel' =>
    match s with
    | [] => None
    | c :: r =>
      if (code c =? 34)%Z then Some (string_of_list_ascii (rev acc), r)
      else if (code c <? 32)%Z then None
      else if (code c =? 92)%Z then
        match r with
        | e :: r' =>
          let k := code e in
          let plain (x : Z) := parse_chars fuel' r' (byte x :: acc) in
          (if k =? 34 then plain 34
           else if k =? 92 then plain 92
           else if k =? 47 then plain 47
           else if k =? 98 then plain 8
           else if k =? 102 then plain 12
           else if k =? 110 then plain 10
           else if k =? 114 then plain 13
           else if k =? 116 then plain 9
           else if k =? 117 then
             match hex4 r' with
             | Some (u, r2) =>
               let single := parse_chars fuel' r2 (rev (utf8 u) ++ acc) in
               if (55296 <=? u) && (u <=? 56319) then
                 match r2 with
                 | b1 :: b2 :: r3 =>
                   if (code b1 =? 92) && (code b2 =? 117) then
                     match hex4 r3 with
                     | Some (l, r4) =>
                       if (56320 <=? l) && (l <=? 57343) then
                         parse_chars fuel' r4
                           (rev (utf8 (65536 + (u - 55296) * 1024 + (l - 56320))) ++ acc)
                       else single
                     | None => single
                     end
                   else single
                 | _ => single
                 end
               else single
             | None => None
             end
           else None)%Z
        | [] => None
        end
      else parse_chars fuel' r (c :: acc)
    end
  end.

(** A JSON number: [-]? int frac? exp?, with no leading zero in [int]. *)
Definition parse_number (s : list ascii) : option (float * list ascii) :=
  let '(neg, s1) :=
    match s with
    | c :: r => if (code c =? 45)%Z then (true, r) else (false, s)
    | [] => (false, s)
    end in
  let '(i, ni, s2) := take_digits s1 0%Z 0%Z in
  let leading_zero :=
    match s1 with
    | c :: _ => (code c =? 48)%Z && (1 <? ni)%Z
    | [] => false
    end in
  if (ni =? 0)%Z || leading_zero then None
  else
    let frac :=
      match s2 with
      | c :: r =>
        if (code c =? 46)%Z then
          let '(m, nf, r') := take_digits r i 0%Z in
          if (nf =? 0)%Z then None else Some (m, nf, r')
        else Some (i, 0%Z, s2)
      | [] => Some (i, 0%Z, s2)
      end in
    match frac with
    | None => None
    | Some (m, nf, s3) =>
      let expo :=
        match s3 with
        | c :: r =>
          if (code c =? 101)%Z || (code c =? 69)%Z then
            let '(eneg, r1) :=
              match r with
              | d :: r0 => if (code d =? 45)%Z then (true, r0)
                           else if (code d =? 43)%Z then (false, r0) else (false, r)
              | [] => (false, r)
              end in
            let '(e, ne, r2) := take_digits r1 0%Z 0%Z in
            if (ne =? 0)%Z then None
            else Some ((if eneg then - e else e)%Z, r2)
          else Some (0%Z, s3)
        | [] => Some (0%Z, s3)
        end in
      match expo with
      | None => None
      | Some (e, s4) => Some (Number_of_literal (LitDecimal neg m (e - nf)), s4)
      end
    end.

(** A value, then what follows it.  [fuel] bounds the nesting and the
    number of elements and members read. *)
Fixpoint parse_value (fuel : nat) (s : list ascii) : option (value * list ascii) :=
  match fuel with
  | O => None
  | S fuel' =>
    match skip_ws s with
    | [] => None
    | c :: r =>
      let k := code c in
      if (k =? 123)%Z then
        match skip_ws r with
        | c' :: r' =>
          if (code c' =? 125)%Z then Some (JObject [], r')
          else parse_members fuel' (skip_ws r) []
        | [] => None
        end
      else if (k =? 91)%Z then
        match skip_ws r with
        | c' :: r' =>
          if (code c' =? 93)%Z then Some (JArray [], r')
          else parse_elements fuel' (skip_ws r) []
        | [] => None
        end
      else if (k =? 34)%Z then
        match parse_chars (List.length r) r [] with
        | Some (str, r') => Some (JString str, r')
        | None => None
        end
      else if starts_with (list_ascii_of_string "true") (c :: r)
      then Some (JBool true, skipn 4 (c :: r))
      else if starts_with (list_ascii_of_string "false") (c :: r)
      then Some (JBool false, skipn 5 (c :: r))
      else if starts_with (list_ascii_of_string "null") (c :: r)
      then Some (JNull, skipn 4 (c :: r))
      else
        match parse_number (c :: r) with
        | Some (x, r') => Some (JNumber x, r')
        | None => None
        end
    end
  end

(** The elements of an array after its opening bracket; [acc] holds the
    elements already read, last first. *)
with parse_elements (fuel : nat) (s : list ascii) (acc : list value)
  : option (value * list ascii) :=
  match fuel with
  | O => None
  | S fuel' =>
    match parse_value fuel' s with
    | Some (v, r) =>
      match skip_ws r with
      | c :: r' =>
        if (code c =? 44)%Z then parse_elements fuel' r' (v :: acc)
        else if (code c =? 93)%Z then Some (JArray (rev (v :: acc)), r')
        else None
      | [] => None
      end
    | None => None
    end
  end

(** The members of an object after its opening brace.  A name that
    comes twice keeps its first place and takes its last value. *)
with parse_members (fuel : nat) (s : list ascii) (acc : object value)
  : option (value * list ascii) :=
  match fuel with
  | O => None
  | S fuel' =>
    match skip_ws s with
    | q :: r =>
      if (code q =? 34)%Z then
        match parse_chars (List.length r) r [] with
        | Some (name, r1) =>
          match skip_ws r1 with
          | c :: r2 =>
            if (code c =? 58)%Z then
              match parse_value fuel' r2 with
              | Some (v, r3) =>
                match skip_ws r3 with
                | c' :: r4 =>
                  if (code c' =? 44)%Z then parse_members fuel' r4 (set acc name v)
                  else if (code c' =? 125)%Z then Some (JObject (set acc name v), r4)
                  else None
                | [] => None
                end
              | None => None
              end
            else None
          | [] => None
          end
        | None => None
        end
      else None
    | [] => None
    end
  end.

(** [JSON.parse(text)]: [None] stands for the [SyntaxError] it throws. *)
Definition parse (text : string) : option value :=
  let s := list_ascii_of_string text in
  match parse_value (2 * List.length s + 2) s with
  | Some (v, r) =>
    match skip_ws r with
    | [] => Some v
    | _ :: _ => None
    end
  | None => None
  end.

End Json.

(** A thrown exception, or a normal completion. *)
Inductive completion (T : Type) : Type :=
| Normal (v : T)
| Throw (error : string).

Arguments Normal {T} v.
Arguments Throw {T} error.

(** The first effect of [App]: [saved] is what
    [localStorage.getItem(STORAGE_KEY)] returns, [None] for [null].  The
    result is the value handed to [setEntries], if any. *)
Definition loadEffect (saved : option string) : completion (option Json.value) :=
  if truthy_opt saved then
    match saved with
    | Some text =>
      match Json.parse text with
      | Some v => Normal (Some v)
      | None => Throw "SyntaxError"
      end
    | None => Normal None
    end
  else Normal None.

(** Reading a parsed value as a ledger: an array of objects whose fields
    are strings, [id] possibly missing. *)
Definition string_field (o : object Json.value) (k : string) : option string :=
  match get o k with
  | Some (Json.JString s) => Some s
  | _ => None
  end.

Definition entry_of_json (v : Json.value) : option Entry :=
  match v with
  | Json.JObject o =>
    match string_field o "type", string_field o "amount", string_field o "category",
          string_field o "description", string_field o "date" with
    | Some t, Some a, Some c, Some d, Some dt =>
      match get o "id" with
      | None => Some (mkEntry None t a c d dt)
      | Some (Json.JString i) => Some (mkEntry (Some i) t a c d dt)
      | Some _ => None
      end
    | _, _, _, _, _ => None
    end
  | _ => None
  end.

Fixpoint entries_of_json_list (vs : list Json.value) : option (list Entry) :=
  match vs with
  | [] => Some []
  | v :: vs' =>
    match entry_of_json v, entries_of_json_list vs' with
    | Some e, Some l => Some (e :: l)
    | _, _ => None
    end
  end.

Definition entries_of_json (v : Json.value) : option (list Entry) :=
  match v with
  | Json.JArray vs => entries_of_json_list vs
  | _ => None
  end.

(** What the [entries] state holds once the load effect has run: a ledger,
    or a value that is none. *)
Inductive loaded : Type :=
| Ledger (l : list Entry)
| NotALedger (v : Json.value).

(** The [entries] state starts as [[]] and is replaced by whatever the load
    effect hands to [setEntries]. *)
Definition mount (saved : option string) : completion loaded :=
  match loadEffect saved with
  | Normal None => Normal (Ledger [])
  | Normal (Some v) =>
    Normal (match entries_of_json v with
            | Some l => Ledger l
            | None => NotALedger v
            end)
  | Throw e => Throw e
  end.

(* ================================================================== *)
(** * The specification's words, as definitions of their own *)
(* ================================================================== *)

Section SpecWords.

Context {num : Type} {A : Arith num}.

(** "Σ amount over entries where type = t": one pass over the ledger in
    its order, adding the amount of each entry of type [t] to [sum]. *)
Fixpoint sigma_amount (t : string) (ledger : list Entry) (sum : num) : num :=
  match ledger with
  | [] => sum
  | entry :: rest =>
    sigma_amount t rest
      (if type entry =? t then add sum (parseFloat (amount entry)) else sum)
  end.


(** One step of the reduction that builds [categoryBreakdown], under a
    name of its own. *)
Definition breakdown_step (acc : object num) (entry : Entry) : object num :=
  set acc (category entry)
      (add (or_zero (get acc (category entry))) (parseFloat (amount entry))).

(** Order independence, as the specification states it: the same totals,
    and the same sum under each category. *)
Definition same_aggregates (c c' : Calculations num) : Prop :=
  totalIncome c = totalIncome c' /\
  totalExpenses c = totalExpenses c' /\
  balance c = balance c' /\
  monthlyIncome c = monthlyIncome c' /\
  monthlyExpenses c = monthlyExpenses c' /\
  forall cat : string,
    get (categoryBreakdown c) cat = get (categoryBreakdown c') cat.

End SpecWords.

(* ================================================================== *)
(** * Categories that are keys like any other *)
(* ================================================================== *)

(** The property names that an object created by [{}] inherits from
    [Object.prototype]. *)
Definition inherited_names : list string :=
  [ "__proto__"; "constructor"; "hasOwnProperty"; "isPrototypeOf";
    "propertyIsEnumerable"; "toLocaleString"; "toString"; "valueOf";
    "__defineGetter__"; "__defineSetter__"; "__lookupGetter__";
    "__lookupSetter__" ].

(** No entry of [l] has one of them for category. *)
Definition plain_categories (l : list Entry) : Prop :=
  forall e, In e l -> ~ In (category e) inherited_names.

(** The expense entries of the selected month, in ledger order: what the
    reductions of [monthlyExpenses] and of [categoryBreakdown] run over. *)
Definition month_expenses (ledger : list Entry) (month : string) : list Entry :=
  filter (fun entry => type entry =? "expense")
         (filter (fun entry =>
                    DateFns.isSameMonth (DateFns.parseISO (date entry))
                                        (DateFns.parseISO (month ++ "-01")))
                 ledger).

(** The categories of a list of entries, each once, in the order in
    which they first appear; [seen] are the categories met before. *)
Fixpoint first_appearances (seen : list string) (es : list Entry) : list string :=
  match es with
  | [] => []
  | entry :: es' =>
    if existsb (String.eqb (category entry)) seen then first_appearances seen es'
    else category entry :: first_appearances (category entry :: seen) es'
  end.

Definition categories_in_order (es : list Entry) : list string :=
  first_appearances [] es.

(* ================================================================== *)
(** * Additions that do not round *)
(* ================================================================== *)

(** The value of a finite JS number, counted in units of 2^-1074 (the
    least positive number): every finite binary64 number is a whole number
    of them.  Infinities and NaN have none. *)
Definition units (x : float) : option Z :=
  match Prim2SF x with
  | S754_zero _ => Some 0%Z
  | S754_finite s m e =>
    if (-1074 <=? e)%Z then Some (cond_Zopp s (Zpos m) * 2 ^ (e + 1074))%Z
    else None
  | _ => None
  end.

Definition unit_of (x : float) : Z :=
  match units x with
  | Some n => n
  | None => 0%Z
  end.

(** The sum of numbers, as a number of units, in the integers. *)
Definition units_total (xs : list float) : Z :=
  fold_right (fun x n => (unit_of x + n)%Z) 0%Z xs.

(** [x + y] and [x - y] do not round: both operands are finite and the
    binary64 result is their sum, or their difference, in the reals. *)
Definition exact_add (x y : float) : bool :=
  match units x, units y, units (x + y) with
  | Some a, Some b, Some c => (c =? a + b)%Z
  | _, _, _ => false
  end.

Definition exact_sub (x y : float) : bool :=
  match units x, units y, units (x - y) with
  | Some a, Some b, Some c => (c =? a - b)%Z
  | _, _, _ => false
  end.

(** None of the additions of [xs.reduce((sum, x) => sum + x, sum)]
    rounds. *)
Fixpoint exact_fold (xs : list float) (sum : float) : bool :=
  match xs with
  | [] => true
  | x :: xs' => exact_add sum x && exact_fold xs' (sum + x)
  end.

Definition exact_sum (xs : list float) : bool := exact_fold xs PrimFloat.zero.

(** The numbers that the reductions read from a list of entries. *)
Definition amounts (l : list Entry) : list float :=
  map (fun entry => JsNumber.parseFloat (amount entry)) l.

(** None of the additions [(acc[category] || 0) + parseFloat(amount)] of
    the reduction that builds [categoryBreakdown] rounds, from [acc] on. *)
Fixpoint exact_breakdown (es : list Entry) (acc : object float) : bool :=
  match es with
  | [] => true
  | entry :: es' =>
    exact_add (or_zero (get acc (category entry)))
              (JsNumber.parseFloat (amount entry))
    && exact_breakdown es' (breakdown_step acc entry)
  end.

(** None of the additions that [calculations] performs on a ledger
    rounds. *)
Definition exact_run (ledger : list Entry) (month : string) : bool :=
  let monthly :=
    filter (fun entry =>
              DateFns.isSameMonth (DateFns.parseISO (date entry))
                                  (DateFns.parseISO (month ++ "-01")))
           ledger in
  exact_sum (amounts (filter (fun entry => type entry =? "income") ledger))
  && exact_sum (amounts (filter (fun entry => type entry =? "expense") ledger))
  && exact_sum (amounts (filter (fun entry => type entry =? "income") monthly))
  && exact_sum (amounts (filter (fun entry => type entry =? "expense") monthly))
  && exact_breakdown (filter (fun entry => type entry =? "expense") monthly) [].

(** ** Amounts that binary64 adds without rounding *)

(** The exponent that the format gives to a number of [e] binary digits
    before the point: 53 significant bits, and no exponent below -1074. *)
Definition fexp64 (e : Z) : Z := Z.max (e - 53) (-1074).

(** [x] is finite and a whole multiple of [2^-k], for [k] up to 1074. *)
Definition multiple_of_2_to_minus (k : Z) (x : float) : bool :=
  match units x with
  | Some u => (u mod 2 ^ (1074 - k) =? 0)%Z
  | None => false
  end.

(** The magnitudes of the numbers of a list, added up, in units. *)
Definition magnitude (xs : list float) : Z :=
  fold_right (fun x n => (Z.abs (unit_of x) + n)%Z) 0%Z xs.

(** The amounts of the entries are whole multiples of [2^-k] and their
    magnitudes add up to less than [2^53] such multiples: whole units
    below [2^53] for [k = 0], quarters below [2^51] for [k = 2]. *)
Definition dyadic_amounts (k : Z) (l : list Entry) : Prop :=
  (0 <= k <= 1074)%Z /\
  forallb (multiple_of_2_to_minus k) (amounts l) = true /\
  (magnitude (amounts l) < 2 ^ (53 + (1074 - k)))%Z.

(** The values of an object are finite multiples of [2^-k]. *)
Definition on_grid (k : Z) (o : object float) : Prop :=
  forall v, In v (map snd o) ->
            exists u, units v = Some u /\ (2 ^ (1074 - k) | u)%Z.

(* ================================================================== *)
(** * The balance in decimal arithmetic *)
(* ================================================================== *)


(** "Total income minus total expenses, exactly", in hundredths: the
    amounts are read as decimals and added and subtracted as integers. *)
Definition decimal_total (t : string) (ledger : list Entry) : Z :=
  fold_right (fun entry n =>
                if type entry =? t then (parseCents (amount entry) + n)%Z else n)
             0%Z ledger.

Definition decimal_balance (ledger : list Entry) : Z :=
  (decimal_total "income" ledger - decimal_total "expense" ledger)%Z.


(* ================================================================== *)
(** * Sessions: the clock values that become ids, and malformed blobs *)
(* ================================================================== *)

(** The clock values that [handleSubmit] turns into an id during a
    session that starts in [st]: those of the submissions that pass the
    guard while nothing is being edited and the form has no id. *)
Definition stamps_now (st : State) : bool :=
  truthy (amount (currentEntry st)) && truthy (category (currentEntry st))
  && negb (truthy_opt (editingId st))
  && match id (currentEntry st) with Some _ => false | None => true end.

Definition stamp_of (a : action) (st : State) : list Z :=
  match a with
  | Submit now _ => if stamps_now st then [now] else []
  | _ => []
  end.

Fixpoint stamps (session : list action) (st : State) : list Z :=
  match session with
  | [] => []
  | a :: session' => (stamp_of a st ++ stamps session' (step a st))%list
  end.

(** The ids of a ledger, in its order. *)
Definition ids (l : list Entry) : list (option string) := map id l.

(** The invariant of a session: every id of the ledger is the decimal
    writing of one of the clock values [T] stamped so far, no id comes
    twice, and the form carries the id of the entry being edited, if any,
    and no id otherwise. *)
Record stamped (T : list Z) (st : State) : Prop := mkStamped {
  stamped_ids :
    forall e, In e (entries st) ->
              exists t, In t T /\ id e = Some (JsNumber.integer_toString t);
  stamped_nodup : NoDup (ids (entries st));
  stamped_form :
    match editingId st with
    | None => id (currentEntry st) = None
    | Some i => id (currentEntry st) = Some i /\
                exists t, In t T /\ i = JsNumber.integer_toString t
    end
}.

(** A blob is malformed when it is no JSON text or when the value it
    denotes is no array of entries. *)
Definition malformed (text : string) : Prop :=
  match Json.parse text with
  | Some v => entries_of_json v = None
  | None => True
  end.

(* ================================================================== *)
(** * Ledgers and sessions used as examples *)
(* ================================================================== *)

(** Three expenses of January 2024: 0.10 on food, 0.20 and 0.30 on bills. *)
Definition drift_ledger : list Entry :=
  [ {| id := Some "1704441600000"; type := "expense"; amount := "0.10";
       category := "Food"; description := ""; date := "2024-01-05" |};
    {| id := Some "1704873600000"; type := "expense"; amount := "0.20";
       category := "Bills"; description := ""; date := "2024-01-10" |};
    {| id := Some "1704960000000"; type := "expense"; amount := "0.30";
       category := "Bills"; description := ""; date := "2024-01-11" |} ].


(** The ledger of the specification's scenario. *)
Definition scenario_ledger : list Entry :=
  [ {| id := Some "1704441600000"; type := "income"; amount := "1000.00";
       category := "Salary"; description := ""; date := "2024-01-05" |};
    {| id := Some "1704873600000"; type := "expense"; amount := "200.00";
       category := "Food"; description := ""; date := "2024-01-10" |};
    {| id := Some "1706774400000"; type := "expense"; amount := "50.00";
       category := "Food"; description := ""; date := "2024-02-01" |} ].


(** A ledger whose amounts are whole numbers of quarters. *)
Definition quarters_ledger : list Entry :=
  [ {| id := Some "1704268800000"; type := "income"; amount := "1500.00";
       category := "Salary"; description := ""; date := "2024-01-03" |};
    {| id := Some "1704441600000"; type := "expense"; amount := "12.50";
       category := "Food"; description := ""; date := "2024-01-05" |};
    {| id := Some "1704873600000"; type := "expense"; amount := "7.25";
       category := "Transport"; description := ""; date := "2024-01-10" |};
    {| id := Some "1704960000000"; type := "income"; amount := "80.75";
       category := "Gift"; description := ""; date := "2024-01-11" |};
    {| id := Some "1704963600000"; type := "expense"; amount := "3.75";
       category := "Food"; description := ""; date := "2024-01-11" |};
    {| id := Some "1705046400000"; type := "expense"; amount := "20.00";
       category := "Bills"; description := ""; date := "2024-01-12" |};
    {| id := Some "1706774400000"; type := "expense"; amount := "0.50";
       category := "Transport"; description := ""; date := "2024-02-01" |} ].

(* ================================================================== *)
(** * The trend series as the specification describes it *)
(* ================================================================== *)

Section TrendWords.

Context {num : Type} {A : Arith num}.

(** The calendar month [i] months before the month of [now], as a year
    and a month (0 for January), counting months from year 0. *)
Definition month_back (now : DateFns.JsDate) (i : Z) : Z * Z :=
  let n := (12 * DateFns.fullYear now + DateFns.month now - i)%Z in
  ((n / 12)%Z, (n mod 12)%Z).

(** The total of the entries of type [t] dated in month [ym]. *)
Definition month_total (t : string) (ledger : list Entry) (ym : Z * Z) : num :=
  sigma_amount t
    (filter (fun entry =>
               DateFns.isSameMonth (DateFns.parseISO (date entry))
                                   (Some (DateFns.mkDate (fst ym) (snd ym) 1)))
            ledger)
    zero.

(** "The 6 calendar months ending at the current real-world month, in
    chronological order oldest to newest", with their labels and their
    income and expense totals. *)
Definition trend_series (now : DateFns.JsDate) (ledger : list Entry)
  : LineChartData num :=
  let months := map (month_back now) [5; 4; 3; 2; 1; 0]%Z in
  {| labels := map (fun ym => DateFns.format_MMM_yyyy
                                (DateFns.mkDate (fst ym) (snd ym) 1)) months;
     incomeData := map (month_total "income" ledger) months;
     expenseData := map (month_total "expense" ledger) months |}.

End TrendWords.

(* ================================================================== *)
(** * Update and removal, as the specification describes them *)
(* ================================================================== *)

(** [replaced i new l l']: walking down the ledger [l], an entry whose id
    is [i] gives way to [new] at the same place, and any other entry stays
    as it is. *)
Inductive replaced (i : string) (new : Entry) : list Entry -> list Entry -> Prop :=
| replaced_nil : replaced i new [] []
| replaced_other (e : Entry) (l l' : list Entry) :
    id e <> Some i -> replaced i new l l' -> replaced i new (e :: l) (e :: l')
| replaced_match (e : Entry) (l l' : list Entry) :
    id e = Some i -> replaced i new l l' -> replaced i new (e :: l) (new :: l').

(** [removed i l l']: walking down the ledger [l], an entry whose id is
    [i] is dropped, and any other entry stays as it is. *)
Inductive removed (i : option string) : list Entry -> list Entry -> Prop :=
| removed_nil : removed i [] []
| removed_other (e : Entry) (l l' : list Entry) :
    id e <> i -> removed i l l' -> removed i (e :: l) (e :: l')
| removed_match (e : Entry) (l l' : list Entry) :
    id e = i -> removed i l l' -> removed i (e :: l) l'.

(** A form that passes the guard of [handleSubmit]. *)
Definition form_filled (st : State) : Prop :=
  amount (currentEntry st) <> "" /\ category (currentEntry st) <> "".

(** A state with one food expense in the ledger and the form filled in. *)
Definition busy_state : State :=
  {| entries :=
       [ {| id := Some "1700000000000"; type := "expense"; amount := "12.50";
            category := "Food"; description := "lunch"; date := "2023-11-14" |} ];
     currentEntry :=
       {| id := None; type := "expense"; amount := "3.2"; category := "Transport";
          description := "bus"; date := "2023-11-15" |};
     selectedMonth := "2023-11";
     editingId := None |}.

(** The same state once the edit button of its entry has been pressed and
    the amount changed. *)
Definition editing_state : State :=
  changeForm "expense" "13" "Food" "lunch" "2023-11-14"
    (handleEdit
       {| id := Some "1700000000000"; type := "expense"; amount := "12.50";
          category := "Food"; description := "lunch"; date := "2023-11-14" |}
       busy_state).

(** A session that submits the same form twice within one millisecond. *)
Definition double_submit : list action :=
  [ Change "expense" "3.2" "Transport" "bus" "2023-11-15";
    Submit 1700000000000 (DateFns.mkDate 2023 10 14);
    Change "expense" "3.2" "Transport" "bus" "2023-11-15";
    Submit 1700000000000 (DateFns.mkDate 2023 10 14) ].

(** A session that adds two entries, edits the first and deletes the
    second. *)
Definition busy_session : list action :=
  [ Change "expense" "3.2" "Transport" "bus" "2023-11-15";
    Submit 1700000000000 (DateFns.mkDate 2023 10 14);
    Change "income" "1000" "Salary" "" "2023-11-15";
    Submit 1700000050000 (DateFns.mkDate 2023 10 14);
    Edit 0;
    Change "expense" "3.5" "Transport" "bus" "2023-11-15";
    Submit 1700000050000 (DateFns.mkDate 2023 10 14);
    Delete (Some "1700000050000") ].

(** JSON texts are written below with ['] for the double quote. *)
Definition dq (s : string) : string :=
  string_of_list_ascii
    (map (fun c => if Ascii.eqb c "'"%char then "034"%char else c)
         (list_ascii_of_string s)).

(** What the specification counts as an absent or malformed blob. *)
Definition absent_or_malformed (saved : option string) : Prop :=
  match saved with
  | None => True
  | Some text => malformed text
  end.

(* ================================================================== *)
(** * Saving the ledger: [JSON.stringify] and the save effect *)
(* ================================================================== *)

(** [QuoteJSONString] on one character: the quote, the backslash and the
    control characters are escaped, the latter as [\b], [\t], [\n], [\f],
    [\r] or [\u00xx]; any other character stands for itself.  (Strings
    are the UTF-8 bytes of well-formed text, so no lone surrogate is to be
    escaped.) *)
Definition hex_digit (k : Z) : ascii :=
  if (k <? 10)%Z then Json.byte (48 + k) else Json.byte (87 + k).

Definition quote_char (c : ascii) : list ascii :=
  let k := JsNumber.code c in
  if (k =? 8)%Z then [Json.byte 92; Json.byte 98]
  else if (k =? 9)%Z then [Json.byte 92; Json.byte 116]
  else if (k =? 10)%Z then [Json.byte 92; Json.byte 110]
  else if (k =? 12)%Z then [Json.byte 92; Json.byte 102]
  else if (k =? 13)%Z then [Json.byte 92; Json.byte 114]
  else if (k <? 32)%Z then
    [Json.byte 92; Json.byte 117; Json.byte 48; Json.byte 48;
     hex_digit (k / 16); hex_digit (k mod 16)]
  else if (k =? 34)%Z then [Json.byte 92; Json.byte 34]
  else if (k =? 92)%Z then [Json.byte 92; Json.byte 92]
  else [c].

(** A string between quotes. *)
Definition quote (s : string) : list ascii :=
  (Json.byte 34 :: flat_map quote_char (list_ascii_of_string s) ++ [Json.byte 34])%list.

(** [name:value], for a value that is a string. *)
Definition member (name value : string) : list ascii :=
  (quote name ++ Json.byte 58 :: quote value)%list.

Fixpoint join_comma (parts : list (list ascii)) : list ascii :=
  match parts with
  | [] => []
  | [p] => p
  | p :: ps => (p ++ Json.byte 44 :: join_comma ps)%list
  end.

(** The properties of an entry object, in the order in which
    [handleSubmit] creates them; a missing [id] is no property. *)
Definition properties (e : Entry) : list (string * string) :=
  (match id e with
   | Some i => [("id", i)]
   | None => []
   end
   ++ [("type", type e); ("amount", amount e); ("category", category e);
       ("description", description e); ("date", date e)])%list.

Definition stringify_entry (e : Entry) : list ascii :=
  (Json.byte 123
   :: join_comma (map (fun p => member (fst p) (snd p)) (properties e))
   ++ [Json.byte 125])%list.

(** [JSON.stringify(entries)]. *)
Definition JSON_stringify (ledger : list Entry) : string :=
  string_of_list_ascii
    (Json.byte 91 :: join_comma (map stringify_entry ledger) ++ [Json.byte 93])%list.

(** The second effect of [App]: what [localStorage] holds under
    [STORAGE_KEY] once it has run. *)
Definition saveEffect (ledger : list Entry) : option string :=
  Some (JSON_stringify ledger).

(** The value that [JSON.parse] reads back from a stringified entry. *)
Definition json_of_entry (e : Entry) : Json.value :=
  Json.JObject (map (fun p => (fst p, Json.JString (snd p))) (properties e)).

(* ================================================================== *)
(** * What is rendered: the pie chart and the recent entries *)
(* ================================================================== *)

(** [s.replace(pattern, replacement)] for a string pattern and a
    replacement without [$]: the first occurrence of the pattern, if any,
    gives way to the replacement. *)
Fixpoint replace_chars (p r s : list ascii) : list ascii :=
  if JsNumber.starts_with p s then (r ++ skipn (List.length p) s)%list
  else
    match s with
    | [] => []
    | c :: s' => c :: replace_chars p r s'
    end.

Definition String_replace (pattern replacement s : string) : string :=
  string_of_list_ascii
    (replace_chars (list_ascii_of_string pattern) (list_ascii_of_string replacement)
                   (list_ascii_of_string s)).

Module PieChart.

(** The [colors] of [pieChartData]. *)
Definition colors : list string :=
  [ "rgba(255, 182, 193, 0.8)";
    "rgba(173, 216, 230, 0.8)";
    "rgba(144, 238, 144, 0.8)";
    "rgba(255, 218, 185, 0.8)";
    "rgba(221, 160, 221, 0.8)";
    "rgba(255, 255, 224, 0.8)";
    "rgba(255, 228, 196, 0.8)";
    "rgba(230, 230, 250, 0.8)" ].

(** The object that [pieChartData] returns: its [labels] and the [data],
    [backgroundColor] and [borderColor] of its one dataset. *)
Record t (num : Type) : Type := mk {
  labels : list string;
  data : list num;
  backgroundColor : list string;
  borderColor : list string;
  borderWidth : Z
}.

Arguments labels {num} _.
Arguments data {num} _.
Arguments backgroundColor {num} _.
Arguments borderColor {num} _.
Arguments borderWidth {num} _.

End PieChart.

(** The [pieChartData] memo, from the breakdown that [calculations]
    returns; [colors.slice(0, n)] is [firstn n colors]. *)
Definition pieChartData {num : Type} (categoryBreakdown : object num)
  : PieChart.t num :=
  let categories := keys categoryBreakdown in
  let values := values categoryBreakdown in
  {| PieChart.labels := categories;
     PieChart.data := values;
     PieChart.backgroundColor := firstn (List.length categories) PieChart.colors;
     PieChart.borderColor :=
       map (fun color => String_replace "0.8" "1" color)
           (firstn (List.length categories) PieChart.colors);
     PieChart.borderWidth := 2 |}.

(** The pie is drawn when [Object.keys(calculations.categoryBreakdown)]
    is not empty; otherwise the "No expenses" note is shown. *)
Definition pie_shown {num : Type} (c : Calculations num) : bool :=
  negb (Nat.eqb (List.length (keys (categoryBreakdown c))) 0).

(** The entries listed under "Recent Entries":
    [entries.slice(-10).reverse()]. *)
Definition recentEntries (ledger : list Entry) : list Entry :=
  rev (skipn (List.length ledger - 10) ledger).

(** A calendar date of our era: a year from 1 to 9999, which [yyyy]
    writes as it is on four digits, a month from 0 to 11 and a day of that
    month. *)
Definition calendar_date (d : DateFns.JsDate) : Prop :=
  (1 <= DateFns.fullYear d <= 9999)%Z /\
  (0 <= DateFns.month d <= 11)%Z /\
  (1 <= DateFns.dayOfMonth d <= DateFns.days_in_month (DateFns.fullYear d) (DateFns.month d))%Z.

(** The month that the code's trend shows [i] months back: the month
    itself when it has a day numbered like today, the month after it
    otherwise. *)
Definition shown_month (now : DateFns.JsDate) (i : Z) : Z * Z :=
  let ym := month_back now i in
  if (DateFns.dayOfMonth now <=? DateFns.days_in_month (fst ym) (snd ym))%Z
  then ym else month_back now (i - 1).

Definition shown_series {num : Type} {A : Arith num}
           (now : DateFns.JsDate) (ledger : list Entry) : LineChartData num :=
  let months := map (shown_month now) [5; 4; 3; 2; 1; 0]%Z in
  {| labels := map (fun ym => DateFns.format_MMM_yyyy
                                (DateFns.mkDate (fst ym) (snd ym) 1)) months;
     incomeData := map (month_total "income" ledger) months;
     expenseData := map (month_total "expense" ledger) months |}.

(** The members of an object, written out. *)
Definition members_of (ps : list (string * string)) : list (list ascii) :=
  map (fun p => member (fst p) (snd p)) ps.

(** What every entry built by [handleSubmit] has: a category that is not
    empty and an amount that is the [toFixed(2)] of the number read from a
    string that is not empty. *)
Definition went_through_the_form (e : Entry) : Prop :=
  category e <> "" /\
  exists s : string, s <> "" /\ amount e = JsNumber.toFixed2 (JsNumber.parseFloat s).

(** The category effect has [currentEntry.type] for dependency: after a
    render it runs when the type differs from the type of the render
    before.  [prev] is the state of that render. *)
Definition after_render (prev st : State) : State :=
  if type (currentEntry st) =? type (currentEntry prev) then st
  else categoryEffect st.

(** Pressing the edit button of [entry], then the render that follows. *)
Definition press_edit (entry : Entry) (st : State) : State :=
  after_render st (handleEdit entry st).

(** Pressing one of the two type buttons,
    [setCurrentEntry(prev => ({ ...prev, type }))], then the render that
    follows. *)
Definition press_type (t : string) (st : State) : State :=
  let cur := currentEntry st in
  after_render st
    {| entries := entries st;
       currentEntry := {| id := id cur; type := t; amount := amount cur;
                          category := category cur;
                          description := description cur; date := date cur |};
       selectedMonth := selectedMonth st;
       editingId := editingId st |}.

(** The amounts as the cards show them: [x.toFixed(2)] for the totals,
    and [Math.abs(x).toFixed(2)] for the balance and for the monthly
    income less the monthly expenses. *)
Definition shown_total (x : float) : string := JsNumber.toFixed2 x.

Definition shown_magnitude (x : float) : string := JsNumber.toFixed2 (PrimFloat.abs x).

(* ================================================================== *)
(** * The built-ins, checked on examples *)
(* ================================================================== *)

(** Checks of [parseFloat] against the kernel's own reading of float
    literals (both compared bit for bit through [Prim2SF]). *)
Module JsNumberChecks.
Import JsNumber.
Local Open Scope string_scope.

Definition same (x y : float) : bool := SFeqb (Prim2SF x) (Prim2SF y)
  || (is_nan x && is_nan y).

Example parse_two_decimals :
  forallb (fun p => same (parseFloat (fst p)) (snd p))
    [ ("0.10", 0x1.999999999999ap-4%float);
      ("0.20", 0x1.999999999999ap-3%float);
      ("0.30", 0x1.3333333333333p-2%float);
      ("1000.00", 1000%float);
      ("200.00", 200%float);
      ("50.00", 50%float);
      ("  12.5abc", 12.5%float);
      ("-7.25", (-7.25)%float);
      (".5", 0.5%float);
      ("5.", 5%float);
      ("1e3", 1000%float);
      ("1e", 1%float);
      ("2.5e-1x", 0.25%float);
      ("Infinity", infinity);
      ("-Infinityx", neg_infinity);
      ("1e400", infinity);
      ("4.9e-324", 0x0.0000000000001p-1022%float);
      ("2e-324", PrimFloat.zero);
      ("1.7976931348623157e308", 0x1.fffffffffffffp1023%float);
      ("9007199254740993", 9007199254740992%float);
      ("9007199254740995", 9007199254740996%float);
      ("abc", nan); ("", nan); (".", nan); ("-", nan); ("e5", nan) ]
  = true.
Proof. vm_compute. reflexivity. Qed.

Example toFixed2_examples :
  forallb (fun p => String.eqb (toFixed2 (fst p)) (snd p))
    [ (parseFloat "12.5", "12.50"); (parseFloat "1000", "1000.00");
      (parseFloat "0.125", "0.13"); (parseFloat "1.005", "1.00");
      (parseFloat "8.345", "8.35"); (parseFloat "0.005", "0.01");
      (parseFloat "0.015", "0.01"); (parseFloat "-0.001", "-0.00");
      (parseFloat "-7.256", "-7.26"); (parseFloat "1e-7", "0.00");
      (parseFloat "-0", "0.00"); (parseFloat "0", "0.00");
      (parseFloat "5", "5.00"); (parseFloat "0.07", "0.07");
      (parseFloat "123456789012345680000", "123456789012345683968.00");
      (parseFloat "1e21", "1e+21"); (parseFloat "1.5e22", "1.5e+22");
      (parseFloat "1180591620717411303424", "1.1805916207174113e+21");
      (parseFloat "-1e300", "-1e+300");
      (parseFloat "1.7976931348623157e308", "1.7976931348623157e+308");
      (parseFloat "abc", "NaN"); (parseFloat "Infinity", "Infinity");
      (parseFloat "-Infinity", "-Infinity") ]
  = true.
Proof. vm_compute. reflexivity. Qed.

Example integer_toString_examples :
  integer_toString 1700000000000 = "1700000000000" /\ integer_toString 0 = "0".
Proof. split; reflexivity. Qed.

End JsNumberChecks.

(* ================================================================== *)
(** * Facts about the aggregates, in any arithmetic *)
(* ================================================================== *)


Section AggregateFacts.

Context {num : Type} {A : Arith num}.

Lemma filter_fold_is_sigma (t : string) (l : list Entry) (a : num) :
  fold_left (fun sum entry => add sum (parseFloat (amount entry)))
            (filter (fun entry => type entry =? t) l) a
  = sigma_amount t l a.
Proof.
  revert a; induction l as [| e l IH]; intros a; simpl.
  - reflexivity.
  - destruct (type e =? t); simpl; apply IH.
Qed.

Lemma get_set_same {V : Type} (o : object V) (k : string) (v : V) :
  get (set o k v) k = Some v.
Proof.
  induction o as [| [k' v'] o IH]; simpl.
  - now rewrite String.eqb_refl.
  - destruct (k' =? k) eqn:Ek; simpl; rewrite Ek; [reflexivity | exact IH].
Qed.

Lemma get_set_other {V : Type} (o : object V) (k k' : string) (v : V) :
  k <> k' -> get (set o k v) k' = get o k'.
Proof.
  intros Hne; induction o as [| [k0 v0] o IH]; simpl.
  - destruct (k =? k') eqn:Ek; [apply String.eqb_eq in Ek; contradiction | reflexivity].
  - destruct (k0 =? k) eqn:Ek; simpl.
    + apply String.eqb_eq in Ek; subst k0.
      destruct (k =? k') eqn:Ek'; [| reflexivity].
      apply String.eqb_eq in Ek'; contradiction.
    + destruct (k0 =? k'); [reflexivity | exact IH].
Qed.

(** What the breakdown holds for one category: the amounts of that
    category's entries, accumulated with the code's [(acc || 0) + x]. *)
Lemma get_breakdown (c : string) (es : list Entry) (acc : object num) :
  get (fold_left breakdown_step es acc) c
  = fold_left (fun o entry => Some (add (or_zero o) (parseFloat (amount entry))))
              (filter (fun entry => category entry =? c) es) (get acc c).
Proof.
  revert acc; induction es as [| e es IH]; intros acc; cbn [fold_left filter].
  - reflexivity.
  - rewrite IH. unfold breakdown_step at 1.
    destruct (category e =? c) eqn:Ec; cbn [fold_left].
    + apply String.eqb_eq in Ec; subst c. now rewrite get_set_same.
    + rewrite get_set_other; [reflexivity |].
      intros Heq. rewrite Heq, String.eqb_refl in Ec. discriminate.
Qed.

Lemma accumulate_some (l : list Entry) (x : num) :
  exists y, fold_left (fun (o : option num) entry =>
                         Some (add (or_zero o) (parseFloat (amount entry))))
                      l (Some x) = Some y.
Proof.
  revert x; induction l as [| e l IH]; intros x; simpl.
  - now exists x.
  - apply IH.
Qed.

(** A category is a key of the breakdown exactly when one of the
    entries reduced has it. *)
Lemma breakdown_key (c : string) (es : list Entry) :
  get (fold_left breakdown_step es []) c = None
  <-> filter (fun entry => category entry =? c) es = [].
Proof.
  rewrite get_breakdown. cbn [get].
  destruct (filter (fun entry => category entry =? c) es) as [| e l];
    cbn [fold_left].
  - tauto.
  - destruct (accumulate_some l (add (or_zero None) (parseFloat (amount e))))
      as [y ->].
    split; discriminate.
Qed.

End AggregateFacts.


(* ================================================================== *)
(** * Binary64 numbers and their units *)
(* ================================================================== *)

Lemma digits2_pos_log2 (m : positive) :
  Zpos (digits2_pos m) = Z.log2 (Zpos m) + 1.
Proof.
  induction m as [m IH | m IH |]; cbn [digits2_pos].
  - rewrite Pos2Z.inj_succ, IH, Pos2Z.inj_xI, Z.log2_succ_double by lia. lia.
  - rewrite Pos2Z.inj_succ, IH, Pos2Z.inj_xO, Z.log2_double by lia. lia.
  - reflexivity.
Qed.

Lemma iter_xO_pow (m d : positive) :
  Zpos (Pos.iter xO m d) = Zpos m * 2 ^ Zpos d.
Proof.
  induction d as [| d IH] using Pos.peano_ind.
  - cbn [Pos.iter]. rewrite Pos2Z.inj_xO. lia.
  - rewrite Pos.iter_succ, Pos2Z.inj_xO, IH, Pos2Z.inj_succ, Z.pow_succ_r by lia.
    lia.
Qed.

Lemma shl_align_value (mx : positive) (ex ez : Z) :
  ez <= ex -> Zpos (fst (shl_align mx ex ez)) = Zpos mx * 2 ^ (ex - ez).
Proof.
  intros Hle. unfold shl_align.
  destruct (ez - ex) as [| p | p] eqn:Ed; cbn [fst].
  - replace (ex - ez) with 0 by lia. lia.
  - lia.
  - rewrite iter_xO_pow. f_equal. f_equal. lia.
Qed.




(** An addition that does not round gives the zero with the minus sign
    only from two such zeros. *)
Lemma exact_add_sign (a x : float) :
  Prim2SF a <> S754_zero true ->
  exact_add a x = true ->
  Prim2SF (a + x) <> S754_zero true.
Proof.
  intros Za E R. unfold exact_add, units in E.
  rewrite add_spec in E, R. unfold SF64add in E, R.
  destruct (Prim2SF a) as [sa | sa | | sa ma ea]; try discriminate;
    destruct (Prim2SF x) as [sx | sx | | sx mx ex]; try discriminate.
  - destruct sa; [now contradiction Za |].
    destruct sx; cbv [SFadd] in R; discriminate R.
  - destruct (-1074 <=? ea)%Z eqn:Ea; [| discriminate].
    destruct (-1074 <=? ex)%Z eqn:Ex; [| discriminate].
    apply Z.leb_le in Ea, Ex.
    cbv beta iota zeta delta [SFadd] in E, R.
    change (IntDef.Z.min ea ex) with (Z.min ea ex) in E, R.
    set (ez := Z.min ea ex) in *.
    set (M := cond_Zopp sa (Zpos (fst (shl_align ma ea ez)))
              + cond_Zopp sx (Zpos (fst (shl_align mx ex ez)))) in *.
    rewrite R in E. apply Z.eqb_eq in E.
    assert (HM : M * 2 ^ (ez + 1074)
                 = cond_Zopp sa (Zpos ma) * 2 ^ (ea + 1074)
                   + cond_Zopp sx (Zpos mx) * 2 ^ (ex + 1074)).
    { assert (Pa : 2 ^ (ea + 1074) = 2 ^ (ea - ez) * 2 ^ (ez + 1074))
        by (rewrite <- Z.pow_add_r by (unfold ez; lia); f_equal; lia).
      assert (Px : 2 ^ (ex + 1074) = 2 ^ (ex - ez) * 2 ^ (ez + 1074))
        by (rewrite <- Z.pow_add_r by (unfold ez; lia); f_equal; lia).
      unfold M. rewrite !shl_align_value by (unfold ez; lia).
      rewrite Pa, Px.
      destruct sa, sx; cbn [cond_Zopp]; ring. }
    rewrite <- E in HM.
    assert (M = 0).
    { assert (0 < 2 ^ (ez + 1074)) by (apply Z.pow_pos_nonneg; unfold ez; lia).
      nia. }
    clearbody M. subst M. unfold binary_normalize in R. discriminate R.
Qed.

Lemma units_zero : units PrimFloat.zero = Some 0.
Proof. reflexivity. Qed.

Lemma exact_add_units (a x : float) :
  exact_add a x = true ->
  exists n m, units a = Some n /\ units x = Some m /\ units (a + x) = Some (n + m).
Proof.
  unfold exact_add.
  destruct (units a) as [n |]; [| discriminate].
  destruct (units x) as [m |]; [| discriminate].
  destruct (units (a + x)) as [c |]; [| discriminate].
  intros E. apply Z.eqb_eq in E. subst c. now exists n, m.
Qed.

Lemma unit_of_units (x : float) (n : Z) : units x = Some n -> unit_of x = n.
Proof. unfold unit_of. now intros ->. Qed.

(** A reduction whose additions do not round returns the sum of the
    units, and no zero with the minus sign unless it started from one. *)
Lemma exact_fold_units (xs : list float) (a : float) (n : Z) :
  exact_fold xs a = true ->
  units a = Some n ->
  Prim2SF a <> S754_zero true ->
  units (fold_left PrimFloat.add xs a) = Some (n + units_total xs)
  /\ Prim2SF (fold_left PrimFloat.add xs a) <> S754_zero true.
Proof.
  revert a n; induction xs as [| x xs IH]; intros a n E U Z;
    cbn [exact_fold fold_left units_total fold_right] in *.
  - rewrite Z.add_0_r. now split.
  - apply andb_prop in E. destruct E as [E1 E2].
    destruct (exact_add_units _ _ E1) as (n' & m & Ua & Ux & Us).
    rewrite U in Ua. injection Ua as <-.
    destruct (IH _ _ E2 Us (exact_add_sign _ _ Z E1)) as [IU IZ].
    split; [| exact IZ].
    rewrite IU, (unit_of_units _ _ Ux). unfold units_total. f_equal. lia.
Qed.

Lemma exact_sum_units (xs : list float) :
  exact_sum xs = true ->
  units (fold_left PrimFloat.add xs PrimFloat.zero) = Some (units_total xs)
  /\ Prim2SF (fold_left PrimFloat.add xs PrimFloat.zero) <> S754_zero true.
Proof.
  intros E.
  destruct (exact_fold_units xs PrimFloat.zero 0 E units_zero) as [U Z].
  - discriminate.
  - split; [exact U | exact Z].
Qed.

Lemma units_total_cons (x : float) (xs : list float) :
  units_total (x :: xs) = unit_of x + units_total xs.
Proof. reflexivity. Qed.


(** The reductions of [calculations] are reductions over the amounts. *)
Lemma fold_amounts (l : list Entry) (a : float) :
  fold_left (fun sum entry => add sum (parseFloat (amount entry))) l a
  = fold_left PrimFloat.add (amounts l) a.
Proof.
  revert a; induction l as [| e l IH]; intros a; cbn [fold_left amounts map].
  - reflexivity.
  - apply IH.
Qed.

(** A falsy number that has units is a zero. *)
Lemma falsy_units (v : float) (n : Z) :
  JsNumber.falsy v = true -> units v = Some n -> n = 0.
Proof.
  unfold JsNumber.falsy, is_zero, is_nan, units.
  rewrite !eqb_spec.
  destruct (Prim2SF v) as [s | s | | s m e]; try discriminate.
  - intros _ H. now injection H.
  - intros F _. exfalso.
    change (Prim2SF PrimFloat.zero) with (S754_zero false) in F.
    unfold SFeqb in F. cbn [SFcompare] in F.
    destruct s; cbn in F; rewrite Z.compare_refl, Pos.compare_cont_refl in F;
      discriminate.
Qed.


(* ================================================================== *)
(** * The breakdown when no addition rounds *)
(* ================================================================== *)

Lemma insert_by_index_permutation {V : Type} (n : Z) (p : string * V)
      (l : list (Z * (string * V))) :
  Permutation (insert_by_index n p l) ((n, p) :: l).
Proof.
  induction l as [| [n' p'] l IH]; cbn [insert_by_index].
  - apply Permutation_refl.
  - destruct (n <? n')%Z; [apply Permutation_refl |].
    eapply Permutation_trans; [apply perm_skip, IH | apply perm_swap].
Qed.

(** [Object.keys] and [Object.values] list every own property once. *)
Lemma ownProperties_permutation {V : Type} (o : object V) :
  Permutation (ownProperties o) o.
Proof.
  unfold ownProperties.
  induction o as [| p o IH]; cbn [fold_right filter].
  - apply Permutation_refl.
  - destruct (array_index (fst p)) as [n |].
    + eapply Permutation_trans; [| apply perm_skip, IH].
      change (p :: (map snd (fold_right _ [] o) ++ filter _ o))%list
        with ((p :: map snd (fold_right
                (fun p l => match array_index (fst p) with
                            | Some n => insert_by_index n p l
                            | None => l
                            end) [] o)) ++
              filter (fun p : string * V =>
                        match array_index (fst p) with
                        | Some _ => false
                        | None => true
                        end) o)%list.
      apply Permutation_app_tail.
      apply (Permutation_map snd (insert_by_index_permutation n p _)).
    + eapply Permutation_trans; [| apply perm_skip, IH].
      apply Permutation_sym, Permutation_middle.
Qed.

Lemma values_permutation {V : Type} (o : object V) :
  Permutation (values o) (map snd o).
Proof. apply Permutation_map, ownProperties_permutation. Qed.

Lemma keys_permutation {V : Type} (o : object V) :
  Permutation (keys o) (map fst o).
Proof. apply Permutation_map, ownProperties_permutation. Qed.

Lemma get_In {V : Type} (o : object V) (k : string) (v : V) :
  get o k = Some v -> In v (map snd o).
Proof.
  induction o as [| [k' v'] o IH]; cbn [get map snd In]; [discriminate |].
  destruct (k' =? k)%string.
  - intros H; injection H as ->. now left.
  - intros H. right. now apply IH.
Qed.

Lemma In_set {V : Type} (o : object V) (k : string) (v w : V) :
  In w (map snd (set o k v)) -> w = v \/ In w (map snd o).
Proof.
  induction o as [| [k' v'] o IH]; cbn [set map snd In].
  - intros [<- | []]. now left.
  - destruct (k' =? k)%string; cbn [map snd In].
    + intros [<- | H]; [now left | right; now right].
    + intros [<- | H]; [right; now left |].
      destruct (IH H) as [-> | H']; [now left | right; now right].
Qed.


(** What [(acc[k] || 0)] is worth when every value held has units. *)
Lemma or_zero_units (o : option float) :
  match o with Some v => exists n, units v = Some n | None => True end ->
  units (or_zero o) = Some match o with Some v => unit_of v | None => 0 end
  /\ Prim2SF (or_zero o) <> S754_zero true.
Proof.
  destruct o as [v |]; cbn [or_zero].
  - intros [n U]. change (falsy v) with (JsNumber.falsy v).
    destruct (JsNumber.falsy v) eqn:F.
    + rewrite (unit_of_units _ _ U), (falsy_units _ _ F U).
      split; [reflexivity | discriminate].
    + rewrite (unit_of_units _ _ U). split; [exact U |].
      intros Z. unfold JsNumber.falsy, is_zero in F. rewrite eqb_spec, Z in F.
      discriminate F.
  - intros _. split; [reflexivity | discriminate].
Qed.





Lemma plain_categories_forallb (l : list Entry) :
  forallb (fun e => negb (existsb (String.eqb (category e)) inherited_names)) l = true ->
  plain_categories l.
Proof.
  intros F e He K.
  rewrite forallb_forall in F. specialize (F e He).
  apply negb_true_iff in F.
  assert (T : existsb (String.eqb (category e)) inherited_names = true).
  { apply existsb_exists. exists (category e). split; [exact K | apply String.eqb_refl]. }
  congruence.
Qed.

(* ================================================================== *)
(** * The totals and the balance *)
(* ================================================================== *)

(** Two binary64 numbers with different bit patterns are different. *)
Ltac floats_differ H :=
  apply (f_equal Prim2SF) in H; vm_compute in H; discriminate H.



Example balance_of_quarters :
  balance (calculations (A := js_number) quarters_ledger "2024-01") = 1536.75%float.
Proof. vm_compute. reflexivity. Qed.


(** The drift can also change the sign: an income of 0.30 against
    expenses of 0.10 and 0.20 leaves a balance below zero. *)
Example balance_below_zero_on_equal_totals :
  let ledger :=
    [ {| id := Some "1"; type := "income"; amount := "0.30";
         category := "Gift"; description := ""; date := "2024-01-05" |};
      {| id := Some "2"; type := "expense"; amount := "0.10";
         category := "Food"; description := ""; date := "2024-01-10" |};
      {| id := Some "3"; type := "expense"; amount := "0.20";
         category := "Food"; description := ""; date := "2024-01-11" |} ] in
  decimal_balance ledger = 0%Z /\
  (balance (calculations (A := js_number) ledger "2024-01") <? 0)%float = true.
Proof. vm_compute. split; reflexivity. Qed.

(** The scenario of the specification, computed. *)
Example scenario_totals :
  let c := calculations (A := js_number) scenario_ledger "2024-01" in
  totalIncome c = 1000%float /\ totalExpenses c = 250%float /\
  balance c = 750%float /\ monthlyIncome c = 1000%float /\
  monthlyExpenses c = 200%float /\ categoryBreakdown c = [("Food", 200%float)].
Proof. vm_compute. repeat split. Qed.

Example empty_ledger_totals :
  let c := calculations (A := js_number) [] "2024-01" in
  totalIncome c = 0%float /\ totalExpenses c = 0%float /\ balance c = 0%float /\
  monthlyIncome c = 0%float /\ monthlyExpenses c = 0%float /\
  categoryBreakdown c = [].
Proof. vm_compute. repeat split. Qed.

(* ================================================================== *)
(** * The category breakdown against the monthly expenses *)
(* ================================================================== *)



(** The scenario of the specification is such a ledger. *)
Example scenario_breakdown_sum :
  plain_categories (month_expenses scenario_ledger "2024-01") /\
  exact_sum (amounts (month_expenses scenario_ledger "2024-01")) = true /\
  exact_breakdown (month_expenses scenario_ledger "2024-01") [] = true /\
  exact_sum (values (categoryBreakdown
                       (calculations (A := js_number) scenario_ledger "2024-01")))
  = true.
Proof.
  split; [apply plain_categories_forallb; vm_compute; reflexivity |].
  vm_compute. repeat split.
Qed.


(** The order in which the two values are added does not matter to
    that. *)
Lemma breakdown_sum_differs_in_any_order :
  forall vs : list float,
    Permutation vs (values (categoryBreakdown
                              (calculations (A := js_number) drift_ledger "2024-01"))) ->
    fold_left PrimFloat.add vs PrimFloat.zero
    <> monthlyExpenses (calculations (A := js_number) drift_ledger "2024-01").
Proof.
  intros vs P.
  apply Permutation_sym in P.
  assert (V : values (categoryBreakdown
                        (calculations (A := js_number) drift_ledger "2024-01"))
              = [0x1.999999999999ap-4%float; 0.5%float]) by (vm_compute; reflexivity).
  rewrite V in P.
  apply Permutation_length_2_inv in P.
  destruct P as [-> | ->]; intros H; floats_differ H.
Qed.

(* ================================================================== *)
(** * Permuting the ledger *)
(* ================================================================== *)




(* ================================================================== *)
(** * Sums that binary64 holds exactly *)
(* ================================================================== *)

Lemma iter_pos_comm {T : Type} (f : T -> T) (p : positive) (x : T) :
  iter_pos f p (f x) = f (iter_pos f p x).
Proof.
  revert x; induction p as [p IH | p IH |]; intros x; cbn [iter_pos].
  - now rewrite !IH.
  - now rewrite !IH.
  - reflexivity.
Qed.

Lemma iter_pos_succ {T : Type} (f : T -> T) (p : positive) (x : T) :
  iter_pos f (Pos.succ p) x = f (iter_pos f p x).
Proof.
  revert x; induction p as [p IH | p IH |]; intros x; cbn [Pos.succ iter_pos].
  - rewrite !IH, !iter_pos_comm. reflexivity.
  - now rewrite !iter_pos_comm.
  - reflexivity.
Qed.

(** Shifting out bits that are all zero loses nothing. *)
Lemma shr_exact (p : positive) :
  forall m : positive,
    iter_pos shr_1 p {| shr_m := Zpos m * 2 ^ Zpos p; shr_r := false; shr_s := false |}
    = {| shr_m := Zpos m; shr_r := false; shr_s := false |}.
Proof.
  induction p as [| p IH] using Pos.peano_ind; intros m.
  - cbn [iter_pos].
    replace (Zpos m * 2 ^ 1) with (Zpos (m~0)) by (rewrite (Pos2Z.inj_xO m); lia).
    reflexivity.
  - rewrite iter_pos_succ.
    replace (Zpos m * 2 ^ Zpos (Pos.succ p)) with (Zpos (m~0) * 2 ^ Zpos p)
      by (rewrite Pos2Z.inj_succ, Z.pow_succ_r, (Pos2Z.inj_xO m) by lia; ring).
    rewrite IH. reflexivity.
Qed.

Lemma fexp_64 (e : Z) : fexp prec emax e = fexp64 e.
Proof. reflexivity. Qed.

(** Rounding a number that the format holds gives that number: for a
    mantissa [M] and an exponent [e] whose value, counted in units, is a
    multiple of [2^j] below [2^(53 + j)]. *)
Lemma binary_round_exact (s : bool) (M : positive) (e j : Z) :
  -1074 <= e -> 0 <= j <= 1074 ->
  (2 ^ j | Zpos M * 2 ^ (e + 1074)) ->
  Zpos M * 2 ^ (e + 1074) < 2 ^ (53 + j) ->
  exists (m' : positive) (e' : Z),
    binary_round prec emax s M e = S754_finite s m' e' /\
    -1074 <= e' /\
    Zpos m' * 2 ^ (e' + 1074) = Zpos M * 2 ^ (e + 1074).
Proof.
  intros He Hj Hdiv Hlt.
  set (v := Zpos M * 2 ^ (e + 1074)) in *.
  assert (Hv : 0 < v) by (apply Z.mul_pos_pos; [lia | apply Z.pow_pos_nonneg; lia]).
  assert (Ld : Zpos (digits2_pos M) + e + 1074 = Z.log2 v + 1).
  { unfold v. rewrite Z.log2_mul_pow2, digits2_pos_log2 by lia. lia. }
  assert (Lv : Z.log2 v < 53 + j) by (apply Z.log2_lt_pow2; lia).
  unfold binary_round. rewrite fexp_64.
  set (E := fexp64 (Zpos (digits2_pos M) + e)).
  assert (HE : E = Z.max (Z.log2 v - 1126) (-1074)) by (unfold E, fexp64; lia).
  unfold shl_align.
  destruct (E - e) as [| n | n] eqn:Dn.
  - (* no shift at all *)
    exists M, e. split; [| split; [lia | reflexivity]].
    unfold binary_round_aux, shr_fexp. cbn [Zdigits2 shr_record_of_loc].
    rewrite fexp_64. fold E. rewrite Dn. cbn [shr shr_m loc_of_shr_record round_nearest_even].
    cbn [Zdigits2]. rewrite fexp_64. fold E. rewrite Dn. cbn [shr shr_m].
    replace (e <=? emax - prec)%Z with true; [reflexivity |].
    symmetry. apply Z.leb_le. change (emax - prec) with 971. lia.
  - (* the low [n] bits are shifted out, and they are zero *)
    assert (EE : E = Z.log2 v - 1126) by lia.
    assert (D : (2 ^ (E + 1074) | v)).
    { apply Z.divide_trans with (2 ^ j); [| exact Hdiv].
      exists (2 ^ (j - (E + 1074))). rewrite <- Z.pow_add_r by lia. f_equal. lia. }
    destruct D as [c Hc].
    assert (Hc' : Zpos M = c * 2 ^ Zpos n).
    { assert (P : 2 ^ (E + 1074) = 2 ^ Zpos n * 2 ^ (e + 1074))
        by (rewrite <- Z.pow_add_r by lia; f_equal; lia).
      unfold v in Hc. rewrite P, Z.mul_assoc in Hc.
      apply Z.mul_reg_r in Hc; [exact Hc | apply Z.pow_nonzero; lia]. }
    assert (Pc : 0 < c).
    { assert (0 < 2 ^ Zpos n) by (apply Z.pow_pos_nonneg; lia). nia. }
    destruct c as [| m' | m']; try lia.
    exists m', E. split; [| split; [lia |]].
    + unfold binary_round_aux, shr_fexp. cbn [Zdigits2 shr_record_of_loc].
      rewrite fexp_64. fold E. rewrite Dn. cbn [shr].
      rewrite Hc', shr_exact.
      cbn [shr_m loc_of_shr_record round_nearest_even Zdigits2].
      assert (F : fexp prec emax (Zpos (digits2_pos m') + (e + Zpos n))
                  - (e + Zpos n) = 0).
      { rewrite fexp_64. unfold fexp64.
        assert (L : Z.log2 (Zpos M) = Zpos n + Z.log2 (Zpos m'))
          by (rewrite Hc'; apply Z.log2_mul_pow2; lia).
        rewrite digits2_pos_log2 in Ld |- *. lia. }
      rewrite F. cbn [shr shr_m].
      replace (e + Zpos n <=? emax - prec)%Z with true.
      * f_equal. lia.
      * symmetry. apply Z.leb_le. change (emax - prec) with 971. lia.
    + unfold v. rewrite Hc'.
      replace (E + 1074) with (Zpos n + (e + 1074)) by lia.
      rewrite (Z.pow_add_r 2 (Zpos n) (e + 1074)) by lia. ring.
  - (* the mantissa is shifted to the left *)
    exists (Pos.iter xO M n), E.
    assert (EE : -1074 <= E) by (unfold E, fexp64; lia).
    split; [| split; [exact EE |]].
    + unfold binary_round_aux, shr_fexp. cbn [Zdigits2 shr_record_of_loc].
      assert (F : fexp prec emax (Zpos (digits2_pos (Pos.iter xO M n)) + E) - E = 0).
      { rewrite fexp_64. unfold fexp64.
        assert (L : Z.log2 (Zpos (Pos.iter xO M n)) = Zpos n + Z.log2 (Zpos M))
          by (rewrite iter_xO_pow; apply Z.log2_mul_pow2; lia).
        rewrite digits2_pos_log2 in Ld |- *.
        unfold E, fexp64 in *. rewrite digits2_pos_log2 in *. lia. }
      rewrite F. cbn [shr shr_m loc_of_shr_record round_nearest_even Zdigits2].
      rewrite F. cbn [shr shr_m].
      replace (E <=? emax - prec)%Z with true; [reflexivity |].
      symmetry. apply Z.leb_le. change (emax - prec) with 971. lia.
    + rewrite iter_xO_pow. unfold v. clearbody E.
      replace (e + 1074) with (Zpos n + (E + 1074)) by lia.
      rewrite (Z.pow_add_r 2 (Zpos n) (E + 1074)) by lia. ring.
Qed.

(** The sum of two finite numbers, before it is rounded. *)
Lemma aligned_sum (sa sx : bool) (ma mx : positive) (ea ex : Z) :
  -1074 <= ea -> -1074 <= ex ->
  (cond_Zopp sa (Zpos (fst (shl_align ma ea (Z.min ea ex))))
   + cond_Zopp sx (Zpos (fst (shl_align mx ex (Z.min ea ex)))))
  * 2 ^ (Z.min ea ex + 1074)
  = cond_Zopp sa (Zpos ma) * 2 ^ (ea + 1074)
    + cond_Zopp sx (Zpos mx) * 2 ^ (ex + 1074).
Proof.
  intros Ea Ex. set (ez := Z.min ea ex).
  assert (Pa : 2 ^ (ea + 1074) = 2 ^ (ea - ez) * 2 ^ (ez + 1074))
    by (rewrite <- Z.pow_add_r by (unfold ez; lia); f_equal; lia).
  assert (Px : 2 ^ (ex + 1074) = 2 ^ (ex - ez) * 2 ^ (ez + 1074))
    by (rewrite <- Z.pow_add_r by (unfold ez; lia); f_equal; lia).
  rewrite !shl_align_value by (unfold ez; lia).
  rewrite Pa, Px.
  destruct sa, sx; cbn [cond_Zopp]; ring.
Qed.

(** What [binary_normalize] returns for an integer that the format
    holds. *)
Lemma binary_normalize_exact (M e j : Z) :
  -1074 <= e -> 0 <= j <= 1074 ->
  (2 ^ j | M * 2 ^ (e + 1074)) ->
  Z.abs (M * 2 ^ (e + 1074)) < 2 ^ (53 + j) ->
  match binary_normalize prec emax M e false with
  | S754_zero _ => M * 2 ^ (e + 1074) = 0
  | S754_finite s m' e' =>
    -1074 <= e' /\ cond_Zopp s (Zpos m') * 2 ^ (e' + 1074) = M * 2 ^ (e + 1074)
  | _ => False
  end.
Proof.
  intros He Hj Hd Hlt.
  destruct M as [| p | p]; cbn [binary_normalize].
  - reflexivity.
  - destruct (binary_round_exact false p e j He Hj Hd) as (m' & e' & -> & He' & Hu).
    + rewrite Z.abs_eq in Hlt; [exact Hlt |].
      apply Z.mul_nonneg_nonneg; [lia | apply Z.pow_nonneg; lia].
    + split; [exact He' | exact Hu].
  - assert (N : Zneg p * 2 ^ (e + 1074) = - (Zpos p * 2 ^ (e + 1074)))
      by (rewrite <- Pos2Z.opp_pos; ring).
    rewrite N in *.
    destruct (binary_round_exact true p e j He Hj) as (m' & e' & -> & He' & Hu).
    + exact (proj1 (Z.divide_opp_r _ _) Hd).
    + rewrite Z.abs_opp, Z.abs_eq in Hlt; [exact Hlt |].
      apply Z.mul_nonneg_nonneg; [lia | apply Z.pow_nonneg; lia].
    + split; [exact He' |]. cbn [cond_Zopp]. rewrite <- Hu. ring.
Qed.

(** An addition of two multiples of [2^j] whose sum is below [2^(53+j)]
    does not round. *)
Lemma exact_add_grid (x y : float) (a b j : Z) :
  units x = Some a -> units y = Some b ->
  0 <= j <= 1074 ->
  (2 ^ j | a) -> (2 ^ j | b) ->
  Z.abs (a + b) < 2 ^ (53 + j) ->
  exact_add x y = true.
Proof.
  intros Ux Uy Hj Da Db Hlt.
  unfold exact_add. rewrite Ux, Uy.
  assert (U : units (x + y) = Some (a + b)); [| rewrite U; apply Z.eqb_refl].
  unfold units in *. rewrite add_spec. unfold SF64add.
  destruct (Prim2SF x) as [sx | sx | | sx mx ex]; try discriminate;
    destruct (Prim2SF y) as [sy | sy | | sy my ey]; try discriminate.
  - injection Ux as <-. injection Uy as <-.
    destruct sx, sy; reflexivity.
  - injection Ux as <-. cbv [SFadd]. exact Uy.
  - injection Uy as <-. cbv [SFadd]. rewrite Z.add_0_r. exact Ux.
  - destruct (-1074 <=? ex)%Z eqn:Ex; [| discriminate].
    destruct (-1074 <=? ey)%Z eqn:Ey; [| discriminate].
    apply Z.leb_le in Ex, Ey.
    injection Ux as <-. injection Uy as <-.
    cbv beta iota zeta delta [SFadd].
    change (IntDef.Z.min ex ey) with (Z.min ex ey).
    pose proof (aligned_sum sx sy mx my ex ey Ex Ey) as S.
    set (M := cond_Zopp sx (Zpos (fst (shl_align mx ex (Z.min ex ey))))
              + cond_Zopp sy (Zpos (fst (shl_align my ey (Z.min ex ey))))) in *.
    pose proof (binary_normalize_exact M (Z.min ex ey) j) as N.
    rewrite S in N.
    specialize (N ltac:(lia) Hj (Z.divide_add_r _ _ _ Da Db) Hlt).
    destruct (binary_normalize prec emax M (Z.min ex ey) false) as [s | s | | s m' e'];
      try contradiction.
    + now rewrite N.
    + destruct N as [He' Hu].
      replace (-1074 <=? e')%Z with true by (symmetry; now apply Z.leb_le).
      now rewrite Hu.
Qed.

Lemma aligned_difference (sa sx : bool) (ma mx : positive) (ea ex : Z) :
  -1074 <= ea -> -1074 <= ex ->
  (cond_Zopp sa (Zpos (fst (shl_align ma ea (Z.min ea ex))))
   - cond_Zopp sx (Zpos (fst (shl_align mx ex (Z.min ea ex)))))
  * 2 ^ (Z.min ea ex + 1074)
  = cond_Zopp sa (Zpos ma) * 2 ^ (ea + 1074)
    - cond_Zopp sx (Zpos mx) * 2 ^ (ex + 1074).
Proof.
  intros Ea Ex. set (ez := Z.min ea ex).
  assert (Pa : 2 ^ (ea + 1074) = 2 ^ (ea - ez) * 2 ^ (ez + 1074))
    by (rewrite <- Z.pow_add_r by (unfold ez; lia); f_equal; lia).
  assert (Px : 2 ^ (ex + 1074) = 2 ^ (ex - ez) * 2 ^ (ez + 1074))
    by (rewrite <- Z.pow_add_r by (unfold ez; lia); f_equal; lia).
  rewrite !shl_align_value by (unfold ez; lia).
  rewrite Pa, Px.
  destruct sa, sx; cbn [cond_Zopp]; ring.
Qed.

(** The same for a subtraction. *)
Lemma exact_sub_grid (x y : float) (a b j : Z) :
  units x = Some a -> units y = Some b ->
  0 <= j <= 1074 ->
  (2 ^ j | a) -> (2 ^ j | b) ->
  Z.abs (a - b) < 2 ^ (53 + j) ->
  exact_sub x y = true.
Proof.
  intros Ux Uy Hj Da Db Hlt.
  unfold exact_sub. rewrite Ux, Uy.
  assert (U : units (x - y) = Some (a - b)); [| rewrite U; apply Z.eqb_refl].
  unfold units in *. rewrite sub_spec. unfold SF64sub.
  destruct (Prim2SF x) as [sx | sx | | sx mx ex]; try discriminate;
    destruct (Prim2SF y) as [sy | sy | | sy my ey]; try discriminate.
  - injection Ux as <-. injection Uy as <-.
    destruct sx, sy; reflexivity.
  - injection Ux as <-. cbv [SFsub].
    destruct (-1074 <=? ey)%Z; [| discriminate].
    injection Uy as <-. f_equal. destruct sy; cbn [negb cond_Zopp]; ring.
  - injection Uy as <-. cbv [SFsub]. rewrite Z.sub_0_r. exact Ux.
  - destruct (-1074 <=? ex)%Z eqn:Ex; [| discriminate].
    destruct (-1074 <=? ey)%Z eqn:Ey; [| discriminate].
    apply Z.leb_le in Ex, Ey.
    injection Ux as <-. injection Uy as <-.
    cbv beta iota zeta delta [SFsub].
    change (IntDef.Z.min ex ey) with (Z.min ex ey).
    pose proof (aligned_difference sx sy mx my ex ey Ex Ey) as S.
    set (M := cond_Zopp sx (Zpos (fst (shl_align mx ex (Z.min ex ey))))
              - cond_Zopp sy (Zpos (fst (shl_align my ey (Z.min ex ey))))) in *.
    pose proof (binary_normalize_exact M (Z.min ex ey) j) as N.
    rewrite S in N.
    specialize (N ltac:(lia) Hj (Z.divide_sub_r _ _ _ Da Db) Hlt).
    destruct (binary_normalize prec emax M (Z.min ex ey) false) as [s | s | | s m' e'];
      try contradiction.
    + now rewrite N.
    + destruct N as [He' Hu].
      replace (-1074 <=? e')%Z with true by (symmetry; now apply Z.leb_le).
      now rewrite Hu.
Qed.

Lemma multiple_spec (k : Z) (x : float) :
  0 <= k <= 1074 ->
  multiple_of_2_to_minus k x = true ->
  exists u, units x = Some u /\ (2 ^ (1074 - k) | u).
Proof.
  intros Hk. unfold multiple_of_2_to_minus.
  destruct (units x) as [u |]; [| discriminate].
  intros H. apply Z.eqb_eq in H. exists u. split; [reflexivity |].
  apply Z.mod_divide; [apply Z.pow_nonzero; lia | exact H].
Qed.

Lemma magnitude_cons (x : float) (xs : list float) :
  magnitude (x :: xs) = Z.abs (unit_of x) + magnitude xs.
Proof. reflexivity. Qed.

Lemma magnitude_nonneg (xs : list float) : 0 <= magnitude xs.
Proof.
  induction xs as [| x xs IH]; [cbn; lia | rewrite magnitude_cons; lia].
Qed.

Lemma magnitude_permutation (xs ys : list float) :
  Permutation xs ys -> magnitude xs = magnitude ys.
Proof.
  induction 1 as [| x l l' _ IH | x y l | l l' l'' _ IH1 _ IH2];
    rewrite ?magnitude_cons; lia.
Qed.

Lemma amounts_cons (e : Entry) (l : list Entry) :
  amounts (e :: l) = JsNumber.parseFloat (amount e) :: amounts l.
Proof. reflexivity. Qed.

Lemma magnitude_filter (p : Entry -> bool) (l : list Entry) :
  magnitude (amounts (filter p l)) <= magnitude (amounts l).
Proof.
  induction l as [| e l IH]; cbn [filter]; [lia |].
  destruct (p e); rewrite ?amounts_cons, ?magnitude_cons; lia.
Qed.

Lemma magnitude_two_types (l : list Entry) :
  magnitude (amounts (filter (fun entry => type entry =? "income") l))
  + magnitude (amounts (filter (fun entry => type entry =? "expense") l))
  <= magnitude (amounts l).
Proof.
  induction l as [| e l IH]; cbn [filter]; [cbn; lia |].
  destruct (String.eqb_spec (type e) "income") as [Ei | Ei].
  - replace (type e =? "expense") with false
      by (rewrite Ei; reflexivity).
    rewrite !amounts_cons, !magnitude_cons. lia.
  - destruct (type e =? "expense"); rewrite ?amounts_cons, ?magnitude_cons; lia.
Qed.

Lemma forallb_filter_amounts (q : float -> bool) (p : Entry -> bool) (l : list Entry) :
  forallb q (amounts l) = true -> forallb q (amounts (filter p l)) = true.
Proof.
  induction l as [| e l IH]; cbn [filter]; [reflexivity |].
  rewrite amounts_cons. cbn [forallb].
  intros H. apply andb_prop in H. destruct H as [H1 H2].
  destruct (p e); rewrite ?amounts_cons; cbn [forallb]; rewrite ?H1, IH; auto.
Qed.

Lemma units_total_bound (xs : list float) : Z.abs (units_total xs) <= magnitude xs.
Proof.
  induction xs as [| x xs IH]; [cbn; lia |].
  rewrite units_total_cons, magnitude_cons. lia.
Qed.

(** A reduction over multiples of [2^j] whose magnitudes add up to less
    than [2^(53+j)] does not round. *)
Lemma exact_fold_grid (k : Z) (xs : list float) :
  0 <= k <= 1074 ->
  forall (a : float) (ua : Z),
    units a = Some ua -> (2 ^ (1074 - k) | ua) ->
    forallb (multiple_of_2_to_minus k) xs = true ->
    Z.abs ua + magnitude xs < 2 ^ (53 + (1074 - k)) ->
    exact_fold xs a = true.
Proof.
  intros Hk. induction xs as [| x xs IH]; intros a ua Ua Da F B;
    cbn [exact_fold forallb] in *; [reflexivity |].
  apply andb_prop in F. destruct F as [Fx Fxs].
  destruct (multiple_spec k x Hk Fx) as (ux & Ux & Dx).
  rewrite magnitude_cons, (unit_of_units _ _ Ux) in B.
  pose proof (magnitude_nonneg xs).
  assert (E : exact_add a x = true).
  { apply (exact_add_grid a x ua ux (1074 - k)); try assumption; lia. }
  rewrite E. cbn [andb].
  destruct (exact_add_units _ _ E) as (n & m & Ua' & Ux' & Us).
  rewrite Ua in Ua'. rewrite Ux in Ux'. injection Ua' as <-. injection Ux' as <-.
  apply (IH _ (ua + ux) Us); [now apply Z.divide_add_r | exact Fxs | lia].
Qed.

Lemma exact_sum_grid (k : Z) (xs : list float) :
  0 <= k <= 1074 ->
  forallb (multiple_of_2_to_minus k) xs = true ->
  magnitude xs < 2 ^ (53 + (1074 - k)) ->
  exact_sum xs = true.
Proof.
  intros Hk F B.
  apply (exact_fold_grid k xs Hk PrimFloat.zero 0 units_zero);
    [apply Z.divide_0_r | exact F | cbn [Z.abs]; lia].
Qed.

Lemma magnitude_set (o : object float) (key : string) (v : float) :
  magnitude (map snd (set o key v))
  = magnitude (map snd o)
    - match get o key with Some old => Z.abs (unit_of old) | None => 0 end
    + Z.abs (unit_of v).
Proof.
  induction o as [| [k' v'] o IH]; cbn [set get map snd].
  - rewrite magnitude_cons. cbn. lia.
  - destruct (k' =? key); cbn [map snd]; rewrite !magnitude_cons.
    + lia.
    + rewrite IH. lia.
Qed.

(** The reduction that builds the breakdown does not round either, and
    the values it leaves are multiples too, no larger in all than the
    amounts reduced. *)
Lemma exact_breakdown_grid (k : Z) (es : list Entry) :
  0 <= k <= 1074 ->
  forall acc : object float,
    on_grid k acc ->
    forallb (multiple_of_2_to_minus k) (amounts es) = true ->
    magnitude (map snd acc) + magnitude (amounts es) < 2 ^ (53 + (1074 - k)) ->
    exact_breakdown es acc = true
    /\ on_grid k (fold_left breakdown_step es acc)
    /\ magnitude (map snd (fold_left breakdown_step es acc))
       <= magnitude (map snd acc) + magnitude (amounts es).
Proof.
  intros Hk. induction es as [| e es IH]; intros acc G F B;
    cbn [exact_breakdown fold_left] in *.
  - repeat split; [exact G | cbn; lia].
  - rewrite amounts_cons in F, B |- *. cbn [forallb] in F.
    apply andb_prop in F. destruct F as [Fx Fxs].
    destruct (multiple_spec k _ Hk Fx) as (ux & Ux & Dx).
    rewrite magnitude_cons, (unit_of_units _ _ Ux) in B |- *.
    pose proof (magnitude_nonneg (amounts es)) as P1.
    pose proof (magnitude_nonneg (map snd acc)) as P2.
    set (old := get acc (category e)) in *.
    assert (O : exists ua, units (or_zero old) = Some ua /\ (2 ^ (1074 - k) | ua)
                           /\ ua = match old with Some v => unit_of v | None => 0 end
                           /\ Z.abs ua <= magnitude (map snd acc)).
    { destruct old as [v |] eqn:Eo.
      - destruct (G v (get_In _ _ _ Eo)) as (u & Uv & Dv).
        destruct (or_zero_units (Some v) (ex_intro _ u Uv)) as [Uo _].
        exists (unit_of v). split; [exact Uo |].
        rewrite (unit_of_units _ _ Uv). split; [exact Dv |]. split; [reflexivity |].
        clear -Eo Uv. revert Eo. unfold old. clear old.
        induction acc as [| [k' v'] acc IHa]; cbn [get map snd]; [discriminate |].
        rewrite magnitude_cons. pose proof (magnitude_nonneg (map snd acc)).
        destruct (k' =? category e).
        + intros H'. injection H' as ->. rewrite (unit_of_units _ _ Uv). lia.
        + intros H'. specialize (IHa H'). lia.
      - exists 0. split; [reflexivity |]. split; [apply Z.divide_0_r |].
        split; [reflexivity | cbn [Z.abs]; lia]. }
    destruct O as (ua & Ua & Da & Eua & Bua).
    assert (E : exact_add (or_zero old) (JsNumber.parseFloat (amount e)) = true).
    { apply (exact_add_grid _ _ ua ux (1074 - k)); try assumption; lia. }
    rewrite E. cbn [andb].
    destruct (exact_add_units _ _ E) as (n & m & Ua' & Ux' & Us).
    rewrite Ua in Ua'. rewrite Ux in Ux'. injection Ua' as <-. injection Ux' as <-.
    assert (G1 : on_grid k (breakdown_step acc e)).
    { intros w Hw. unfold breakdown_step in Hw. apply In_set in Hw.
      destruct Hw as [-> | Hw]; [| now apply G].
      exists (ua + ux). split; [exact Us | now apply Z.divide_add_r]. }
    assert (M1 : magnitude (map snd (breakdown_step acc e))
                 <= magnitude (map snd acc) + Z.abs ux).
    { unfold breakdown_step. rewrite magnitude_set. fold old.
      change (add ?a ?b) with (PrimFloat.add a b).
      change (parseFloat ?s) with (JsNumber.parseFloat s).
      rewrite (unit_of_units _ _ Us).
      destruct old as [v |]; subst ua; lia. }
    destruct (IH (breakdown_step acc e) G1 Fxs ltac:(lia)) as (I1 & I2 & I3).
    repeat split; [exact I1 | exact I2 | lia].
Qed.

Lemma units_total_divide (k : Z) (xs : list float) :
  0 <= k <= 1074 ->
  forallb (multiple_of_2_to_minus k) xs = true ->
  (2 ^ (1074 - k) | units_total xs).
Proof.
  intros Hk. induction xs as [| x xs IH]; cbn [forallb]; intros F.
  - apply Z.divide_0_r.
  - apply andb_prop in F. destruct F as [Fx Fxs].
    destruct (multiple_spec k x Hk Fx) as (u & U & D).
    rewrite units_total_cons, (unit_of_units _ _ U).
    apply Z.divide_add_r; [exact D | now apply IH].
Qed.

Lemma dyadic_amounts_permutation (k : Z) (l l' : list Entry) :
  Permutation l l' -> dyadic_amounts k l -> dyadic_amounts k l'.
Proof.
  intros P (Hk & F & B).
  assert (Pa : Permutation (amounts l) (amounts l'))
    by (unfold amounts; now apply Permutation_map).
  split; [exact Hk |]. split.
  - apply forallb_forall. intros x Hx.
    rewrite forallb_forall in F. apply F.
    eapply Permutation_in; [apply Permutation_sym; exact Pa | exact Hx].
  - now rewrite <- (magnitude_permutation _ _ Pa).
Qed.

(** X1. Ledgers on which nothing rounds. If every amount of the ledger
    is a whole multiple of [2^-k] for some [k] from 0 to 1074 (whole units
    for [k = 0], quarters for [k = 2]) and the magnitudes of the amounts
    add up to less than [2^53] such multiples, then none of the additions
    that [calculations] performs rounds, in whatever order the ledger is,
    nor do the additions that sum the values of the breakdown, nor does the
    subtraction that gives the balance. *)
Theorem no_rounding_on_dyadic_amounts :
  forall (ledger ledger' : list Entry) (month : string) (k : Z),
    dyadic_amounts k ledger ->
    Permutation ledger ledger' ->
    exact_run ledger' month = true /\
    exact_sum (values (categoryBreakdown
                         (calculations (A := js_number) ledger' month))) = true /\
    exact_sub (totalIncome (calculations (A := js_number) ledger' month))
              (totalExpenses (calculations (A := js_number) ledger' month)) = true.
Proof.
  intros ledger ledger' month k D P.
  destruct (dyadic_amounts_permutation k _ _ P D) as (Hk & F & B).
  clear D P ledger.
  set (in_month := fun entry : Entry =>
         DateFns.isSameMonth (DateFns.parseISO (date entry))
                             (DateFns.parseISO (month ++ "-01"))).
  assert (S : forall p : Entry -> bool, exact_sum (amounts (filter p ledger')) = true).
  { intros p. apply (exact_sum_grid k _ Hk).
    - now apply forallb_filter_amounts.
    - pose proof (magnitude_filter p ledger'). lia. }
  assert (Sm : forall p : Entry -> bool,
             exact_sum (amounts (filter p (filter in_month ledger'))) = true).
  { intros p. apply (exact_sum_grid k _ Hk).
    - now apply forallb_filter_amounts, forallb_filter_amounts.
    - pose proof (magnitude_filter p (filter in_month ledger')).
      pose proof (magnitude_filter in_month ledger'). lia. }
  set (es := filter (fun entry => type entry =? "expense") (filter in_month ledger')).
  assert (Fe : forallb (multiple_of_2_to_minus k) (amounts es) = true)
    by now apply forallb_filter_amounts, forallb_filter_amounts.
  assert (Be : magnitude (amounts es) <= magnitude (amounts ledger')).
  { unfold es.
    pose proof (magnitude_filter (fun entry => type entry =? "expense")
                                 (filter in_month ledger')).
    pose proof (magnitude_filter in_month ledger'). lia. }
  assert (G0 : on_grid k []) by (intros v []).
  destruct (exact_breakdown_grid k es Hk [] G0 Fe) as (Eb & Gb & Mb);
    [cbn [map magnitude fold_right]; lia |].
  cbn [map magnitude fold_right] in Mb.
  split; [| split].
  - unfold exact_run; cbv zeta. fold in_month.
    rewrite !S, !Sm. fold es. rewrite Eb. reflexivity.
  - assert (Bd : categoryBreakdown (calculations (A := js_number) ledger' month)
                 = fold_left breakdown_step es []) by reflexivity.
    rewrite Bd. apply (exact_sum_grid k _ Hk).
    + apply forallb_forall. intros v Hv.
      assert (Hv' : In v (map snd (fold_left breakdown_step es [])))
        by (eapply Permutation_in; [apply values_permutation | exact Hv]).
      destruct (Gb v Hv') as (u & U & Dv).
      unfold multiple_of_2_to_minus. rewrite U. apply Z.eqb_eq.
      apply Z.mod_divide; [apply Z.pow_nonzero; lia | exact Dv].
    + rewrite (magnitude_permutation _ _ (values_permutation _)). lia.
  - assert (Ti : totalIncome (calculations (A := js_number) ledger' month)
                 = fold_left PrimFloat.add
                     (amounts (filter (fun entry => type entry =? "income") ledger'))
                     PrimFloat.zero) by exact (fold_amounts _ _).
    assert (Te : totalExpenses (calculations (A := js_number) ledger' month)
                 = fold_left PrimFloat.add
                     (amounts (filter (fun entry => type entry =? "expense") ledger'))
                     PrimFloat.zero) by exact (fold_amounts _ _).
    rewrite Ti, Te.
    destruct (exact_sum_units _ (S (fun entry => type entry =? "income"))) as [Ui _].
    destruct (exact_sum_units _ (S (fun entry => type entry =? "expense"))) as [Ue _].
    apply (exact_sub_grid _ _ _ _ (1074 - k) Ui Ue); [lia | | |].
    + apply units_total_divide; [exact Hk | now apply forallb_filter_amounts].
    + apply units_total_divide; [exact Hk | now apply forallb_filter_amounts].
    + pose proof (units_total_bound
                    (amounts (filter (fun entry => type entry =? "income") ledger'))).
      pose proof (units_total_bound
                    (amounts (filter (fun entry => type entry =? "expense") ledger'))).
      pose proof (magnitude_two_types ledger'). lia.
Qed.

Lemma no_rounding_on_dyadic_amounts_witness :
  exact_run (rev quarters_ledger) "2024-01" = true.
Proof.
  refine (proj1 (no_rounding_on_dyadic_amounts quarters_ledger (rev quarters_ledger)
                   "2024-01" 2 _ (Permutation_rev quarters_ledger))).
  split; [lia |]. split.
  - vm_compute. reflexivity.
  - vm_compute. reflexivity.
Defined.

(* ================================================================== *)
(** * The six-month trend *)
(* ================================================================== *)

Lemma days_in_month_ge_28 (y m : Z) : (28 <= DateFns.days_in_month y m)%Z.
Proof.
  unfold DateFns.days_in_month.
  destruct (m =? 1)%Z; [destruct (DateFns.is_leap y); lia |].
  destruct ((m =? 3) || (m =? 5) || (m =? 8) || (m =? 10))%Z; lia.
Qed.

(** Up to the 28th, [setMonth] keeps the day and lands in the month
    asked for. *)
Lemma setMonth_before_29th (now : DateFns.JsDate) (m : Z) :
  (1 <= DateFns.dayOfMonth now <= 28)%Z ->
  DateFns.setMonth now m
  = DateFns.mkDate (DateFns.fullYear now + m / 12) (m mod 12)
                   (DateFns.dayOfMonth now).
Proof.
  intros [H1 H28]. unfold DateFns.setMonth.
  destruct (Z.to_nat (DateFns.dayOfMonth now)) as [| n] eqn:F; [lia |].
  cbn [DateFns.carry_days].
  pose proof (days_in_month_ge_28 (DateFns.fullYear now + m / 12) (m mod 12)).
  destruct (Z.leb_spec (DateFns.dayOfMonth now)
              (DateFns.days_in_month (DateFns.fullYear now + m / 12) (m mod 12)));
    [reflexivity | lia].
Qed.

Lemma month_back_setMonth (now : DateFns.JsDate) (i : Z) :
  month_back now i
  = ((DateFns.fullYear now + (DateFns.month now - i) / 12)%Z,
     ((DateFns.month now - i) mod 12)%Z).
Proof.
  unfold month_back; cbv zeta.
  replace (12 * DateFns.fullYear now + DateFns.month now - i)%Z
    with (DateFns.fullYear now * 12 + (DateFns.month now - i))%Z by lia.
  rewrite Z.div_add_l by lia.
  rewrite (Z.add_comm (DateFns.fullYear now * 12)), Z.mod_add by lia.
  reflexivity.
Qed.

(** The three arrays of [lineChartData] always have six elements. *)
(** X2. Whatever the date and the ledger, the trend has six labels, six
    income totals and six expense totals. *)
Lemma lineChartData_lengths (now : DateFns.JsDate) (ledger : list Entry) :
  List.length (labels (lineChartData (A := js_number) now ledger)) = 6%nat /\
  List.length (incomeData (lineChartData (A := js_number) now ledger)) = 6%nat /\
  List.length (expenseData (lineChartData (A := js_number) now ledger)) = 6%nat.
Proof.
  unfold lineChartData; cbn [fold_left].
  unfold lineChartData_step;
    cbn [labels incomeData expenseData List.length app].
  repeat split.
Qed.

(** X3. When [now] is at most the 28th of its month, [lineChartData] is
    the trend series: the six months ending at the month of [now], oldest
    first, each with its label and its two totals. *)
Lemma lineChartData_before_29th (now : DateFns.JsDate) (ledger : list Entry) :
  (1 <= DateFns.dayOfMonth now <= 28)%Z ->
  lineChartData (A := js_number) now ledger = trend_series now ledger.
Proof.
  intros Hday.
  unfold lineChartData, trend_series; cbn [fold_left map].
  unfold lineChartData_step; cbn [labels incomeData expenseData app].
  rewrite !(setMonth_before_29th now _ Hday).
  rewrite !month_back_setMonth; cbn [fst snd].
  unfold month_total, DateFns.format_MMM_yyyy, DateFns.isSameMonth;
    cbn [DateFns.fullYear DateFns.month fst snd].
  rewrite !filter_fold_is_sigma.
  reflexivity.
Qed.

Lemma lineChartData_before_29th_witness :
  lineChartData (A := js_number) (DateFns.mkDate 2024 2 28) scenario_ledger
  = trend_series (DateFns.mkDate 2024 2 28) scenario_ledger.
Proof.
  apply lineChartData_before_29th.
  cbn [DateFns.dayOfMonth]. lia.
Defined.

(** C2, on 31 March 2024. The code's trend has no November 2023 and no
    February 2024: December and March come twice, so the 50.00 spent on
    1 February is in none of the six positions, while the six months ending
    at March 2024 are October to March and hold it in fifth position. *)
Theorem lineChartData_on_31_march_2024 :
  labels (lineChartData (A := js_number) (DateFns.mkDate 2024 2 31) scenario_ledger)
  = ["Oct 2023"; "Dec 2023"; "Dec 2023"; "Jan 2024"; "Mar 2024"; "Mar 2024"] /\
  expenseData (lineChartData (A := js_number) (DateFns.mkDate 2024 2 31) scenario_ledger)
  = [0; 0; 0; 200; 0; 0]%float /\
  labels (trend_series (A := js_number) (DateFns.mkDate 2024 2 31) scenario_ledger)
  = ["Oct 2023"; "Nov 2023"; "Dec 2023"; "Jan 2024"; "Feb 2024"; "Mar 2024"] /\
  expenseData (trend_series (A := js_number) (DateFns.mkDate 2024 2 31) scenario_ledger)
  = [0; 0; 0; 200; 50; 0]%float.
Proof. vm_compute. repeat split. Qed.

Example empty_ledger_trend :
  incomeData (lineChartData (A := js_number) (DateFns.mkDate 2024 2 15) [])
  = [0; 0; 0; 0; 0; 0]%float /\
  expenseData (lineChartData (A := js_number) (DateFns.mkDate 2024 2 15) [])
  = [0; 0; 0; 0; 0; 0]%float.
Proof. vm_compute. split; reflexivity. Qed.

(* ================================================================== *)
(** * The store: submit, update, remove *)
(* ================================================================== *)

Lemma truthy_spec (s : string) : truthy s = true <-> s <> "".
Proof.
  unfold truthy. destruct (String.eqb_spec s ""); simpl; split; congruence.
Qed.

Lemma truthy_false (s : string) : truthy s = false <-> s = "".
Proof.
  unfold truthy. destruct (String.eqb_spec s ""); simpl; split; congruence.
Qed.

Lemma same_id_spec (a b : option string) : same_id a b = true <-> a = b.
Proof.
  destruct a as [x |], b as [y |]; simpl; try (split; congruence).
  rewrite String.eqb_eq. split; congruence.
Qed.

Lemma same_id_false (a b : option string) : same_id a b = false <-> a <> b.
Proof.
  rewrite <- same_id_spec. destruct (same_id a b); split; congruence.
Qed.

Lemma guard_passes (st : State) :
  form_filled st ->
  negb (truthy (amount (currentEntry st)))
  || negb (truthy (category (currentEntry st))) = false.
Proof.
  intros [Ha Hc].
  apply truthy_spec in Ha, Hc. now rewrite Ha, Hc.
Qed.

(** C6. When the amount or the category of the form is empty,
    [handleSubmit] returns the state it was given: no entry is created and
    the ledger, like the rest of the state, is unchanged. *)
Theorem handleSubmit_aborts_on_empty_field :
  forall (now : Z) (today : DateFns.JsDate) (st : State),
    amount (currentEntry st) = "" \/ category (currentEntry st) = "" ->
    handleSubmit now today st = st.
Proof.
  intros now today st H. unfold handleSubmit; cbv zeta.
  destruct H as [H | H]; apply truthy_false in H; rewrite H; cbn [negb orb].
  - reflexivity.
  - now rewrite orb_true_r.
Qed.

Lemma handleSubmit_aborts_on_empty_field_witness :
  amount (currentEntry (changeForm "expense" "" "Food" "" "2023-11-15" busy_state)) = "" /\
  handleSubmit 1700000050000 (DateFns.mkDate 2023 10 14)
               (changeForm "expense" "" "Food" "" "2023-11-15" busy_state)
  = changeForm "expense" "" "Food" "" "2023-11-15" busy_state.
Proof.
  split.
  - reflexivity.
  - apply (handleSubmit_aborts_on_empty_field 1700000050000
             (DateFns.mkDate 2023 10 14)
             (changeForm "expense" "" "Food" "" "2023-11-15" busy_state)).
    left. reflexivity.
Defined.

Lemma map_replaced (i : string) (new : Entry) (l : list Entry) :
  replaced i new l
    (map (fun e => if same_id (id e) (Some i) then new else e) l).
Proof.
  induction l as [| e l IH]; cbn [map].
  - constructor.
  - destruct (same_id (id e) (Some i)) eqn:S.
    + apply replaced_match; [now apply same_id_spec | exact IH].
    + apply replaced_other; [now apply same_id_false | exact IH].
Qed.

Lemma replaced_none (i : string) (new : Entry) (l l' : list Entry) :
  replaced i new l l' ->
  (forall e, In e l -> id e <> Some i) -> l' = l.
Proof.
  induction 1 as [| e l l' Hne _ IH | e l l' Heq _ IH]; intros Hno.
  - reflexivity.
  - f_equal. apply IH. intros e' Hin. apply Hno. now right.
  - exfalso. apply (Hno e); [now left | exact Heq].
Qed.

Lemma replaced_length (i : string) (new : Entry) (l l' : list Entry) :
  replaced i new l l' -> List.length l' = List.length l.
Proof.
  induction 1; simpl; congruence.
Qed.

Lemma replaced_nth (i : string) (new : Entry) (l l' : list Entry) :
  replaced i new l l' ->
  forall (k : nat) (e : Entry),
    nth_error l k = Some e ->
    nth_error l' k = Some (if same_id (id e) (Some i) then new else e).
Proof.
  induction 1 as [| e0 l l' Hne _ IH | e0 l l' Heq _ IH]; intros k e Hk.
  - destruct k; discriminate.
  - destruct k as [| k]; cbn [nth_error] in *.
    + injection Hk as <-. apply same_id_false in Hne. now rewrite Hne.
    + now apply IH.
  - destruct k as [| k]; cbn [nth_error] in *.
    + injection Hk as <-. apply same_id_spec in Heq. now rewrite Heq.
    + now apply IH.
Qed.

(** C9. Submitting a filled form while the entry of id [i] is being
    edited replaces, each at its place, the entries whose id is [i] by the
    entry built from the form, and leaves every other entry as it is, at the
    same place: the ledger keeps its length, and when no entry has id [i] it
    is unchanged (nothing is appended). *)
Theorem update_replaces_in_place :
  forall (now : Z) (today : DateFns.JsDate) (st : State) (i : string),
    editingId st = Some i ->
    i <> "" ->
    form_filled st ->
    replaced i (new_entry now st)
             (entries st) (entries (handleSubmit now today st)) /\
    List.length (entries (handleSubmit now today st)) = List.length (entries st) /\
    (forall (k : nat) (e : Entry),
        nth_error (entries st) k = Some e ->
        nth_error (entries (handleSubmit now today st)) k
        = Some (if same_id (id e) (Some i) then new_entry now st else e)) /\
    ((forall e, In e (entries st) -> id e <> Some i) ->
     entries (handleSubmit now today st) = entries st).
Proof.
  intros now today st i Hedit Hi Hform.
  assert (R : replaced i (new_entry now st)
                       (entries st) (entries (handleSubmit now today st))).
  { unfold handleSubmit; cbv zeta.
    rewrite (guard_passes st Hform), Hedit. cbn [truthy_opt].
    apply truthy_spec in Hi. rewrite Hi. cbn [entries].
    apply map_replaced. }
  split; [exact R |].
  split; [exact (replaced_length _ _ _ _ R) |].
  split; [exact (replaced_nth _ _ _ _ R) |].
  exact (replaced_none _ _ _ _ R).
Qed.

Lemma update_replaces_in_place_witness :
  editingId editing_state = Some "1700000000000" /\
  "1700000000000" <> "" /\
  form_filled editing_state /\
  replaced "1700000000000"
           (new_entry 1700000050000 editing_state)
           (entries editing_state)
           (entries (handleSubmit 1700000050000 (DateFns.mkDate 2023 10 14)
                                  editing_state)).
Proof.
  assert (H1 : editingId editing_state = Some "1700000000000") by reflexivity.
  assert (H2 : "1700000000000" <> "") by discriminate.
  assert (H3 : form_filled editing_state) by (split; discriminate).
  exact (conj H1 (conj H2 (conj H3
           (proj1 (update_replaces_in_place 1700000050000
                     (DateFns.mkDate 2023 10 14) editing_state
                     "1700000000000" H1 H2 H3))))).
Defined.

Example update_computed :
  entries (handleSubmit 1700000050000 (DateFns.mkDate 2023 10 14) editing_state)
  = [ {| id := Some "1700000000000"; type := "expense"; amount := "13.00";
         category := "Food"; description := "lunch"; date := "2023-11-14" |} ].
Proof. vm_compute. reflexivity. Qed.

Lemma filter_removed (i : option string) (l : list Entry) :
  removed i l (filter (fun e => negb (same_id (id e) i)) l).
Proof.
  induction l as [| e l IH]; cbn [filter].
  - constructor.
  - destruct (same_id (id e) i) eqn:S; cbn [negb].
    + apply removed_match; [now apply same_id_spec | exact IH].
    + apply removed_other; [now apply same_id_false | exact IH].
Qed.

Lemma removed_none_left (i : option string) (l l' : list Entry) :
  removed i l l' -> forall e, In e l' -> In e l /\ id e <> i.
Proof.
  induction 1 as [| e0 l l' Hne _ IH | e0 l l' Heq _ IH]; intros e Hin.
  - contradiction.
  - destruct Hin as [<- | Hin].
    + split; [now left | exact Hne].
    + destruct (IH e Hin). split; [now right | assumption].
  - destruct (IH e Hin). split; [now right | assumption].
Qed.

Lemma removed_keeps_others (i : option string) (l l' : list Entry) :
  removed i l l' -> forall e, In e l -> id e <> i -> In e l'.
Proof.
  induction 1 as [| e0 l l' Hne _ IH | e0 l l' Heq _ IH]; intros e Hin Hid.
  - contradiction.
  - destruct Hin as [<- | Hin]; [now left | right; now apply IH].
  - destruct Hin as [<- | Hin]; [contradiction | now apply IH].
Qed.

Lemma removed_nothing (i : option string) (l l' : list Entry) :
  removed i l l' -> (forall e, In e l -> id e <> i) -> l' = l.
Proof.
  induction 1 as [| e0 l l' Hne _ IH | e0 l l' Heq _ IH]; intros Hno.
  - reflexivity.
  - f_equal. apply IH. intros e Hin. apply Hno. now right.
  - exfalso. apply (Hno e0); [now left | exact Heq].
Qed.

(** C10. [handleDelete] drops every entry whose id is the given one,
    so that none is left with it even when several had it, and keeps every
    other entry, in the order the ledger had; when no entry has the id the
    ledger is unchanged.  The rest of the state is untouched. *)
Theorem handleDelete_removes_every_match :
  forall (i : option string) (st : State),
    removed i (entries st) (entries (handleDelete i st)) /\
    (forall e, In e (entries (handleDelete i st)) <-> In e (entries st) /\ id e <> i) /\
    ((forall e, In e (entries st) -> id e <> i) ->
     entries (handleDelete i st) = entries st) /\
    currentEntry (handleDelete i st) = currentEntry st /\
    selectedMonth (handleDelete i st) = selectedMonth st /\
    editingId (handleDelete i st) = editingId st.
Proof.
  intros i st.
  pose proof (filter_removed i (entries st)) as R.
  change (filter _ (entries st)) with (entries (handleDelete i st)) in R.
  split; [exact R |].
  split.
  { intros e. split.
    - apply (removed_none_left _ _ _ R).
    - intros [Hin Hid]. exact (removed_keeps_others _ _ _ R e Hin Hid). }
  split; [exact (removed_nothing _ _ _ R) |].
  repeat split.
Qed.

Example delete_duplicates_computed :
  entries (handleDelete (Some "1700000000000")
             (run double_submit (initial (DateFns.mkDate 2023 10 14))))
  = [].
Proof. vm_compute. reflexivity. Qed.

(** The category effect is one of the changes of the form that a session
    lists. *)
Lemma categoryEffect_is_a_change (st : State) :
  categoryEffect st
  = step (Change (type (currentEntry st)) (amount (currentEntry st))
                 (if type (currentEntry st) =? "income" then "Salary" else "Food")
                 (description (currentEntry st)) (date (currentEntry st)))
         st.
Proof.
  unfold categoryEffect, step, changeForm; cbn [hd CATEGORIES_income CATEGORIES_expense].
  reflexivity.
Qed.

(* ================================================================== *)
(** * Add then remove *)
(* ================================================================== *)

Lemma filter_keeps_all (p : Entry -> bool) (l : list Entry) :
  (forall e, In e l -> p e = true) -> filter p l = l.
Proof.
  induction l as [| e l IH]; intros H; cbn [filter].
  - reflexivity.
  - rewrite (H e (or_introl eq_refl)). f_equal. apply IH.
    intros e' Hin. apply H. now right.
Qed.

(** What [handleSubmit] does when nothing is being edited and the form is
    filled: it appends the entry built from the form. *)
Lemma handleSubmit_adds (now : Z) (today : DateFns.JsDate) (st : State) :
  truthy_opt (editingId st) = false ->
  form_filled st ->
  entries (handleSubmit now today st) = (entries st ++ [new_entry now st])%list /\
  selectedMonth (handleSubmit now today st) = selectedMonth st.
Proof.
  intros Hadd Hform. unfold handleSubmit; cbv zeta.
  rewrite (guard_passes st Hform), Hadd. split; reflexivity.
Qed.

(** C8, as amended. Adding an entry and then removing it by the id it
    was given restores the ledger, and with it every aggregate, provided no
    entry of the ledger already had that id. *)
Theorem add_then_delete_restores_ledger :
  forall (now : Z) (today : DateFns.JsDate) (st : State),
    truthy_opt (editingId st) = false ->
    form_filled st ->
    ~ In (id (new_entry now st)) (ids (entries st)) ->
    entries (handleDelete (id (new_entry now st)) (handleSubmit now today st))
    = entries st /\
    calculations (A := js_number)
      (entries (handleDelete (id (new_entry now st)) (handleSubmit now today st)))
      (selectedMonth (handleDelete (id (new_entry now st)) (handleSubmit now today st)))
    = calculations (A := js_number) (entries st) (selectedMonth st).
Proof.
  intros now today st Hadd Hform Hfresh.
  destruct (handleSubmit_adds now today st Hadd Hform) as [He Hm].
  assert (L : entries (handleDelete (id (new_entry now st))
                                    (handleSubmit now today st)) = entries st).
  { cbn [handleDelete entries]. rewrite He, filter_app. cbn [filter].
    replace (same_id (id (new_entry now st)) (id (new_entry now st))) with true
      by (symmetry; now apply same_id_spec).
    cbn [negb]. rewrite app_nil_r.
    apply filter_keeps_all. intros e Hin.
    apply negb_true_iff, same_id_false. intros Heq.
    apply Hfresh. rewrite <- Heq. unfold ids. now apply in_map. }
  split; [exact L |].
  rewrite L. cbn [handleDelete selectedMonth]. now rewrite Hm.
Qed.

Lemma add_then_delete_restores_ledger_witness :
  truthy_opt (editingId busy_state) = false /\
  form_filled busy_state /\
  ~ In (id (new_entry 1700000050000 busy_state)) (ids (entries busy_state)) /\
  entries (handleDelete (id (new_entry 1700000050000 busy_state))
             (handleSubmit 1700000050000 (DateFns.mkDate 2023 10 14) busy_state))
  = entries busy_state.
Proof.
  assert (H1 : truthy_opt (editingId busy_state) = false) by reflexivity.
  assert (H2 : form_filled busy_state) by (split; discriminate).
  assert (H3 : ~ In (id (new_entry 1700000050000 busy_state))
                    (ids (entries busy_state))).
  { vm_compute. intros [H | []]. discriminate H. }
  exact (conj H1 (conj H2 (conj H3
           (proj1 (add_then_delete_restores_ledger 1700000050000
                     (DateFns.mkDate 2023 10 14) busy_state H1 H2 H3))))).
Defined.

(** C8 fails on the code when the clock gives an id that the ledger
    already holds: the removal then takes the older entry away too. *)
Lemma add_then_delete_loses_an_entry :
  ~ (forall (now : Z) (today : DateFns.JsDate) (st : State),
       truthy_opt (editingId st) = false ->
       form_filled st ->
       entries (handleDelete (id (new_entry now st)) (handleSubmit now today st))
       = entries st).
Proof.
  intros H.
  assert (F : form_filled busy_state) by (split; discriminate).
  specialize (H 1700000000000%Z (DateFns.mkDate 2023 10 14) busy_state eq_refl F).
  vm_compute in H. discriminate H.
Qed.

(* ================================================================== *)
(** * Ids along a session *)
(* ================================================================== *)

Lemma string_of_uint_nonempty (d : Decimal.uint) :
  NilZero.string_of_uint d <> "".
Proof.
  destruct d; discriminate.
Qed.

Lemma integer_toString_nonempty (z : Z) : JsNumber.integer_toString z <> "".
Proof.
  unfold JsNumber.integer_toString, NilZero.string_of_int.
  destruct (Z.to_int z); [apply string_of_uint_nonempty | discriminate].
Qed.

Lemma integer_toString_inj (a b : Z) :
  JsNumber.integer_toString a = JsNumber.integer_toString b -> a = b.
Proof.
  unfold JsNumber.integer_toString. intros H.
  apply DecimalZ.to_int_inj.
  assert (N : forall z, Z.to_int z <> Decimal.Pos Decimal.Nil
                        /\ Z.to_int z <> Decimal.Neg Decimal.Nil).
  { intros [| p | p]; cbn [Z.to_int]; split; try discriminate;
      intros E; injection E as E; exact (DecimalPos.Unsigned.to_uint_nonnil p E). }
  pose proof (NilZero.isi (Z.to_int a) (proj1 (N a)) (proj2 (N a))) as Ha.
  pose proof (NilZero.isi (Z.to_int b) (proj1 (N b)) (proj2 (N b))) as Hb.
  rewrite H in Ha. congruence.
Qed.

Lemma NoDup_app_apart {T : Type} (l l' : list T) :
  NoDup (l ++ l') -> forall a, In a l -> ~ In a l'.
Proof.
  induction l as [| x l IH]; cbn [app]; intros N a Hin Hin'.
  - contradiction.
  - inversion N as [| y ys Hnot Hrest]; subst.
    destruct Hin as [<- | Hin].
    + apply Hnot. apply in_or_app. now right.
    + exact (IH Hrest a Hin Hin').
Qed.

Lemma ids_filter_NoDup (p : Entry -> bool) (l : list Entry) :
  NoDup (ids l) -> NoDup (ids (filter p l)).
Proof.
  unfold ids. induction l as [| e l IH]; cbn [map filter]; intros N.
  - constructor.
  - inversion N as [| x xs Hnot Hrest]; subst.
    destruct (p e); cbn [map]; [| now apply IH].
    constructor; [| now apply IH].
    intros Hin. apply Hnot.
    apply in_map_iff in Hin. destruct Hin as [e' [He' Hin']].
    apply filter_In in Hin'. rewrite <- He'. apply in_map. tauto.
Qed.

Lemma ids_map_same (f : Entry -> Entry) (l : list Entry) :
  (forall e, id (f e) = id e) -> ids (map f l) = ids l.
Proof.
  intros H. unfold ids. rewrite map_map. apply map_ext. exact H.
Qed.

Lemma stamped_more (T T' : list Z) (st : State) :
  incl T T' -> stamped T st -> stamped T' st.
Proof.
  intros I [Hids Hnd Hform]. split.
  - intros e Hin. destruct (Hids e Hin) as [t [Ht He]]. exists t. auto.
  - exact Hnd.
  - destruct (editingId st) as [i |]; [| exact Hform].
    destruct Hform as [Hc [t [Ht Hi]]]. split; [exact Hc |]. exists t. auto.
Qed.

Lemma stamped_initial (today : DateFns.JsDate) : stamped [] (initial today).
Proof.
  split; cbn.
  - intros e [].
  - constructor.
  - reflexivity.
Qed.

(** A submission keeps the invariant when the clock value it stamps, if
    it stamps one, is new. *)
Lemma handleSubmit_stamped (now : Z) (today : DateFns.JsDate)
      (T : list Z) (st : State) :
  stamped T st ->
  (forall t, In t (stamp_of (Submit now today) st) -> ~ In t T) ->
  stamped (stamp_of (Submit now today) st ++ T) (handleSubmit now today st).
Proof.
  intros S Hnew. pose proof S as [Hids Hnd Hform].
  unfold handleSubmit, stamp_of, stamps_now in *; cbv zeta.
  destruct (truthy (amount (currentEntry st))) eqn:Ea; cbn [negb orb andb];
    [| exact S].
  destruct (truthy (category (currentEntry st))) eqn:Ec; cbn [negb orb andb];
    [| exact S].
  destruct (editingId st) as [i |] eqn:Ee.
  - (* an entry is being edited: its id is a stamp, hence truthy *)
    destruct Hform as [Hc [t [Ht Hi]]].
    assert (Ti : truthy i = true).
    { apply truthy_spec. rewrite Hi. apply integer_toString_nonempty. }
    cbn [truthy_opt]. rewrite Ti. cbn [negb andb app].
    assert (Hnew_id : id (new_entry now st) = Some i).
    { unfold new_entry; cbn [id]. now rewrite Hc. }
    split; cbn [entries currentEntry editingId].
    + intros e Hin. apply in_map_iff in Hin.
      destruct Hin as [e0 [He0 Hin0]].
      destruct (same_id (id e0) (Some i)) eqn:Es; subst e.
      * exists t. split; [exact Ht |]. rewrite Hnew_id. now rewrite Hi.
      * now apply Hids.
    + rewrite ids_map_same; [exact Hnd |].
      intros e. destruct (same_id (id e) (Some i)) eqn:Es; [| reflexivity].
      apply same_id_spec in Es. now rewrite Hnew_id.
    + reflexivity.
  - (* nothing is being edited: the clock value becomes the id *)
    cbn [truthy_opt negb andb]. rewrite Hform. cbn [app].
    assert (Hnew_id : id (new_entry now st)
                      = Some (JsNumber.integer_toString now)).
    { unfold new_entry; cbn [id]. now rewrite Hform, Ee. }
    assert (Hfresh : ~ In now T).
    { apply Hnew. rewrite Hform. cbn. now left. }
    split; cbn [entries currentEntry editingId].
    + intros e Hin. apply in_app_or in Hin. destruct Hin as [Hin | [<- | []]].
      * destruct (Hids e Hin) as [t [Ht He]]. exists t. split; [now right | exact He].
      * exists now. split; [now left | exact Hnew_id].
    + unfold ids. rewrite map_app. cbn [map].
      apply Permutation_NoDup with (l := id (new_entry now st) :: map id (entries st)).
      * apply Permutation_cons_append.
      * constructor; [| exact Hnd].
        intros Hin. apply in_map_iff in Hin. destruct Hin as [e [He Hin]].
        destruct (Hids e Hin) as [t [Ht Het]].
        rewrite Hnew_id, Het in He. injection He as He.
        apply integer_toString_inj in He. subst t. contradiction.
    + reflexivity.
Qed.

Lemma step_stamped (a : action) (T : list Z) (st : State) :
  stamped T st ->
  (forall t, In t (stamp_of a st) -> ~ In t T) ->
  stamped (stamp_of a st ++ T) (step a st).
Proof.
  intros S Hnew. destruct a as [t a c d dt | now today | k | i | today | m].
  - (* Change *)
    destruct S as [Hids Hnd Hform]. split; assumption.
  - (* Submit *)
    now apply handleSubmit_stamped.
  - (* Edit *)
    cbn [step stamp_of app].
    destruct (nth_error (entries st) k) as [entry |] eqn:Ek; [| exact S].
    destruct S as [Hids Hnd Hform]. split; cbn; try assumption.
    apply nth_error_In in Ek. destruct (Hids entry Ek) as [t [Ht He]].
    rewrite He. split; [reflexivity |]. now exists t.
  - (* Delete *)
    destruct S as [Hids Hnd Hform]. split; cbn [step stamp_of app handleDelete
                                                entries currentEntry editingId].
    + intros e Hin. apply filter_In in Hin. apply Hids. tauto.
    + now apply ids_filter_NoDup.
    + exact Hform.
  - (* Cancel *)
    destruct S as [Hids Hnd Hform]. split; cbn; try assumption. reflexivity.
  - (* SelectMonth *)
    destruct S as [Hids Hnd Hform]. split; assumption.
Qed.

Lemma run_stamped (session : list action) :
  forall (T : list Z) (st : State),
    stamped T st ->
    NoDup (stamps session st) ->
    (forall t, In t (stamps session st) -> ~ In t T) ->
    exists T', stamped T' (run session st).
Proof.
  induction session as [| a session IH]; intros T st S Hnd Hnew; cbn [run].
  - now exists T.
  - cbn [stamps] in Hnd, Hnew.
    apply (IH (stamp_of a st ++ T)%list).
    + apply step_stamped; [exact S |].
      intros t Ht. apply Hnew. apply in_or_app. now left.
    + now apply NoDup_app_remove_l in Hnd.
    + intros t Ht Hin. apply in_app_or in Hin. destruct Hin as [Hin | Hin].
      * exact (NoDup_app_apart _ _ Hnd t Hin Ht).
      * apply (Hnew t); [apply in_or_app; now right | exact Hin].
Qed.

(** C7, as amended. From the empty ledger, after any session of form
    changes, submissions (adds and updates), edits, removals and
    cancellations, no two entries of the ledger share an id, provided the
    clock values that the adds turned into ids are pairwise distinct. *)
Theorem ids_unique_when_stamps_differ :
  forall (today : DateFns.JsDate) (session : list action),
    NoDup (stamps session (initial today)) ->
    NoDup (ids (entries (run session (initial today)))).
Proof.
  intros today session Hnd.
  destruct (run_stamped session [] (initial today) (stamped_initial today) Hnd)
    as [T' S].
  - intros t _ [].
  - exact (stamped_nodup _ _ S).
Qed.

Lemma ids_unique_when_stamps_differ_witness :
  NoDup (stamps busy_session (initial (DateFns.mkDate 2023 10 14))) /\
  NoDup (ids (entries (run busy_session (initial (DateFns.mkDate 2023 10 14))))).
Proof.
  assert (H : NoDup (stamps busy_session (initial (DateFns.mkDate 2023 10 14)))).
  { vm_compute. repeat constructor; cbn; intuition discriminate. }
  exact (conj H (ids_unique_when_stamps_differ (DateFns.mkDate 2023 10 14)
                   busy_session H)).
Defined.

Example busy_session_computed :
  stamps busy_session (initial (DateFns.mkDate 2023 10 14))
  = [1700000000000; 1700000050000]%Z /\
  entries (run busy_session (initial (DateFns.mkDate 2023 10 14)))
  = [ {| id := Some "1700000000000"; type := "expense"; amount := "3.50";
         category := "Transport"; description := "bus"; date := "2023-11-15" |} ].
Proof. vm_compute. split; reflexivity. Qed.

(** C7 fails on the code when two adds read the same clock value: both
    entries get the same id. *)
Lemma double_submit_shares_an_id :
  ~ (forall (today : DateFns.JsDate) (session : list action),
       NoDup (ids (entries (run session (initial today))))).
Proof.
  intros H.
  specialize (H (DateFns.mkDate 2023 10 14) double_submit).
  vm_compute in H.
  inversion H as [| x l Hnot _]. apply Hnot. now left.
Qed.

(* ================================================================== *)
(** * Loading the persisted blob *)
(* ================================================================== *)

Lemma parse_empty : Json.parse "" = None.
Proof. reflexivity. Qed.

Lemma loadEffect_parses (text : string) :
  text <> "" ->
  loadEffect (Some text)
  = match Json.parse text with
    | Some v => Normal (Some v)
    | None => Throw "SyntaxError"
    end.
Proof.
  intros H. unfold loadEffect; cbn [truthy_opt].
  apply truthy_spec in H. now rewrite H.
Qed.

(** C5, as amended. When the blob is absent or the empty string, the
    ledger after the load effect is empty and nothing is thrown.  Any other
    blob is handed to [JSON.parse]: when it is no JSON text the effect
    throws the [SyntaxError], which nothing catches; when it is one, the
    value it denotes becomes the [entries] state as it is, the ledger it
    spells when it is an array of entries and a value that is no ledger
    otherwise. *)
Theorem mount_on_every_blob :
  mount None = Normal (Ledger []) /\
  mount (Some "") = Normal (Ledger []) /\
  (forall text : string,
      text <> "" -> Json.parse text = None ->
      mount (Some text) = Throw "SyntaxError") /\
  (forall (text : string) (v : Json.value) (l : list Entry),
      Json.parse text = Some v -> entries_of_json v = Some l ->
      mount (Some text) = Normal (Ledger l)) /\
  (forall (text : string) (v : Json.value),
      Json.parse text = Some v -> entries_of_json v = None ->
      mount (Some text) = Normal (NotALedger v)).
Proof.
  assert (NE : forall text v, Json.parse text = Some v -> text <> "").
  { intros text v P ->. rewrite parse_empty in P. discriminate. }
  repeat split.
  - intros text H P. unfold mount. now rewrite (loadEffect_parses text H), P.
  - intros text v l P D. unfold mount.
    now rewrite (loadEffect_parses text (NE _ _ P)), P, D.
  - intros text v P D. unfold mount.
    now rewrite (loadEffect_parses text (NE _ _ P)), P, D.
Qed.

(** C5 fails on the code: the blob [{] is no JSON text, and [mount]
    throws on it instead of giving the empty ledger. *)
Lemma mount_throws_on_malformed_blob :
  ~ (forall saved : option string,
       absent_or_malformed saved -> mount saved = Normal (Ledger [])).
Proof.
  intros H.
  assert (M : absent_or_malformed (Some "{")) by (vm_compute; exact I).
  specialize (H (Some "{") M).
  vm_compute in H. discriminate H.
Qed.

Example mount_computed :
  mount (Some "not json") = Throw "SyntaxError" /\
  mount (Some "5") = Normal (NotALedger (Json.JNumber 5%float)) /\
  mount (Some "null") = Normal (NotALedger Json.JNull) /\
  mount (Some (dq "{'entries':[]}"))
  = Normal (NotALedger (Json.JObject [("entries", Json.JArray [])])) /\
  mount (Some "[]") = Normal (Ledger []) /\
  mount (Some (dq "[{'id':'1704441600000','type':'income','amount':'1000.00','category':'Salary','description':'','date':'2024-01-05'}]"))
  = Normal (Ledger [ {| id := Some "1704441600000"; type := "income";
                        amount := "1000.00"; category := "Salary";
                        description := ""; date := "2024-01-05" |} ]).
Proof. vm_compute. repeat split. Qed.

(* ================================================================== *)
(** * Saving and loading back *)
(* ================================================================== *)

Lemma parse_quoted_char (c : ascii) (f : nat) (rest acc : list ascii) :
  Json.parse_chars (S f) (quote_char c ++ rest)%list acc
  = Json.parse_chars f rest (c :: acc).
Proof.
  destruct c as [[] [] [] [] [] [] [] []]; reflexivity.
Qed.

Lemma parse_quoted_chars (s : list ascii) :
  forall (f : nat) (rest acc : list ascii),
    (List.length s < f)%nat ->
    Json.parse_chars f (flat_map quote_char s ++ Json.byte 34 :: rest)%list acc
    = Some (string_of_list_ascii (rev acc ++ s), rest).
Proof.
  induction s as [| c s IH]; intros f rest acc Hf.
  - destruct f as [| f]; [inversion Hf |].
    cbn [flat_map app]. rewrite app_nil_r. reflexivity.
  - destruct f as [| f]; [inversion Hf |].
    cbn [flat_map]. rewrite <- app_assoc, parse_quoted_char.
    rewrite IH by (cbn [List.length] in Hf; lia).
    cbn [rev]. now rewrite <- app_assoc.
Qed.

Lemma quote_char_nonempty (c : ascii) : (1 <= List.length (quote_char c))%nat.
Proof.
  unfold quote_char; cbv zeta.
  repeat match goal with |- context [if ?b then _ else _] => destruct b end;
    cbn [List.length]; lia.
Qed.

Lemma quoted_chars_length (s : list ascii) :
  (List.length s <= List.length (flat_map quote_char s))%nat.
Proof.
  induction s as [| c s IH]; cbn [flat_map List.length]; [lia |].
  rewrite length_app. pose proof (quote_char_nonempty c). lia.
Qed.

Lemma quote_app (s : string) (rest : list ascii) :
  (quote s ++ rest)%list
  = (Json.byte 34
     :: flat_map quote_char (list_ascii_of_string s) ++ Json.byte 34 :: rest)%list.
Proof.
  unfold quote. cbn [app]. now rewrite <- app_assoc.
Qed.

(** What follows the opening quote of a quoted string is read back as the
    string. *)
Lemma parse_quoted_tail (s : string) (rest : list ascii) :
  let r := (flat_map quote_char (list_ascii_of_string s) ++ Json.byte 34 :: rest)%list in
  Json.parse_chars (List.length r) r [] = Some (s, rest).
Proof.
  cbv zeta. rewrite parse_quoted_chars.
  - cbn [rev app]. now rewrite string_of_list_ascii_of_string.
  - rewrite length_app. cbn [List.length].
    pose proof (quoted_chars_length (list_ascii_of_string s)). lia.
Qed.

Lemma parse_value_quote (s : string) (f : nat) (rest : list ascii) :
  Json.parse_value (S f) (quote s ++ rest)%list = Some (Json.JString s, rest).
Proof.
  rewrite quote_app.
  cbn [Json.parse_value Json.skip_ws].
  change (JsNumber.code (Json.byte 34)) with 34%Z.
  cbn [Z.eqb Pos.eqb orb].
  rewrite parse_quoted_tail. reflexivity.
Qed.

Lemma member_app (n v : string) (rest : list ascii) :
  (member n v ++ rest)%list
  = (Json.byte 34
     :: flat_map quote_char (list_ascii_of_string n)
     ++ Json.byte 34 :: Json.byte 58 :: (quote v ++ rest))%list.
Proof.
  unfold member. rewrite <- app_assoc, quote_app. reflexivity.
Qed.

Lemma parse_member_more (n v : string) (f : nat) (rest : list ascii)
      (acc : object Json.value) :
  Json.parse_members (S (S f)) (member n v ++ Json.byte 44 :: rest)%list acc
  = Json.parse_members (S f) rest (set acc n (Json.JString v)).
Proof.
  rewrite member_app.
  cbn [Json.parse_members Json.skip_ws].
  change (JsNumber.code (Json.byte 34)) with 34%Z.
  cbn [Z.eqb Pos.eqb orb].
  rewrite parse_quoted_tail.
  cbn [Json.skip_ws].
  change (JsNumber.code (Json.byte 58)) with 58%Z.
  cbn [Z.eqb Pos.eqb orb].
  rewrite parse_value_quote.
  cbn [Json.skip_ws].
  change (JsNumber.code (Json.byte 44)) with 44%Z.
  cbn [Z.eqb Pos.eqb orb].
  reflexivity.
Qed.

Lemma parse_member_last (n v : string) (f : nat) (rest : list ascii)
      (acc : object Json.value) :
  Json.parse_members (S (S f)) (member n v ++ Json.byte 125 :: rest)%list acc
  = Some (Json.JObject (set acc n (Json.JString v)), rest).
Proof.
  rewrite member_app.
  cbn [Json.parse_members Json.skip_ws].
  change (JsNumber.code (Json.byte 34)) with 34%Z.
  cbn [Z.eqb Pos.eqb orb].
  rewrite parse_quoted_tail.
  cbn [Json.skip_ws].
  change (JsNumber.code (Json.byte 58)) with 58%Z.
  cbn [Z.eqb Pos.eqb orb].
  rewrite parse_value_quote.
  cbn [Json.skip_ws].
  change (JsNumber.code (Json.byte 125)) with 125%Z.
  cbn [Z.eqb Pos.eqb orb].
  reflexivity.
Qed.

Lemma parse_members_text (ps : list (string * string)) :
  ps <> [] ->
  forall (f : nat) (rest : list ascii) (acc : object Json.value),
    (List.length ps < f)%nat ->
    Json.parse_members f (join_comma (members_of ps) ++ Json.byte 125 :: rest)%list acc
    = Some (Json.JObject
              (fold_left (fun o p => set o (fst p) (Json.JString (snd p))) ps acc),
            rest).
Proof.
  induction ps as [| [n v] ps IH]; intros Hne f rest acc Hf; [contradiction |].
  destruct f as [| [| f]]; cbn [List.length] in Hf; try lia.
  destruct ps as [| q ps].
  - cbn [members_of map join_comma fold_left fst snd].
    apply parse_member_last.
  - change (join_comma (members_of ((n, v) :: q :: ps)))
      with (member n v ++ Json.byte 44 :: join_comma (members_of (q :: ps)))%list.
    rewrite <- app_assoc. cbn [app].
    rewrite parse_member_more.
    rewrite IH; [reflexivity | discriminate | cbn [List.length] in *; lia].
Qed.

Lemma properties_nonempty (e : Entry) : properties e <> [].
Proof.
  unfold properties. destruct (id e); discriminate.
Qed.

Lemma properties_length (e : Entry) : (List.length (properties e) <= 6)%nat.
Proof.
  unfold properties. destruct (id e); cbn; lia.
Qed.

(** The keys of an entry object are distinct, so assigning them one after
    the other gives the object with these properties. *)
Lemma set_properties (e : Entry) :
  fold_left (fun o p => set o (fst p) (Json.JString (snd p))) (properties e) []
  = map (fun p => (fst p, Json.JString (snd p))) (properties e).
Proof.
  unfold properties. destruct (id e); reflexivity.
Qed.

Lemma stringify_entry_app (e : Entry) (rest : list ascii) :
  (stringify_entry e ++ rest)%list
  = (Json.byte 123
     :: join_comma (members_of (properties e)) ++ Json.byte 125 :: rest)%list.
Proof.
  unfold stringify_entry, members_of. cbn [app]. now rewrite <- app_assoc.
Qed.

Lemma join_members_head (e : Entry) (rest : list ascii) :
  exists r,
    (join_comma (members_of (properties e)) ++ rest)%list = Json.byte 34 :: r.
Proof.
  unfold properties.
  destruct (id e); cbn [app members_of map join_comma fst snd];
    rewrite <- app_assoc, member_app; eexists; reflexivity.
Qed.

Lemma parse_value_entry (e : Entry) (f : nat) (rest : list ascii) :
  (8 <= f)%nat ->
  Json.parse_value f (stringify_entry e ++ rest)%list
  = Some (json_of_entry e, rest).
Proof.
  intros Hf. destruct f as [| f]; [lia |].
  rewrite stringify_entry_app.
  destruct (join_members_head e (Json.byte 125 :: rest)) as [r Hr].
  cbn [Json.parse_value Json.skip_ws].
  change (JsNumber.code (Json.byte 123)) with 123%Z.
  cbn [Z.eqb Pos.eqb orb].
  rewrite Hr. cbn [Json.skip_ws].
  change (JsNumber.code (Json.byte 34)) with 34%Z.
  cbn [Z.eqb Pos.eqb orb].
  rewrite <- Hr.
  rewrite parse_members_text.
  - unfold json_of_entry. now rewrite set_properties.
  - apply properties_nonempty.
  - pose proof (properties_length e). lia.
Qed.

Lemma parse_elements_text (l : list Entry) :
  l <> [] ->
  forall (f : nat) (rest : list ascii) (acc : list Json.value),
    (List.length l + 8 <= f)%nat ->
    Json.parse_elements f
      (join_comma (map stringify_entry l) ++ Json.byte 93 :: rest)%list acc
    = Some (Json.JArray (rev acc ++ map json_of_entry l), rest).
Proof.
  induction l as [| e l IH]; intros Hne f rest acc Hf; [contradiction |].
  destruct f as [| f]; cbn [List.length] in Hf; [lia |].
  destruct l as [| e' l].
  - cbn [map join_comma Json.parse_elements].
    rewrite parse_value_entry by (cbn [List.length] in Hf; lia).
    cbn [Json.skip_ws].
    change (JsNumber.code (Json.byte 93)) with 93%Z.
    cbn [Z.eqb Pos.eqb orb rev]. reflexivity.
  - change (join_comma (map stringify_entry (e :: e' :: l)))
      with (stringify_entry e
            ++ Json.byte 44 :: join_comma (map stringify_entry (e' :: l)))%list.
    rewrite <- app_assoc. cbn [app Json.parse_elements].
    rewrite parse_value_entry by (cbn [List.length] in Hf; lia).
    cbn [Json.skip_ws].
    change (JsNumber.code (Json.byte 44)) with 44%Z.
    cbn [Z.eqb Pos.eqb orb].
    rewrite IH; [| discriminate | cbn [List.length] in *; lia].
    cbn [rev map]. now rewrite <- app_assoc.
Qed.

Lemma stringify_entry_length (e : Entry) : (3 <= List.length (stringify_entry e))%nat.
Proof.
  pose proof (stringify_entry_app e []) as H. rewrite app_nil_r in H.
  destruct (join_members_head e [Json.byte 125]) as [r Hr].
  rewrite H, Hr. cbn [List.length].
  assert (r <> []).
  { intros ->. apply (f_equal (@List.length ascii)) in Hr.
    rewrite length_app in Hr. cbn [List.length] in Hr.
    destruct (join_comma (members_of (properties e))) eqn:J; [| cbn in Hr; lia].
    unfold properties in J. destruct (id e); discriminate J. }
  destruct r; [contradiction | cbn [List.length]; lia].
Qed.

Lemma join_entries_length (l : list Entry) :
  (3 * List.length l <= List.length (join_comma (map stringify_entry l)))%nat.
Proof.
  induction l as [| e l IH]; [cbn; lia |].
  pose proof (stringify_entry_length e).
  destruct l as [| e' l].
  - cbn [map join_comma List.length]. lia.
  - change (join_comma (map stringify_entry (e :: e' :: l)))
      with (stringify_entry e
            ++ Json.byte 44 :: join_comma (map stringify_entry (e' :: l)))%list.
    rewrite length_app. cbn [List.length] in *. lia.
Qed.

Lemma parse_stringify (l : list Entry) :
  Json.parse (JSON_stringify l) = Some (Json.JArray (map json_of_entry l)).
Proof.
  unfold Json.parse, JSON_stringify.
  rewrite list_ascii_of_string_of_list_ascii.
  set (text := (Json.byte 91 :: join_comma (map stringify_entry l) ++ [Json.byte 93])%list).
  assert (L : (2 + 3 * List.length l <= List.length text)%nat).
  { unfold text. cbn [List.length]. rewrite length_app. cbn [List.length].
    pose proof (join_entries_length l). lia. }
  destruct (2 * List.length text + 2)%nat as [| f] eqn:F; [lia |].
  unfold text. cbn [Json.parse_value Json.skip_ws].
  change (JsNumber.code (Json.byte 91)) with 91%Z.
  cbn [Z.eqb Pos.eqb orb].
  destruct l as [| e l].
  - cbn [map join_comma app Json.skip_ws].
    change (JsNumber.code (Json.byte 93)) with 93%Z.
    cbn [Z.eqb Pos.eqb orb Json.skip_ws]. reflexivity.
  - assert (H : exists r, (join_comma (map stringify_entry (e :: l)) ++ [Json.byte 93])%list
                          = Json.byte 123 :: r).
    { destruct l as [| e' l]; cbn [map join_comma];
        [| rewrite <- app_assoc]; rewrite stringify_entry_app; eexists; reflexivity. }
    destruct H as [r Hr]. rewrite Hr. cbn [Json.skip_ws].
    change (JsNumber.code (Json.byte 123)) with 123%Z.
    cbn [Z.eqb Pos.eqb orb]. rewrite <- Hr.
    rewrite parse_elements_text; [| discriminate | cbn [List.length] in *; lia].
    cbn [rev app Json.skip_ws]. reflexivity.
Qed.

Lemma entry_of_json_of_entry (e : Entry) : entry_of_json (json_of_entry e) = Some e.
Proof.
  destruct e as [[i |] t a c d dt]; reflexivity.
Qed.

Lemma entries_of_json_of_entries (l : list Entry) :
  entries_of_json (Json.JArray (map json_of_entry l)) = Some l.
Proof.
  cbn [entries_of_json].
  induction l as [| e l IH]; cbn [map entries_of_json_list]; [reflexivity |].
  now rewrite entry_of_json_of_entry, IH.
Qed.

(** X4. Loading what the save effect has written gives the ledger back:
    [JSON.parse] reads the text that [JSON.stringify] writes for a ledger
    as an array of objects with the same entries, fields and order, and the
    load effect raises nothing on it.  This holds for the empty ledger
    too. *)
Theorem load_after_save :
  forall l : list Entry, mount (saveEffect l) = Normal (Ledger l).
Proof.
  intros l. unfold mount, saveEffect, loadEffect.
  assert (T : truthy_opt (Some (JSON_stringify l)) = true) by reflexivity.
  rewrite T, parse_stringify, entries_of_json_of_entries. reflexivity.
Qed.

(* ================================================================== *)
(** * More on the store: submitting, editing and deleting *)
(* ================================================================== *)

Lemma submit_with_empty_amount (now : Z) (today : DateFns.JsDate) (st : State) :
  amount (currentEntry st) = "" -> handleSubmit now today st = st.
Proof.
  intros H. unfold handleSubmit; cbv zeta. now rewrite H.
Qed.

Lemma submit_resets_form (now : Z) (today : DateFns.JsDate) (st : State) :
  form_filled st -> currentEntry (handleSubmit now today st) = blank_form today.
Proof.
  intros F. unfold handleSubmit; cbv zeta. rewrite (guard_passes st F).
  destruct (truthy_opt (editingId st)); reflexivity.
Qed.

(** X5. Submitting twice in a row does what submitting once does: a
    submission that passes the guard empties the amount of the form, so
    the next one returns at the guard, whatever the clock and the day. *)
Theorem second_submit_does_nothing :
  forall (now now' : Z) (today today' : DateFns.JsDate) (st : State),
    handleSubmit now' today' (handleSubmit now today st) = handleSubmit now today st.
Proof.
  intros now now' today today' st.
  destruct (truthy (amount (currentEntry st))) eqn:Ea.
  - destruct (truthy (category (currentEntry st))) eqn:Ec.
    + apply submit_with_empty_amount.
      rewrite submit_resets_form; [reflexivity |].
      split; now apply truthy_spec.
    + assert (E : handleSubmit now today st = st).
      { unfold handleSubmit; cbv zeta. rewrite Ea, Ec. reflexivity. }
      rewrite E. unfold handleSubmit; cbv zeta. rewrite Ea, Ec. reflexivity.
  - apply truthy_false in Ea.
    rewrite (submit_with_empty_amount now today st Ea).
    now apply submit_with_empty_amount.
Qed.

(** X6. Submitting the form while an entry is being edited leaves the
    ids of the ledger as they are, in number and in order: the form carries
    the id being edited, or none. *)
Theorem update_keeps_ids :
  forall (now : Z) (today : DateFns.JsDate) (st : State) (i : string),
    editingId st = Some i ->
    i <> "" ->
    id (currentEntry st) = Some i \/ id (currentEntry st) = None ->
    ids (entries (handleSubmit now today st)) = ids (entries st).
Proof.
  intros now today st i He Hi Hc.
  unfold handleSubmit; cbv zeta.
  destruct (negb (truthy (amount (currentEntry st)))
            || negb (truthy (category (currentEntry st)))); [reflexivity |].
  rewrite He. cbn [truthy_opt]. apply truthy_spec in Hi. rewrite Hi.
  cbn [entries]. apply ids_map_same. intros e.
  destruct (same_id (id e) (Some i)) eqn:S; [| reflexivity].
  apply same_id_spec in S. rewrite S.
  unfold new_entry; cbn [id]. rewrite He. cbn [truthy_opt]. rewrite Hi.
  destruct Hc as [-> | ->]; reflexivity.
Qed.

Lemma update_keeps_ids_witness :
  ids (entries (handleSubmit 1700000060000 (DateFns.mkDate 2023 10 14) editing_state))
  = ids (entries editing_state).
Proof.
  apply (update_keeps_ids 1700000060000 (DateFns.mkDate 2023 10 14) editing_state
                          "1700000000000").
  - reflexivity.
  - discriminate.
  - left. reflexivity.
Defined.

(** X7. An edit whose entry is deleted before the form is submitted is
    lost: the submission maps over a ledger that no longer holds the id, so
    it changes no entry and adds none. *)
Theorem edit_delete_submit_drops_the_edit :
  forall (now : Z) (today : DateFns.JsDate) (entry : Entry) (st : State) (i : string)
         (t a c d dt : string),
    id entry = Some i ->
    i <> "" ->
    entries (handleSubmit now today
               (changeForm t a c d dt
                  (handleDelete (Some i) (handleEdit entry st))))
    = entries (handleDelete (Some i) st).
Proof.
  intros now today entry st i t a c d dt Hid Hi.
  set (st' := changeForm t a c d dt (handleDelete (Some i) (handleEdit entry st))).
  assert (E : entries st' = entries (handleDelete (Some i) st)) by reflexivity.
  assert (Ed : editingId st' = Some i) by (cbn; exact Hid).
  unfold handleSubmit; cbv zeta.
  destruct (negb (truthy (amount (currentEntry st')))
            || negb (truthy (category (currentEntry st')))); [exact E |].
  rewrite Ed. cbn [truthy_opt]. apply truthy_spec in Hi. rewrite Hi.
  cbn [entries]. rewrite E.
  rewrite <- (map_id (entries (handleDelete (Some i) st))) at 2.
  apply map_ext_in. intros e Hin.
  destruct (same_id (id e) (Some i)) eqn:S; [| reflexivity].
  exfalso. apply same_id_spec in S.
  cbn [handleDelete entries] in Hin. apply filter_In in Hin.
  destruct Hin as [_ Hk]. apply negb_true_iff, same_id_false in Hk. contradiction.
Qed.

Lemma edit_delete_submit_drops_the_edit_witness :
  entries (handleSubmit 1700000060000 (DateFns.mkDate 2023 10 14)
             (changeForm "expense" "13" "Food" "lunch" "2023-11-14"
                (handleDelete (Some "1700000000000")
                   (handleEdit
                      {| id := Some "1700000000000"; type := "expense";
                         amount := "12.50"; category := "Food";
                         description := "lunch"; date := "2023-11-14" |}
                      busy_state))))
  = entries (handleDelete (Some "1700000000000") busy_state).
Proof.
  apply edit_delete_submit_drops_the_edit.
  - reflexivity.
  - discriminate.
Defined.

(** X8. Deleting by an id twice is deleting once, and two deletions
    commute. *)
Theorem handleDelete_twice_and_in_any_order :
  forall (i j : option string) (st : State),
    handleDelete i (handleDelete i st) = handleDelete i st /\
    handleDelete i (handleDelete j st) = handleDelete j (handleDelete i st).
Proof.
  intros i j st. unfold handleDelete; cbn [entries currentEntry selectedMonth editingId].
  split; f_equal.
  - induction (entries st) as [| e l IH]; cbn [filter]; [reflexivity |].
    destruct (negb (same_id (id e) i)) eqn:K; cbn [filter]; [| exact IH].
    rewrite K. now f_equal.
  - induction (entries st) as [| e l IH]; cbn [filter]; [reflexivity |].
    destruct (negb (same_id (id e) i)) eqn:Ki, (negb (same_id (id e) j)) eqn:Kj;
      cbn [filter]; rewrite ?Ki, ?Kj; try exact IH.
    now f_equal.
Qed.

Lemma filter_absent_id (i : option string) (l : list Entry) :
  ~ In i (ids l) -> filter (fun e => negb (same_id (id e) i)) l = l.
Proof.
  intros H. apply filter_keeps_all. intros e Hin.
  apply negb_true_iff, same_id_false. intros Heq. apply H.
  rewrite <- Heq. unfold ids. now apply in_map.
Qed.

(** X9. In a ledger whose ids are distinct, deleting by the id of an
    entry removes that entry and no other. *)
Theorem delete_with_unique_ids :
  forall (st : State) (l1 l2 : list Entry) (e : Entry),
    NoDup (ids (entries st)) ->
    entries st = (l1 ++ e :: l2)%list ->
    entries (handleDelete (id e) st) = (l1 ++ l2)%list.
Proof.
  intros st l1 l2 e N E. cbn [handleDelete entries]. rewrite E in *.
  unfold ids in N. rewrite map_app in N. cbn [map] in N.
  pose proof (NoDup_remove_2 _ _ _ N) as Hnot.
  rewrite filter_app. cbn [filter].
  replace (same_id (id e) (id e)) with true by (symmetry; now apply same_id_spec).
  cbn [negb].
  rewrite !filter_absent_id; [reflexivity | |];
    intros Hin; apply Hnot; apply in_or_app; [right | left]; exact Hin.
Qed.

Lemma delete_with_unique_ids_witness :
  entries (handleDelete (Some "1700000000000") busy_state) = [].
Proof.
  apply (delete_with_unique_ids busy_state [] []
           {| id := Some "1700000000000"; type := "expense"; amount := "12.50";
              category := "Food"; description := "lunch"; date := "2023-11-14" |}).
  - repeat constructor. intros [].
  - reflexivity.
Defined.

(** X10. With distinct ids, pressing the edit button of an entry, filling
    the form and submitting replaces that entry, at its place, by the entry
    of the form with the same id and the amount normalised to two
    decimals; every other entry is left as it is. *)
Theorem edit_changes_one_entry :
  forall (now : Z) (today : DateFns.JsDate) (st : State)
         (l1 l2 : list Entry) (e : Entry) (i t a c d dt : string),
    NoDup (ids (entries st)) ->
    entries st = (l1 ++ e :: l2)%list ->
    id e = Some i ->
    i <> "" ->
    a <> "" ->
    c <> "" ->
    entries (handleSubmit now today (changeForm t a c d dt (handleEdit e st)))
    = (l1
       ++ {| id := Some i; type := t;
             amount := JsNumber.toFixed2 (JsNumber.parseFloat a);
             category := c; description := d; date := dt |}
       :: l2)%list.
Proof.
  intros now today st l1 l2 e i t a c d dt N E Hid Hi Ha Hc.
  set (st' := changeForm t a c d dt (handleEdit e st)).
  assert (F : form_filled st') by (split; assumption).
  unfold handleSubmit; cbv zeta. rewrite (guard_passes st' F).
  assert (Ed : editingId st' = Some i) by exact Hid.
  rewrite Ed. cbn [truthy_opt]. apply truthy_spec in Hi. rewrite Hi.
  cbn [entries].
  assert (Nw : new_entry now st'
               = {| id := Some i; type := t;
                    amount := JsNumber.toFixed2 (JsNumber.parseFloat a);
                    category := c; description := d; date := dt |}).
  { unfold new_entry, st'; cbn. now rewrite Hid. }
  rewrite Nw.
  change (entries st') with (entries st). rewrite E in *.
  unfold ids in N. rewrite map_app in N. cbn [map] in N.
  pose proof (NoDup_remove_2 _ _ _ N) as Hnot. rewrite Hid in Hnot.
  assert (K : forall l, ~ In (Some i) (map id l) ->
                        map (fun e0 => if same_id (id e0) (Some i) then
                                         {| id := Some i; type := t;
                                            amount := JsNumber.toFixed2 (JsNumber.parseFloat a);
                                            category := c; description := d; date := dt |}
                                       else e0) l = l).
  { intros l Hl. rewrite <- (map_id l) at 2. apply map_ext_in. intros e0 Hin.
    destruct (same_id (id e0) (Some i)) eqn:S; [| reflexivity].
    exfalso. apply Hl. apply same_id_spec in S. rewrite <- S. now apply in_map. }
  rewrite map_app. cbn [map].
  replace (same_id (id e) (Some i)) with true
    by (symmetry; now apply same_id_spec).
  rewrite !K; [reflexivity | |];
    intros Hin; apply Hnot; apply in_or_app; [right | left]; exact Hin.
Qed.

Lemma edit_changes_one_entry_witness :
  entries (handleSubmit 1700000060000 (DateFns.mkDate 2023 10 14)
             (changeForm "expense" "13" "Food" "lunch" "2023-11-14"
                (handleEdit
                   {| id := Some "1700000000000"; type := "expense";
                      amount := "12.50"; category := "Food";
                      description := "lunch"; date := "2023-11-14" |}
                   busy_state)))
  = [ {| id := Some "1700000000000"; type := "expense";
         amount := JsNumber.toFixed2 (JsNumber.parseFloat "13");
         category := "Food"; description := "lunch"; date := "2023-11-14" |} ].
Proof.
  apply (edit_changes_one_entry 1700000060000 (DateFns.mkDate 2023 10 14)
           busy_state [] []).
  - repeat constructor. intros [].
  - reflexivity.
  - reflexivity.
  - discriminate.
  - discriminate.
  - discriminate.
Defined.

Lemma new_entry_went_through (now : Z) (st : State) :
  form_filled st -> went_through_the_form (new_entry now st).
Proof.
  intros [Ha Hc]. split; [exact Hc |].
  exists (amount (currentEntry st)). split; [exact Ha | reflexivity].
Qed.

Lemma step_went_through (a : action) (st : State) :
  Forall went_through_the_form (entries st) ->
  Forall went_through_the_form (entries (step a st)).
Proof.
  intros F. destruct a as [t a c d dt | now today | k | i | today | m];
    cbn [step]; try exact F.
  - unfold handleSubmit; cbv zeta.
    destruct (truthy (amount (currentEntry st))) eqn:Ea; cbn [negb orb]; [| exact F].
    destruct (truthy (category (currentEntry st))) eqn:Ec; cbn [negb orb]; [| exact F].
    assert (N : went_through_the_form (new_entry now st)).
    { apply new_entry_went_through. split; now apply truthy_spec. }
    destruct (truthy_opt (editingId st)); cbn [entries].
    + apply Forall_forall. intros e Hin. apply in_map_iff in Hin.
      destruct Hin as [e0 [He0 Hin0]].
      destruct (same_id (id e0) (editingId st)); subst e; [exact N |].
      rewrite Forall_forall in F. now apply F.
    + apply Forall_app. split; [exact F | now constructor].
  - destruct (nth_error (entries st) k); exact F.
  - cbn [handleDelete entries]. apply Forall_forall. intros e Hin.
    apply filter_In in Hin. rewrite Forall_forall in F. apply F. tauto.
Qed.

(** X11. Whatever the session from the empty ledger, every entry of the
    ledger has a category that is not empty and an amount that is the
    [toFixed(2)] of the number read from a string that was not empty: no
    entry gets in but through the guard and the normalisation of
    [handleSubmit]. *)
Theorem stored_entries_went_through_the_form :
  forall (today : DateFns.JsDate) (session : list action) (e : Entry),
    In e (entries (run session (initial today))) ->
    went_through_the_form e.
Proof.
  intros today session.
  assert (G : forall st, Forall went_through_the_form (entries st) ->
                         Forall went_through_the_form (entries (run session st))).
  { induction session as [| a session IH]; intros st F; cbn [run]; [exact F |].
    apply IH. now apply step_went_through. }
  intros e Hin.
  specialize (G (initial today) (Forall_nil _)).
  rewrite Forall_forall in G. now apply G.
Qed.

Lemma stored_entries_went_through_the_form_witness :
  went_through_the_form
    {| id := Some "1700000000000"; type := "expense"; amount := "3.50";
       category := "Transport"; description := "bus"; date := "2023-11-15" |}.
Proof.
  apply (stored_entries_went_through_the_form (DateFns.mkDate 2023 10 14) busy_session).
  vm_compute. left. reflexivity.
Defined.

Lemma recentEntries_firstn (l : list Entry) : recentEntries l = firstn 10 (rev l).
Proof.
  unfold recentEntries. now rewrite firstn_rev.
Qed.

(** X12. The list of recent entries holds the last ten entries of the
    ledger, the newest first: it is the first ten of the reversed ledger,
    it has [min 10 n] entries for a ledger of [n], and an entry appended to
    the ledger comes first and pushes the tenth out. *)
Theorem recentEntries_newest_first :
  forall (l : list Entry) (e : Entry),
    recentEntries l = firstn 10 (rev l) /\
    List.length (recentEntries l) = Nat.min 10 (List.length l) /\
    (forall x, In x (recentEntries l) -> In x l) /\
    recentEntries (l ++ [e]) = e :: firstn 9 (recentEntries l).
Proof.
  intros l e.
  split; [apply recentEntries_firstn |].
  split; [rewrite recentEntries_firstn, length_firstn, length_rev; reflexivity |].
  split.
  - intros x Hx. rewrite recentEntries_firstn in Hx.
    apply in_rev. rewrite <- (firstn_skipn 10 (rev l)).
    apply in_or_app. now left.
  - rewrite !recentEntries_firstn, rev_app_distr, firstn_firstn. reflexivity.
Qed.

(** X13. After an add, the new entry heads the list of recent entries. *)
Theorem added_entry_is_listed_first :
  forall (now : Z) (today : DateFns.JsDate) (st : State),
    truthy_opt (editingId st) = false ->
    form_filled st ->
    recentEntries (entries (handleSubmit now today st))
    = new_entry now st :: firstn 9 (recentEntries (entries st)).
Proof.
  intros now today st Hadd Hform.
  destruct (handleSubmit_adds now today st Hadd Hform) as [He _].
  rewrite He, !recentEntries_firstn, rev_app_distr, firstn_firstn. reflexivity.
Qed.

Lemma added_entry_is_listed_first_witness :
  recentEntries (entries (handleSubmit 1700000060000 (DateFns.mkDate 2023 10 14) busy_state))
  = new_entry 1700000060000 busy_state :: firstn 9 (recentEntries (entries busy_state)).
Proof.
  assert (F : form_filled busy_state) by (split; discriminate).
  exact (added_entry_is_listed_first 1700000060000 (DateFns.mkDate 2023 10 14)
           busy_state eq_refl F).
Defined.

(* ================================================================== *)
(** * The category effect after a render *)
(* ================================================================== *)

(** X14. Pressing the edit button of an entry whose type is not the type
    of the form replaces, once the effect has run, the category of the
    entry by the first category of its type: the form then shows the id,
    the type and the amount of the entry, and "Salary" or "Food" for its
    category. *)
Theorem press_edit_of_other_type_resets_category :
  forall (entry : Entry) (st : State),
    type entry <> type (currentEntry st) ->
    category (currentEntry (press_edit entry st))
    = (if type entry =? "income" then "Salary" else "Food") /\
    id (currentEntry (press_edit entry st)) = id entry /\
    type (currentEntry (press_edit entry st)) = type entry /\
    amount (currentEntry (press_edit entry st)) = amount entry /\
    editingId (press_edit entry st) = id entry.
Proof.
  intros entry st H. unfold press_edit, after_render.
  cbn [handleEdit currentEntry].
  apply String.eqb_neq in H. rewrite H.
  unfold categoryEffect; cbn.
  destruct (type entry =? "income"); repeat split.
Qed.

Lemma press_edit_of_other_type_resets_category_witness :
  category (currentEntry
              (press_edit {| id := Some "1700000050000"; type := "income";
                             amount := "1000.00"; category := "Gift";
                             description := ""; date := "2023-11-15" |}
                          busy_state))
  = "Salary".
Proof.
  refine (proj1 (press_edit_of_other_type_resets_category
                   {| id := Some "1700000050000"; type := "income";
                      amount := "1000.00"; category := "Gift";
                      description := ""; date := "2023-11-15" |}
                   busy_state _)).
  discriminate.
Defined.

(** X15. Pressing the edit button of an entry of the type of the form
    puts the entry in the form as it is, and leaves the ledger alone. *)
Theorem press_edit_of_same_type_shows_the_entry :
  forall (entry : Entry) (st : State),
    type entry = type (currentEntry st) ->
    currentEntry (press_edit entry st) = entry /\
    editingId (press_edit entry st) = id entry /\
    entries (press_edit entry st) = entries st.
Proof.
  intros entry st H. unfold press_edit, after_render.
  cbn [handleEdit currentEntry]. rewrite H, String.eqb_refl. repeat split.
Qed.

Lemma press_edit_of_same_type_shows_the_entry_witness :
  currentEntry
    (press_edit {| id := Some "1700000000000"; type := "expense";
                   amount := "12.50"; category := "Food";
                   description := "lunch"; date := "2023-11-14" |}
                busy_state)
  = {| id := Some "1700000000000"; type := "expense";
       amount := "12.50"; category := "Food";
       description := "lunch"; date := "2023-11-14" |}.
Proof.
  refine (proj1 (press_edit_of_same_type_shows_the_entry
                   {| id := Some "1700000000000"; type := "expense";
                      amount := "12.50"; category := "Food";
                      description := "lunch"; date := "2023-11-14" |}
                   busy_state _)).
  reflexivity.
Defined.

(** X16. Pressing a type button keeps the category of the form among
    the categories of the type of the form. *)
Theorem press_type_picks_a_category_of_the_type :
  forall (t : string) (st : State),
    In (category (currentEntry st)) (if type (currentEntry st) =? "income"
                                     then CATEGORIES_income else CATEGORIES_expense) ->
    In (category (currentEntry (press_type t st)))
       (if type (currentEntry (press_type t st)) =? "income"
        then CATEGORIES_income else CATEGORIES_expense) /\
    type (currentEntry (press_type t st)) = t.
Proof.
  intros t st H. unfold press_type, after_render; cbv zeta.
  cbn [currentEntry type].
  destruct (String.eqb_spec t (type (currentEntry st))) as [E | E].
  - cbn [currentEntry type category]. rewrite E. split; [exact H | reflexivity].
  - unfold categoryEffect; cbn [currentEntry type category].
    split; [| reflexivity].
    destruct (t =? "income"); cbn; auto.
Qed.

Lemma press_type_picks_a_category_of_the_type_witness :
  In (category (currentEntry (press_type "income" busy_state)))
     (if type (currentEntry (press_type "income" busy_state)) =? "income"
      then CATEGORIES_income else CATEGORIES_expense).
Proof.
  refine (proj1 (press_type_picks_a_category_of_the_type "income" busy_state _)).
  vm_compute. right. left. reflexivity.
Defined.

(* ================================================================== *)
(** * More on dates: the default month and the trend on any day *)
(* ================================================================== *)

Lemma code_digit_char (d : Z) :
  JsNumber.code (DateFns.digit_char d) = (48 + d mod 10)%Z.
Proof.
  unfold JsNumber.code, DateFns.digit_char.
  pose proof (Z.mod_pos_bound d 10 ltac:(lia)).
  rewrite nat_ascii_embedding by lia. lia.
Qed.

Lemma is_digit_digit_char (d : Z) : JsNumber.is_digit (DateFns.digit_char d) = true.
Proof.
  unfold JsNumber.is_digit. rewrite code_digit_char.
  pose proof (Z.mod_pos_bound d 10 ltac:(lia)).
  apply andb_true_iff; split; apply Z.leb_le; lia.
Qed.

Lemma digit_val_digit_char (d : Z) :
  JsNumber.digit_val (DateFns.digit_char d) = (d mod 10)%Z.
Proof.
  unfold JsNumber.digit_val. rewrite code_digit_char. lia.
Qed.

Lemma days_in_month_le_31 (y m : Z) : (DateFns.days_in_month y m <= 31)%Z.
Proof.
  unfold DateFns.days_in_month.
  destruct (m =? 1)%Z; [destruct (DateFns.is_leap y); lia |].
  destruct ((m =? 3) || (m =? 5) || (m =? 8) || (m =? 10))%Z; lia.
Qed.

(** [parseISO] reads back what [format(date, 'yyyy-MM-dd')] writes. *)
Lemma parseISO_format (d : DateFns.JsDate) :
  calendar_date d ->
  DateFns.parseISO (DateFns.format_yyyy_MM_dd d) = Some d.
Proof.
  intros [Hy [Hm Hd]]. destruct d as [y m dd]; cbn [DateFns.fullYear DateFns.month DateFns.dayOfMonth] in *.
  pose proof (days_in_month_le_31 y m) as H31.
  unfold DateFns.parseISO, DateFns.format_yyyy_MM_dd, DateFns.pad4, DateFns.pad2.
  cbn [DateFns.fullYear DateFns.month DateFns.dayOfMonth append list_ascii_of_string].
  rewrite !is_digit_digit_char, !digit_val_digit_char.
  change (JsNumber.code "-") with 45%Z.
  cbn [andb Z.eqb Pos.eqb].
  assert (Ey : (1000 * ((y / 1000) mod 10) + 100 * ((y / 100) mod 10)
                + 10 * ((y / 10) mod 10) + y mod 10 = y)%Z)
    by (Z.div_mod_to_equations; lia).
  assert (Em : (10 * (((m + 1) / 10) mod 10) + (m + 1) mod 10 - 1 = m)%Z)
    by (Z.div_mod_to_equations; lia).
  assert (Ed : (10 * ((dd / 10) mod 10) + dd mod 10 = dd)%Z)
    by (Z.div_mod_to_equations; lia).
  rewrite Ey, Em, Ed.
  replace ((0 <=? m)%Z && (m <=? 11)%Z && (1 <=? dd)%Z
           && (dd <=? DateFns.days_in_month y m)%Z) with true.
  - reflexivity.
  - symmetry. repeat (apply andb_true_iff; split); apply Z.leb_le; lia.
Qed.

(** X17. The default date of the form and the default month are read
    back by [parseISO] as the day and the month they were written from:
    for every calendar date, [parseISO(format(date, 'yyyy-MM-dd'))] is the
    date, and [parseISO(format(date, 'yyyy-MM') + '-01')] is the first day
    of its month. *)
Theorem parseISO_reads_what_format_writes :
  forall today : DateFns.JsDate,
    calendar_date today ->
    DateFns.parseISO (date (blank_form today)) = Some today /\
    DateFns.parseISO (selectedMonth (initial today) ++ "-01")
    = Some (DateFns.mkDate (DateFns.fullYear today) (DateFns.month today) 1).
Proof.
  intros today C. split.
  - exact (parseISO_format today C).
  - destruct C as [Hy [Hm Hd]].
    change (selectedMonth (initial today) ++ "-01")
      with (DateFns.format_yyyy_MM_dd
              (DateFns.mkDate (DateFns.fullYear today) (DateFns.month today) 1)).
    apply parseISO_format.
    repeat split; cbn [DateFns.fullYear DateFns.month DateFns.dayOfMonth]; lia.
Qed.

Lemma parseISO_reads_what_format_writes_witness :
  DateFns.parseISO (date (blank_form (DateFns.mkDate 2024 1 29)))
  = Some (DateFns.mkDate 2024 1 29).
Proof.
  refine (proj1 (parseISO_reads_what_format_writes (DateFns.mkDate 2024 1 29) _)).
  unfold calendar_date; cbn [DateFns.fullYear DateFns.month DateFns.dayOfMonth].
  change (DateFns.days_in_month 2024 1) with 29%Z. lia.
Defined.

Lemma month_back_next (now : DateFns.JsDate) (i : Z) :
  month_back now (i - 1)
  = (if (snd (month_back now i) =? 11)%Z
     then ((fst (month_back now i) + 1)%Z, 0%Z)
     else (fst (month_back now i), (snd (month_back now i) + 1)%Z)).
Proof.
  unfold month_back; cbv zeta; cbn [fst snd].
  set (n := (12 * DateFns.fullYear now + DateFns.month now - i)%Z).
  replace (12 * DateFns.fullYear now + DateFns.month now - (i - 1))%Z
    with (n + 1)%Z by lia.
  destruct (Z.eqb_spec (n mod 12) 11) as [E | E]; f_equal;
    Z.div_mod_to_equations; lia.
Qed.

(** [setMonth] on a calendar date: the year and the month that result. *)
Lemma setMonth_shown (now : DateFns.JsDate) (i : Z) :
  calendar_date now ->
  DateFns.fullYear (DateFns.setMonth now (DateFns.month now - i))
  = fst (shown_month now i) /\
  DateFns.month (DateFns.setMonth now (DateFns.month now - i))
  = snd (shown_month now i).
Proof.
  intros [_ [_ [Hd1 Hd2]]].
  pose proof (days_in_month_le_31 (DateFns.fullYear now) (DateFns.month now)) as H31.
  unfold shown_month; cbv zeta.
  rewrite month_back_next.
  rewrite (month_back_setMonth now i); cbn [fst snd].
  unfold DateFns.setMonth.
  set (y := (DateFns.fullYear now + (DateFns.month now - i) / 12)%Z).
  set (m := ((DateFns.month now - i) mod 12)%Z).
  set (d := DateFns.dayOfMonth now) in *.
  pose proof (days_in_month_ge_28 y m) as H28.
  destruct (Z.to_nat d) as [| n] eqn:F; [lia |].
  cbn [DateFns.carry_days].
  destruct (Z.leb_spec d (DateFns.days_in_month y m)) as [L | L].
  - split; reflexivity.
  - destruct n as [| n']; [lia |].
    destruct (Z.eqb_spec m 11) as [E | E]; cbn [DateFns.carry_days].
    + pose proof (days_in_month_ge_28 (y + 1) 0).
      destruct (Z.leb_spec (d - DateFns.days_in_month y m)
                           (DateFns.days_in_month (y + 1) 0)); [| lia].
      split; reflexivity.
    + pose proof (days_in_month_ge_28 y (m + 1)).
      destruct (Z.leb_spec (d - DateFns.days_in_month y m)
                           (DateFns.days_in_month y (m + 1))); [| lia].
      split; reflexivity.
Qed.

Lemma lineChartData_step_shown (now : DateFns.JsDate) (ledger : list Entry)
      (acc : LineChartData float) (i : Z) :
  calendar_date now ->
  lineChartData_step (A := js_number) now ledger acc i
  = {| labels := labels acc
                 ++ [DateFns.format_MMM_yyyy
                       (DateFns.mkDate (fst (shown_month now i))
                                       (snd (shown_month now i)) 1)];
       incomeData := incomeData acc
                     ++ [month_total (A := js_number) "income" ledger (shown_month now i)];
       expenseData := expenseData acc
                      ++ [month_total (A := js_number) "expense" ledger (shown_month now i)] |}%list.
Proof.
  intros C. destruct (setMonth_shown now i C) as [Hy Hm].
  unfold lineChartData_step; cbv zeta.
  unfold month_total, DateFns.format_MMM_yyyy, DateFns.isSameMonth.
  cbn [DateFns.fullYear DateFns.month].
  rewrite Hy, Hm, !filter_fold_is_sigma.
  reflexivity.
Qed.

(** X18. The trend on any day. For every calendar date [now] and every
    ledger, position [k] of the trend holds the label and the two totals
    of the month [5 - k] months before the month of [now] when that month
    has a day numbered like today, and those of the month after it
    otherwise (the overflow of [setMonth]): on the 29th, 30th or 31st a
    shorter month is skipped and its successor comes twice. *)
Theorem lineChartData_shows :
  forall (now : DateFns.JsDate) (ledger : list Entry),
    calendar_date now ->
    lineChartData (A := js_number) now ledger = shown_series now ledger.
Proof.
  intros now ledger C.
  unfold lineChartData, shown_series; cbn [fold_left map].
  rewrite !(lineChartData_step_shown now ledger _ _ C).
  reflexivity.
Qed.

Lemma lineChartData_shows_witness :
  lineChartData (A := js_number) (DateFns.mkDate 2024 2 31) scenario_ledger
  = shown_series (DateFns.mkDate 2024 2 31) scenario_ledger.
Proof.
  apply lineChartData_shows.
  unfold calendar_date; cbn [DateFns.fullYear DateFns.month DateFns.dayOfMonth].
  change (DateFns.days_in_month 2024 2) with 31%Z. lia.
Defined.

Lemma default_month_parses (today : DateFns.JsDate) :
  calendar_date today ->
  DateFns.parseISO (selectedMonth (initial today) ++ "-01")
  = Some (DateFns.mkDate (DateFns.fullYear today) (DateFns.month today) 1).
Proof.
  intros [Hy [Hm Hd]].
  change (selectedMonth (initial today) ++ "-01")
    with (DateFns.format_yyyy_MM_dd
            (DateFns.mkDate (DateFns.fullYear today) (DateFns.month today) 1)).
  apply parseISO_format.
  repeat split; cbn [DateFns.fullYear DateFns.month DateFns.dayOfMonth]; lia.
Qed.

Lemma shown_month_now (now : DateFns.JsDate) :
  calendar_date now ->
  shown_month now 0 = (DateFns.fullYear now, DateFns.month now).
Proof.
  intros [Hy [Hm Hd]]. unfold shown_month; cbv zeta.
  assert (E : month_back now 0 = (DateFns.fullYear now, DateFns.month now)).
  { unfold month_back; cbv zeta. f_equal; Z.div_mod_to_equations; lia. }
  rewrite E; cbn [fst snd].
  destruct (Z.leb_spec (DateFns.dayOfMonth now)
              (DateFns.days_in_month (DateFns.fullYear now) (DateFns.month now)));
    [reflexivity | lia].
Qed.

(** X19. The last position of the trend is the current month: its label
    is that of the month of [now], and its two totals are the monthly
    income and the monthly expenses that [calculations] gives for the
    month selected by default. *)
Theorem trend_ends_with_the_month_totals :
  forall (now : DateFns.JsDate) (ledger : list Entry),
    calendar_date now ->
    nth_error (labels (lineChartData (A := js_number) now ledger)) 5
    = Some (DateFns.format_MMM_yyyy now) /\
    nth_error (incomeData (lineChartData (A := js_number) now ledger)) 5
    = Some (monthlyIncome
              (calculations (A := js_number) ledger (selectedMonth (initial now)))) /\
    nth_error (expenseData (lineChartData (A := js_number) now ledger)) 5
    = Some (monthlyExpenses
              (calculations (A := js_number) ledger (selectedMonth (initial now)))).
Proof.
  intros now ledger C.
  unfold lineChartData; cbn [fold_left].
  rewrite !(lineChartData_step_shown now ledger _ _ C).
  cbn [labels incomeData expenseData app nth_error].
  rewrite (shown_month_now now C); cbn [fst snd].
  unfold calculations; cbn [monthlyIncome monthlyExpenses].
  rewrite (default_month_parses now C), !filter_fold_is_sigma.
  repeat split.
Qed.

Lemma trend_ends_with_the_month_totals_witness :
  nth_error (labels (lineChartData (A := js_number) (DateFns.mkDate 2024 2 31)
                                   scenario_ledger)) 5
  = Some (DateFns.format_MMM_yyyy (DateFns.mkDate 2024 2 31)).
Proof.
  refine (proj1 (trend_ends_with_the_month_totals (DateFns.mkDate 2024 2 31)
                   scenario_ledger _)).
  unfold calendar_date; cbn [DateFns.fullYear DateFns.month DateFns.dayOfMonth].
  change (DateFns.days_in_month 2024 2) with 31%Z. lia.
Defined.

(** X20. An entry dated with the default date of the form (today) is an
    entry of the month selected by default. *)
Theorem default_date_is_in_the_default_month :
  forall (today : DateFns.JsDate) (ledger : list Entry) (e : Entry),
    calendar_date today ->
    In e ledger ->
    date e = date (blank_form today) ->
    In e (monthlyEntries
            (calculations (A := js_number) ledger (selectedMonth (initial today)))).
Proof.
  intros today ledger e C Hin Hd.
  unfold calculations; cbn [monthlyEntries].
  apply filter_In. split; [exact Hin |].
  rewrite Hd, (default_month_parses today C).
  change (date (blank_form today)) with (DateFns.format_yyyy_MM_dd today).
  rewrite (parseISO_format today C).
  cbn [DateFns.isSameMonth DateFns.fullYear DateFns.month].
  now rewrite !Z.eqb_refl.
Qed.

Lemma default_date_is_in_the_default_month_witness :
  In {| id := Some "1709164800000"; type := "expense"; amount := "4.00";
        category := "Food"; description := "";
        date := date (blank_form (DateFns.mkDate 2024 1 29)) |}
     (monthlyEntries
        (calculations (A := js_number)
           [ {| id := Some "1709164800000"; type := "expense"; amount := "4.00";
                category := "Food"; description := "";
                date := date (blank_form (DateFns.mkDate 2024 1 29)) |} ]
           (selectedMonth (initial (DateFns.mkDate 2024 1 29))))).
Proof.
  apply (default_date_is_in_the_default_month (DateFns.mkDate 2024 1 29)).
  - unfold calendar_date; cbn [DateFns.fullYear DateFns.month DateFns.dayOfMonth].
    change (DateFns.days_in_month 2024 1) with 29%Z. lia.
  - left. reflexivity.
  - reflexivity.
Defined.

(* ================================================================== *)
(** * The pie chart *)
(* ================================================================== *)

Section ObjectFacts.

Context {V : Type}.

Lemma in_own_keys_get (o : object V) (k : string) :
  In k (map fst o) <-> get o k <> None.
Proof.
  induction o as [| [k' v] o IH]; cbn [map get fst In].
  - split; [contradiction | congruence].
  - destruct (String.eqb_spec k' k) as [E | E].
    + split; [discriminate | now left].
    + rewrite <- IH. split; [intros [H | H]; [contradiction | exact H] | now right].
Qed.

Lemma in_keys_get (o : object V) (k : string) :
  In k (keys o) <-> get o k <> None.
Proof.
  rewrite <- in_own_keys_get.
  split; apply Permutation_in;
    [apply keys_permutation | apply Permutation_sym, keys_permutation].
Qed.

Lemma own_keys_set (o : object V) (k : string) (v : V) :
  map fst (set o k v)
  = match get o k with Some _ => map fst o | None => (map fst o ++ [k])%list end.
Proof.
  induction o as [| [k' v'] o IH]; cbn [set get map fst app].
  - reflexivity.
  - destruct (k' =? k) eqn:E; cbn [map fst].
    + reflexivity.
    + rewrite IH. destruct (get o k); reflexivity.
Qed.

Lemma own_keys_set_NoDup (o : object V) (k : string) (v : V) :
  NoDup (map fst o) -> NoDup (map fst (set o k v)).
Proof.
  intros N. rewrite own_keys_set. destruct (get o k) eqn:G; [exact N |].
  apply NoDup_app; [exact N | constructor; [intros [] | constructor] |].
  intros a Ha [<- | []]. apply in_own_keys_get in Ha. contradiction.
Qed.

Lemma values_length (o : object V) : List.length (values o) = List.length (keys o).
Proof.
  unfold values, keys. now rewrite !length_map.
Qed.

(** In a list of properties with distinct keys, the value at the place
    of a key is the value of that key. *)
Lemma nth_property (p : list (string * V)) :
  NoDup (map fst p) ->
  forall (n : nat) (k : string),
    nth_error (map fst p) n = Some k -> nth_error (map snd p) n = get p k.
Proof.
  induction p as [| [k' v] p IH]; intros N n k Hn.
  - destruct n; discriminate.
  - cbn [map fst] in N. inversion N as [| x xs Hnot Hrest]; subst.
    destruct n as [| n]; cbn in Hn |- *.
    + injection Hn as ->. now rewrite String.eqb_refl.
    + destruct (String.eqb_spec k' k) as [E | E].
      * subst k'. exfalso. apply Hnot. eapply nth_error_In; exact Hn.
      * now apply IH.
Qed.

(** With distinct keys, the order of the properties does not matter to
    [get]. *)
Lemma get_permutation (p q : list (string * V)) (k : string) :
  Permutation p q -> NoDup (map fst p) -> get p k = get q k.
Proof.
  induction 1 as [| [k' v] p q P IH | [k1 v1] [k2 v2] p | p q r P1 IH1 P2 IH2];
    intros N; cbn [get map fst] in *.
  - reflexivity.
  - inversion N; subst. destruct (k' =? k); [reflexivity | now apply IH].
  - inversion N as [| x xs Hnot Hrest]; subst.
    destruct (String.eqb_spec k1 k) as [E1 | E1], (String.eqb_spec k2 k) as [E2 | E2];
      try reflexivity.
    exfalso. apply Hnot. left. congruence.
  - rewrite IH1 by exact N. apply IH2.
    eapply Permutation_NoDup; [apply Permutation_map; exact P1 | exact N].
Qed.

Lemma keys_NoDup (o : object V) : NoDup (map fst o) -> NoDup (keys o).
Proof.
  apply Permutation_NoDup, Permutation_sym, keys_permutation.
Qed.

Lemma nth_key_value (o : object V) :
  NoDup (map fst o) ->
  forall (n : nat) (k : string),
    nth_error (keys o) n = Some k -> nth_error (values o) n = get o k.
Proof.
  intros N n k Hn. unfold keys, values in *.
  rewrite (nth_property (ownProperties o) (keys_NoDup o N) n k Hn).
  apply get_permutation; [apply ownProperties_permutation | exact (keys_NoDup o N)].
Qed.

(** When no key is an array index, the keys are listed in the order of
    their creation. *)
Lemma keys_in_creation_order (o : object V) :
  (forall k, In k (map fst o) -> array_index k = None) ->
  ownProperties o = o.
Proof.
  intros H. unfold ownProperties.
  assert (I : fold_right (fun (p : string * V) l =>
                            match array_index (fst p) with
                            | Some n => insert_by_index n p l
                            | None => l
                            end) [] o = []).
  { induction o as [| p o IH]; [reflexivity |].
    cbn [fold_right]. rewrite (H (fst p)) by now left.
    apply IH. intros k Hk. apply H. now right. }
  rewrite I. cbn [map app].
  induction o as [| p o IH]; [reflexivity |].
  cbn [filter]. rewrite (H (fst p)) by now left.
  f_equal. apply IH.
  - intros k Hk. apply H. now right.
  - cbn [fold_right] in I. rewrite (H (fst p)) in I by now left. exact I.
Qed.

End ObjectFacts.

Lemma breakdown_own_keys_NoDup {num : Type} {A : Arith num} (es : list Entry) :
  forall acc : object num,
    NoDup (map fst acc) -> NoDup (map fst (fold_left breakdown_step es acc)).
Proof.
  induction es as [| e es IH]; intros acc N; cbn [fold_left]; [exact N |].
  apply IH. unfold breakdown_step. now apply own_keys_set_NoDup.
Qed.

Lemma existsb_eqb_In (k : string) (l : list string) :
  existsb (String.eqb k) l = true <-> In k l.
Proof.
  rewrite existsb_exists. split.
  - intros [x [Hx E]]. apply String.eqb_eq in E. now subst x.
  - intros H. exists k. split; [exact H | apply String.eqb_refl].
Qed.

Lemma first_appearances_seen (s s' : list string) (es : list Entry) :
  (forall k, In k s <-> In k s') ->
  first_appearances s es = first_appearances s' es.
Proof.
  revert s s'; induction es as [| e es IH]; intros s s' H; cbn [first_appearances];
    [reflexivity |].
  assert (E : existsb (String.eqb (category e)) s = existsb (String.eqb (category e)) s').
  { apply eq_true_iff_eq. rewrite !existsb_eqb_In. apply H. }
  rewrite E. destruct (existsb (String.eqb (category e)) s').
  - now apply IH.
  - f_equal. apply IH. intros k. cbn [In]. rewrite H. reflexivity.
Qed.

(** The own keys of the breakdown are the categories reduced, in the
    order in which each one first came. *)
Lemma breakdown_own_keys {num : Type} {A : Arith num} (es : list Entry) :
  forall acc : object num,
    map fst (fold_left breakdown_step es acc)
    = (map fst acc ++ first_appearances (map fst acc) es)%list.
Proof.
  induction es as [| e es IH]; intros acc; cbn [fold_left first_appearances].
  - now rewrite app_nil_r.
  - rewrite IH. unfold breakdown_step. rewrite own_keys_set.
    destruct (get acc (category e)) as [v |] eqn:G.
    + assert (E : existsb (String.eqb (category e)) (map fst acc) = true).
      { apply existsb_eqb_In, in_own_keys_get. congruence. }
      now rewrite E.
    + assert (E : existsb (String.eqb (category e)) (map fst acc) = false).
      { apply not_true_iff_false. rewrite existsb_eqb_In, in_own_keys_get. congruence. }
      rewrite E, <- app_assoc. cbn [app]. do 2 f_equal.
      apply first_appearances_seen. intros k.
      rewrite in_app_iff. cbn [In]. tauto.
Qed.

Lemma first_appearances_In (s : list string) (es : list Entry) (k : string) :
  In k (first_appearances s es)
  <-> ~ In k s /\ exists e, In e es /\ category e = k.
Proof.
  revert s; induction es as [| e es IH]; intros s; cbn [first_appearances In].
  - split; [contradiction | intros [_ [e [[] _]]]].
  - destruct (existsb (String.eqb (category e)) s) eqn:E.
    + apply existsb_eqb_In in E. rewrite IH. split.
      * intros [Hs [x [Hx Hc]]]. split; [exact Hs |]. exists x. split; [now right | exact Hc].
      * intros [Hs [x [[<- | Hx] Hc]]]; [subst k; contradiction |].
        split; [exact Hs |]. now exists x.
    + apply not_true_iff_false in E. rewrite existsb_eqb_In in E.
      cbn [In]. rewrite IH. cbn [In]. split.
      * intros [<- | [Hs [x [Hx Hc]]]].
        -- split; [exact E |]. exists e. split; [now left | reflexivity].
        -- split; [tauto |]. exists x. split; [now right | exact Hc].
      * intros [Hs [x [[<- | Hx] Hc]]]; [now left |].
        destruct (string_dec (category e) k) as [D | D]; [now left | right].
        split; [tauto |]. now exists x.
Qed.

Lemma firstn_colors_length (n : nat) :
  List.length (firstn n PieChart.colors) = Nat.min n 8.
Proof.
  rewrite length_firstn. reflexivity.
Qed.

(** X21. The pie chart of a month whose expense categories are no
    property names of [Object.prototype]: its labels are the categories of
    the month's expenses, each once; its data are the numbers held under
    these categories, in the same order; and it has one colour for each
    of the first eight labels and none beyond. *)
Theorem pieChartData_slices :
  forall (ledger : list Entry) (month : string),
    plain_categories (month_expenses ledger month) ->
    NoDup (PieChart.labels
             (pieChartData (categoryBreakdown (calculations (A := js_number) ledger month)))) /\
    (forall cat : string,
        In cat (PieChart.labels
                  (pieChartData (categoryBreakdown
                                   (calculations (A := js_number) ledger month))))
        <-> exists e, In e (month_expenses ledger month) /\ category e = cat) /\
    (forall (n : nat) (cat : string),
        nth_error (PieChart.labels
                     (pieChartData (categoryBreakdown
                                      (calculations (A := js_number) ledger month)))) n
        = Some cat ->
        nth_error (PieChart.data
                     (pieChartData (categoryBreakdown
                                      (calculations (A := js_number) ledger month)))) n
        = get (categoryBreakdown (calculations (A := js_number) ledger month)) cat) /\
    List.length (PieChart.data
                   (pieChartData (categoryBreakdown
                                    (calculations (A := js_number) ledger month))))
    = List.length (categories_in_order (month_expenses ledger month)) /\
    List.length (PieChart.backgroundColor
                   (pieChartData (categoryBreakdown
                                    (calculations (A := js_number) ledger month))))
    = Nat.min (List.length (categories_in_order (month_expenses ledger month))) 8 /\
    List.length (PieChart.borderColor
                   (pieChartData (categoryBreakdown
                                    (calculations (A := js_number) ledger month))))
    = Nat.min (List.length (categories_in_order (month_expenses ledger month))) 8.
Proof.
  intros ledger month _.
  assert (B : categoryBreakdown (calculations (A := js_number) ledger month)
              = fold_left breakdown_step (month_expenses ledger month) [])
    by reflexivity.
  rewrite B. set (bd := fold_left breakdown_step (month_expenses ledger month) []).
  assert (K : map fst bd = categories_in_order (month_expenses ledger month))
    by (unfold bd; now rewrite breakdown_own_keys).
  assert (N : NoDup (map fst bd))
    by (apply (breakdown_own_keys_NoDup _ []); constructor).
  assert (L : List.length (keys bd)
              = List.length (categories_in_order (month_expenses ledger month))).
  { rewrite <- K. apply Permutation_length, keys_permutation. }
  unfold pieChartData;
    cbn [PieChart.labels PieChart.data PieChart.backgroundColor PieChart.borderColor].
  split; [now apply keys_NoDup |].
  split.
  { intros cat.
    assert (P : In cat (keys bd) <-> In cat (map fst bd))
      by (split; apply Permutation_in;
          [apply keys_permutation | apply Permutation_sym, keys_permutation]).
    rewrite P, K. unfold categories_in_order. rewrite first_appearances_In.
    cbn [In]. tauto. }
  split; [exact (nth_key_value bd N) |].
  split; [now rewrite values_length |].
  split; [now rewrite firstn_colors_length, L |].
  now rewrite length_map, firstn_colors_length, L.
Qed.

Lemma pieChartData_slices_witness :
  List.length (PieChart.backgroundColor
                 (pieChartData (categoryBreakdown
                                  (calculations (A := js_number) quarters_ledger "2024-01"))))
  = Nat.min (List.length (categories_in_order (month_expenses quarters_ledger "2024-01"))) 8.
Proof.
  refine (proj1 (proj2 (proj2 (proj2 (proj2
            (pieChartData_slices quarters_ledger "2024-01" _)))))).
  apply plain_categories_forallb. vm_compute. reflexivity.
Defined.

(** X22. When besides none of these categories is an array index, as with
    the words of [CATEGORIES], the labels of the pie come in the order in
    which the categories first appear among the month's expenses. *)
Theorem pie_labels_in_order_of_appearance :
  forall (ledger : list Entry) (month : string),
    plain_categories (month_expenses ledger month) ->
    (forall e, In e (month_expenses ledger month) -> array_index (category e) = None) ->
    PieChart.labels
      (pieChartData (categoryBreakdown (calculations (A := js_number) ledger month)))
    = categories_in_order (month_expenses ledger month).
Proof.
  intros ledger month _ H.
  assert (B : categoryBreakdown (calculations (A := js_number) ledger month)
              = fold_left breakdown_step (month_expenses ledger month) [])
    by reflexivity.
  rewrite B. set (bd := fold_left breakdown_step (month_expenses ledger month) []).
  assert (K : map fst bd = categories_in_order (month_expenses ledger month))
    by (unfold bd; now rewrite breakdown_own_keys).
  unfold pieChartData; cbn [PieChart.labels]. unfold keys.
  rewrite keys_in_creation_order; [exact K |].
  intros k Hk. rewrite K in Hk. unfold categories_in_order in Hk.
  apply first_appearances_In in Hk. destruct Hk as [_ [e [He <-]]]. now apply H.
Qed.

Lemma pie_labels_in_order_of_appearance_witness :
  PieChart.labels
    (pieChartData (categoryBreakdown
                     (calculations (A := js_number) quarters_ledger "2024-01")))
  = ["Food"; "Transport"; "Bills"].
Proof.
  refine (pie_labels_in_order_of_appearance quarters_ledger "2024-01" _ _).
  - apply plain_categories_forallb. vm_compute. reflexivity.
  - intros e He. vm_compute in He.
    repeat (destruct He as [<- | He]; [vm_compute; reflexivity |]).
    contradiction.
Defined.

(** Array indices come first: a category "7" entered after "Food" is the
    first label. *)
Example pie_labels_with_an_array_index :
  keys (set (set (set [] "Food" 1%float) "10" 2%float) "7" 3%float)
  = ["7"; "10"; "Food"] /\
  values (set (set (set [] "Food" 1%float) "10" 2%float) "7" 3%float)
  = [3%float; 2%float; 1%float].
Proof. vm_compute. split; reflexivity. Qed.

(** X23. The pie is drawn exactly when the month has an expense, for a
    month whose expense categories are no property names of
    [Object.prototype]. *)
Theorem pie_shown_iff_month_has_expenses :
  forall (ledger : list Entry) (month : string),
    plain_categories (month_expenses ledger month) ->
    (pie_shown (calculations (A := js_number) ledger month) = true
     <-> month_expenses ledger month <> []).
Proof.
  intros ledger month _.
  unfold pie_shown.
  assert (B : categoryBreakdown (calculations (A := js_number) ledger month)
              = fold_left breakdown_step (month_expenses ledger month) [])
    by reflexivity.
  rewrite B.
  destruct (month_expenses ledger month) as [| e es] eqn:M.
  - cbn. split; [discriminate | congruence].
  - split; [discriminate | intros _].
    apply negb_true_iff, Nat.eqb_neq. intros L.
    apply length_zero_iff_nil in L.
    assert (G : get (fold_left breakdown_step (e :: es) []) (category e) <> None).
    { intros G. apply (breakdown_key (A := js_number)) in G.
      cbn [filter] in G. rewrite String.eqb_refl in G. discriminate. }
    apply in_keys_get in G. rewrite L in G. contradiction.
Qed.

Lemma pie_shown_iff_month_has_expenses_witness :
  pie_shown (calculations (A := js_number) quarters_ledger "2024-01") = true
  <-> month_expenses quarters_ledger "2024-01" <> [].
Proof.
  apply pie_shown_iff_month_has_expenses.
  apply plain_categories_forallb. vm_compute. reflexivity.
Defined.

(** X24. What the breakdown holds under a category, for a month whose
    expense categories are no property names of [Object.prototype]: the
    amounts of the month's expenses of that category, accumulated in ledger
    order with [(acc || 0) + x], and nothing when there is none. *)
Theorem category_sum_in_ledger_order :
  forall (ledger : list Entry) (month cat : string),
    plain_categories (month_expenses ledger month) ->
    get (categoryBreakdown (calculations (A := js_number) ledger month)) cat
    = fold_left (fun (o : option float) entry =>
                   Some (PrimFloat.add (or_zero (A := js_number) o)
                                       (JsNumber.parseFloat (amount entry))))
                (filter (fun entry => category entry =? cat)
                        (month_expenses ledger month))
                None.
Proof.
  intros ledger month cat _.
  exact (get_breakdown (A := js_number) cat (month_expenses ledger month) []).
Qed.

Lemma category_sum_in_ledger_order_witness :
  get (categoryBreakdown (calculations (A := js_number) quarters_ledger "2024-01")) "Food"
  = Some 16.25%float.
Proof.
  refine (eq_trans (category_sum_in_ledger_order quarters_ledger "2024-01" "Food" _) _).
  - apply plain_categories_forallb. vm_compute. reflexivity.
  - vm_compute. reflexivity.
Defined.

(* ================================================================== *)
(** * Amounts that are no numbers, entries of no type, and what an add
      changes *)
(* ================================================================== *)

Lemma is_nan_Prim2SF (x : float) : is_nan x = true <-> Prim2SF x = S754_nan.
Proof.
  unfold Prim2SF. destruct (is_nan x); [tauto |].
  split; [discriminate |].
  destruct (is_zero x); [discriminate |].
  destruct (is_infinity x); [discriminate |].
  destruct (Z.frexp x) as [r e].
  destruct (shr_fexp prec emax (Uint63Axioms.to_Z (normfr_mantissa r)) (e - prec) loc_Exact)
    as [s e'].
  destruct (shr_m s); discriminate.
Qed.

Lemma nan_add_l (x y : float) : is_nan x = true -> is_nan (x + y)%float = true.
Proof.
  rewrite !is_nan_Prim2SF, add_spec. intros ->. reflexivity.
Qed.

Lemma nan_add_r (x y : float) : is_nan y = true -> is_nan (x + y)%float = true.
Proof.
  rewrite !is_nan_Prim2SF, add_spec. intros ->.
  unfold SF64add, SFadd. destruct (Prim2SF x); reflexivity.
Qed.

Lemma nan_sub_l (x y : float) : is_nan x = true -> is_nan (x - y)%float = true.
Proof.
  rewrite !is_nan_Prim2SF, sub_spec. intros ->. reflexivity.
Qed.

Lemma nan_sub_r (x y : float) : is_nan y = true -> is_nan (x - y)%float = true.
Proof.
  rewrite !is_nan_Prim2SF, sub_spec. intros ->.
  unfold SF64sub, SFsub. destruct (Prim2SF x); reflexivity.
Qed.

Lemma fold_amount_nan_start (l : list Entry) (a : float) :
  is_nan a = true ->
  is_nan (fold_left (fun sum entry => PrimFloat.add sum (JsNumber.parseFloat (amount entry)))
                    l a) = true.
Proof.
  revert a; induction l as [| e l IH]; intros a H; cbn [fold_left]; [exact H |].
  apply IH. now apply nan_add_l.
Qed.

Lemma fold_amount_nan (l : list Entry) (e : Entry) (a : float) :
  In e l ->
  is_nan (JsNumber.parseFloat (amount e)) = true ->
  is_nan (fold_left (fun sum entry => PrimFloat.add sum (JsNumber.parseFloat (amount entry)))
                    l a) = true.
Proof.
  revert a; induction l as [| e' l IH]; intros a Hin H; [contradiction |].
  cbn [fold_left]. destruct Hin as [-> | Hin].
  - apply fold_amount_nan_start. now apply nan_add_r.
  - now apply IH.
Qed.

(** X25. An amount that [parseFloat] does not read poisons the totals:
    if an entry of the ledger has such an amount, the total of its type is
    NaN, whatever the other entries, and so is the balance. *)
Theorem unparseable_amount_makes_totals_NaN :
  forall (ledger : list Entry) (month : string) (e : Entry),
    In e ledger ->
    is_nan (JsNumber.parseFloat (amount e)) = true ->
    (type e = "income" ->
     is_nan (totalIncome (calculations (A := js_number) ledger month)) = true) /\
    (type e = "expense" ->
     is_nan (totalExpenses (calculations (A := js_number) ledger month)) = true) /\
    (type e = "income" \/ type e = "expense" ->
     is_nan (balance (calculations (A := js_number) ledger month)) = true).
Proof.
  intros ledger month e Hin Hnan.
  unfold calculations; cbn [totalIncome totalExpenses balance].
  assert (I : type e = "income" ->
              is_nan (fold_left
                        (fun sum entry => add sum (parseFloat (amount entry)))
                        (filter (fun entry => type entry =? "income") ledger) zero) = true).
  { intros T. apply (fold_amount_nan _ e); [| exact Hnan].
    apply filter_In. split; [exact Hin | now apply String.eqb_eq]. }
  assert (X : type e = "expense" ->
              is_nan (fold_left
                        (fun sum entry => add sum (parseFloat (amount entry)))
                        (filter (fun entry => type entry =? "expense") ledger) zero) = true).
  { intros T. apply (fold_amount_nan _ e); [| exact Hnan].
    apply filter_In. split; [exact Hin | now apply String.eqb_eq]. }
  split; [exact I |]. split; [exact X |].
  intros [T | T].
  - apply nan_sub_l. now apply I.
  - apply nan_sub_r. now apply X.
Qed.

Lemma unparseable_amount_makes_totals_NaN_witness :
  is_nan (totalExpenses
            (calculations (A := js_number)
               [ {| id := Some "1704441600000"; type := "expense"; amount := "1.50";
                    category := "Food"; description := ""; date := "2024-01-05" |};
                 {| id := Some "1704873600000"; type := "expense"; amount := "abc";
                    category := "Bills"; description := ""; date := "2024-01-10" |} ]
               "2024-01")) = true.
Proof.
  refine (proj1 (proj2 (unparseable_amount_makes_totals_NaN _ "2024-01"
            {| id := Some "1704873600000"; type := "expense"; amount := "abc";
               category := "Bills"; description := ""; date := "2024-01-10" |} _ _))
            eq_refl).
  - right. left. reflexivity.
  - vm_compute. reflexivity.
Defined.

Lemma filter_without {T : Type} (p : T -> bool) (l1 l2 : list T) (x : T) :
  p x = false -> filter p (l1 ++ x :: l2) = filter p (l1 ++ l2).
Proof.
  intros H. rewrite !filter_app. cbn [filter]. now rewrite H.
Qed.

Lemma filter_filter_without {T : Type} (p q : T -> bool) (l1 l2 : list T) (x : T) :
  p x = false \/ q x = false ->
  filter p (filter q (l1 ++ x :: l2)) = filter p (filter q (l1 ++ l2)).
Proof.
  intros H. rewrite !filter_app. cbn [filter].
  destruct (q x) eqn:Q; [| reflexivity].
  cbn [filter]. destruct H as [H | H]; [now rewrite H | discriminate].
Qed.

(** X26. An entry whose type is neither income nor expense counts in no
    aggregate: the totals, the balance, the monthly totals, the breakdown
    and the trend are those of the ledger without it. *)
Theorem entry_of_unknown_type_counts_nowhere :
  forall (l1 l2 : list Entry) (e : Entry) (month : string) (now : DateFns.JsDate),
    type e <> "income" ->
    type e <> "expense" ->
    same_aggregates (calculations (A := js_number) (l1 ++ e :: l2) month)
                    (calculations (A := js_number) (l1 ++ l2) month) /\
    lineChartData (A := js_number) now (l1 ++ e :: l2)
    = lineChartData (A := js_number) now (l1 ++ l2).
Proof.
  intros l1 l2 e month now Hi He.
  apply String.eqb_neq in Hi, He.
  split.
  - unfold same_aggregates, calculations;
      cbn [totalIncome totalExpenses balance monthlyIncome monthlyExpenses
           categoryBreakdown].
    rewrite !(filter_without (fun entry => type entry =? "income") l1 l2 e Hi).
    rewrite !(filter_without (fun entry => type entry =? "expense") l1 l2 e He).
    rewrite !(filter_filter_without (fun entry => type entry =? "income") _ l1 l2 e
                (or_introl Hi)).
    rewrite !(filter_filter_without (fun entry => type entry =? "expense") _ l1 l2 e
                (or_introl He)).
    repeat split.
  - unfold lineChartData; cbn [fold_left]. unfold lineChartData_step.
    rewrite !(filter_filter_without (fun entry => type entry =? "income") _ l1 l2 e
                (or_introl Hi)).
    rewrite !(filter_filter_without (fun entry => type entry =? "expense") _ l1 l2 e
                (or_introl He)).
    reflexivity.
Qed.

Lemma entry_of_unknown_type_counts_nowhere_witness :
  same_aggregates
    (calculations (A := js_number)
       ([] ++ {| id := Some "1704441600000"; type := "transfer"; amount := "75.00";
                 category := "Other"; description := ""; date := "2024-01-05" |}
           :: scenario_ledger) "2024-01")
    (calculations (A := js_number) ([] ++ scenario_ledger) "2024-01").
Proof.
  refine (proj1 (entry_of_unknown_type_counts_nowhere []
                   scenario_ledger
                   {| id := Some "1704441600000"; type := "transfer"; amount := "75.00";
                      category := "Other"; description := ""; date := "2024-01-05" |}
                   "2024-01" (DateFns.mkDate 2024 2 31) _ _)).
  - discriminate.
  - discriminate.
Defined.

Lemma fold_amount_snoc (l : list Entry) (e : Entry) (t : string) (a : float) :
  fold_left (fun sum entry => PrimFloat.add sum (JsNumber.parseFloat (amount entry)))
            (filter (fun entry => type entry =? t) (l ++ [e])) a
  = if type e =? t
    then PrimFloat.add
           (fold_left (fun sum entry => PrimFloat.add sum (JsNumber.parseFloat (amount entry)))
                      (filter (fun entry => type entry =? t) l) a)
           (JsNumber.parseFloat (amount e))
    else fold_left (fun sum entry => PrimFloat.add sum (JsNumber.parseFloat (amount entry)))
                   (filter (fun entry => type entry =? t) l) a.
Proof.
  rewrite filter_app. cbn [filter].
  destruct (type e =? t).
  - now rewrite fold_left_app.
  - now rewrite app_nil_r.
Qed.

(** X27. What an add changes in the totals: with nothing being edited and
    the form filled, submitting an income adds the stored amount (the
    number read back from its two-decimal writing) to the total income,
    after the amounts already there, and leaves the total expenses as they
    are; and the other way round for an expense. *)
Theorem add_moves_one_total :
  forall (now : Z) (today : DateFns.JsDate) (st : State) (month : string),
    truthy_opt (editingId st) = false ->
    form_filled st ->
    (type (currentEntry st) = "income" ->
     totalIncome (calculations (A := js_number)
                    (entries (handleSubmit now today st)) month)
     = PrimFloat.add
         (totalIncome (calculations (A := js_number) (entries st) month))
         (JsNumber.parseFloat
            (JsNumber.toFixed2 (JsNumber.parseFloat (amount (currentEntry st))))) /\
     totalExpenses (calculations (A := js_number)
                      (entries (handleSubmit now today st)) month)
     = totalExpenses (calculations (A := js_number) (entries st) month)) /\
    (type (currentEntry st) = "expense" ->
     totalExpenses (calculations (A := js_number)
                      (entries (handleSubmit now today st)) month)
     = PrimFloat.add
         (totalExpenses (calculations (A := js_number) (entries st) month))
         (JsNumber.parseFloat
            (JsNumber.toFixed2 (JsNumber.parseFloat (amount (currentEntry st))))) /\
     totalIncome (calculations (A := js_number)
                    (entries (handleSubmit now today st)) month)
     = totalIncome (calculations (A := js_number) (entries st) month)).
Proof.
  intros now today st month Hadd Hform.
  destruct (handleSubmit_adds now today st Hadd Hform) as [He _].
  unfold calculations; cbn [totalIncome totalExpenses].
  rewrite He.
  change (fun sum entry => add sum (parseFloat (amount entry)))
    with (fun sum entry => PrimFloat.add sum (JsNumber.parseFloat (amount entry))).
  rewrite !fold_amount_snoc.
  change (type (new_entry now st)) with (type (currentEntry st)).
  change (JsNumber.parseFloat (amount (new_entry now st)))
    with (JsNumber.parseFloat
            (JsNumber.toFixed2 (JsNumber.parseFloat (amount (currentEntry st))))).
  split; intros T; rewrite T; split; reflexivity.
Qed.

Lemma add_moves_one_total_witness :
  totalExpenses (calculations (A := js_number)
                   (entries (handleSubmit 1700000060000 (DateFns.mkDate 2023 10 14)
                                          busy_state)) "2023-11")
  = PrimFloat.add
      (totalExpenses (calculations (A := js_number) (entries busy_state) "2023-11"))
      (JsNumber.parseFloat
         (JsNumber.toFixed2 (JsNumber.parseFloat (amount (currentEntry busy_state))))).
Proof.
  assert (F : form_filled busy_state) by (split; discriminate).
  exact (proj1 (proj2 (add_moves_one_total 1700000060000 (DateFns.mkDate 2023 10 14)
                         busy_state "2023-11" eq_refl F) eq_refl)).
Defined.

(* ================================================================== *)
(** * The cards: amounts as they are shown *)
(* ================================================================== *)

(** X28. The balance card and the monthly card show [Math.abs(x).toFixed(2)]:
    what [x.toFixed(2)] would show, without its minus sign if it has
    one. *)
Theorem shown_magnitude_drops_the_sign :
  forall x : float,
    shown_magnitude x = shown_total x \/
    shown_total x = "-" ++ shown_magnitude x.
Proof.
  intros x. unfold shown_magnitude, shown_total, JsNumber.toFixed2.
  rewrite abs_spec.
  destruct (Prim2SF x) as [s | s | | s m e]; unfold SFabs.
  - left. reflexivity.
  - destruct s; [right | left]; reflexivity.
  - left. reflexivity.
  - destruct s; [right | left; reflexivity].
    cbv zeta.
    generalize (JsNumber.exponential (Z.pos m) e).
    generalize ((0 <=? e)%Z && (10 ^ 21 <=? Z.pos m * 2 ^ e)%Z).
    match goal with
    | |- context [substring 0 ?k ?ds] => generalize ds
    end.
    intros ds b ex. destruct b; reflexivity.
Qed.
